(** * Fitbit EDA: the join-and-reconcile pipeline of [main.py]

    A shallow embedding of lines 30-164 of [src/main.py] (loading, identifier
    and date normalisation, de-duplication, heart-rate aggregation, the
    left-join chain, the quality flags, the group means and the step
    segments), followed by the properties of the pipeline.  Saving the
    tables and plotting are not modelled.

    Data frames are modelled the way pandas presents them to the script:
    an ordered list of column names and a list of rows, each row a finite
    map from column names to cells.  A cell is a missing value (NaN, NaT,
    <NA>), a number, a string, a timestamp or a boolean.  Numbers are exact
    rationals kept in lowest terms: float64 arithmetic (mean, median,
    rounding) is idealised as rational arithmetic, except for the
    integer-to-float64 conversion inside identifier normalisation, which is
    modelled bit-exactly because it decides which identifier strings come
    out.

    The two parsers pandas supplies (numeric literals for [pd.to_numeric],
    [strptime] formats for [pd.to_datetime]) are an interface, [Pandas];
    the file system and [pd.read_csv] are a record, [FileSystem].

    The exceptions modelled are the ones the script can meet on tables
    read from CSV files: [KeyError] of a merge on an absent key column and
    of an aggregation of an absent column, [TypeError] of the cast to
    Int64 and of the mean of a column of strings, [ValueError] of
    [pd.to_datetime(errors="raise")] and of a column assigned with the
    wrong length.  Two ways the script can stop are not modelled: the
    dtype checks pandas applies to the key columns of a merge, and the
    conversion of line 125 on a [date] column that holds strings (an
    activity export with a [date] column of its own and no
    [ActivityDate]).  On such a run the model returns where the script
    stops; the properties of the joined table are stated of the runs that
    return. *)

From Stdlib Require Import ZArith QArith Qabs Qround String Ascii List Bool Lia.
From Stdlib Require Import DecimalString DecimalZ Permutation Sorted Lqa OrderedTypeEx.
From stdpp Require Import base option list gmap strings fin_maps.

Open Scope string_scope.
Open Scope list_scope.
Open Scope Z_scope.

(** ** Cells *)

(** A [datetime64] value, field by field. *)
Record Timestamp := mkTS {
  year : Z; month : Z; day : Z; hour : Z; minute : Z; second : Z }.

Inductive cell :=
| VNull                    (* NaN / NaT / <NA> *)
| VNum (q : Q)             (* int64 or float64 *)
| VStr (s : string)
| VDate (t : Timestamp)    (* datetime64 *)
| VBool (b : bool).

#[global] Instance Q_eq_dec : EqDecision Q.
Proof. solve_decision. Defined.
#[global] Instance Timestamp_eq_dec : EqDecision Timestamp.
Proof. solve_decision. Defined.
#[global] Instance cell_eq_dec : EqDecision cell.
Proof. solve_decision. Defined.

(** ** Exceptions and the script's effects *)

Inductive Exn :=
| KeyError (column : string)
| TypeError (msg : string)
| ValueError (msg : string).

(** A computation that returns or raises. *)
Definition Res (A : Type) : Type := Exn + A.

Definition res_bind {A B} (f : A -> Res B) (m : Res A) : Res B :=
  match m with inl e => inl e | inr a => f a end.

#[global] Instance Res_ret : MRet Res := fun _ a => inr a.
#[global] Instance Res_bind : MBind Res := fun _ _ f m => res_bind f m.
#[global] Instance Res_fmap : FMap Res := fun _ _ f m =>
  match m with inl e => inl e | inr a => inr (f a) end.

(** The script itself: it prints (the lines accumulate, newest last) and it
    may stop on an uncaught exception, the lines printed so far staying
    printed. *)
Definition M (A : Type) : Type := list string -> Res A * list string.

#[global] Instance M_ret : MRet M := fun _ a out => (inr a, out).
#[global] Instance M_bind : MBind M := fun _ _ f m out =>
  match m out with
  | (inl e, out') => (inl e, out')
  | (inr a, out') => f a out'
  end.

Definition lift {A} (r : Res A) : M A := fun out => (r, out).

(** [log(msg)], lines 30-31. *)
Definition log (msg : string) : M unit :=
  fun out => (inr tt, out ++ ["[Fitbit-EDA] " +:+ msg]).

(** ** Data frames *)

Record DataFrame := mkDF {
  columns : list string;
  rows : list (gmap string cell) }.

(** [df.loc[i, c]]; a row that lacks the column reads as missing. *)
Definition get (c : string) (r : gmap string cell) : cell :=
  default VNull (r !! c).

(** [c in df.columns] *)
Definition has_col (c : string) (df : DataFrame) : bool :=
  bool_decide (c ∈ columns df).

(** [df[c]], the column as a list of cells in row order. *)
Definition col (c : string) (df : DataFrame) : list cell :=
  map (get c) (rows df).

(** [df[c] = vs] and [df.assign(c=vs)]: the column is replaced where it
    stands, or appended when new. *)
Definition assign (c : string) (vs : list cell) (df : DataFrame) : DataFrame :=
  mkDF (if has_col c df then columns df else columns df ++ [c])
       (zip_with (fun r v => <[c := v]> r) (rows df) vs).

(** [df[cols]], projection on a list of columns. *)
Definition project (cols : list string) (df : DataFrame) : DataFrame :=
  mkDF cols (map (filter (fun kv : string * cell => kv.1 ∈ cols)) (rows df)).

(** [pd.DataFrame(columns=cols)] *)
Definition empty_frame (cols : list string) : DataFrame := mkDF cols [].

(** [len(df)] *)
Definition len (df : DataFrame) : nat := length (rows df).

(** ** Numbers *)

Definition INT64_MIN : Z := - 2 ^ 63.
Definition INT64_MAX : Z := 2 ^ 63 - 1.

Definition in_int64 (z : Z) : bool := (INT64_MIN <=? z) && (z <=? INT64_MAX).

(** The integer a rational is, when it is one. *)
Definition Qint (q : Q) : option Z :=
  if Qnum q mod Z.pos (Qden q) =? 0 then Some (Qnum q / Z.pos (Qden q)) else None.

(** The float64 nearest to an integer (round to nearest, ties to even):
    exact below [2^53]; above, the 53 leading bits are kept. *)
Definition float64_of_Z (z : Z) : Z :=
  let a := Z.abs z in
  if a <? 2 ^ 53 then z
  else
    let e := Z.log2 a - 52 in
    let m := a / 2 ^ e in
    let r := a mod 2 ^ e in
    let half := 2 ^ (e - 1) in
    let m' := if r <? half then m
              else if half <? r then m + 1
              else if Z.even m then m else m + 1 in
    Z.sgn z * (m' * 2 ^ e).

(** Python's [str] of an integer. *)
Definition str_int (z : Z) : string := NilZero.string_of_int (Z.to_int z).

(** What the numeric parser makes of a literal: an integer literal keeps
    its integer value, any other numeric literal is a float64. *)
Inductive numeric :=
| NInt (z : Z)
| NFloat (q : Q).

(** ** The library and the world *)

(** The parsers of pandas.  [floatify s] is the number [pd.to_numeric]
    reads in the string [s] ([None]: not a number); [strptime fmt s] is the
    timestamp [pd.to_datetime] reads in [s] under the format [fmt]
    ([None]: no match).  All that is assumed of them: a decimal integer
    literal in the int64 range reads as that integer, and ["<NA>"] is not
    a number. *)
Class Pandas := {
  floatify : string -> option numeric;
  strptime : string -> string -> option Timestamp;
  floatify_int64 : forall z, in_int64 z = true -> floatify (str_int z) = Some (NInt z);
  floatify_NA : floatify "<NA>" = None }.

(** The files: whether a path exists, and what [pd.read_csv] does with it
    (a frame, or an exception with its message). *)
Record FileSystem := {
  path_exists : string -> bool;
  pd_read_csv : string -> string + DataFrame }.

(** ** Config, lines 16-24 *)

Definition DATA_DIR : string := "data_raw".
Definition path_join (a b : string) : string := a +:+ "/" +:+ b.

Definition DAILY_CSV : string := path_join DATA_DIR "dailyActivity_merged.csv".
Definition SLEEP_CSV : string := path_join DATA_DIR "sleepDay_merged.csv".
Definition WEIGHT_CSV : string := path_join DATA_DIR "weightLogInfo_merged.csv".
Definition HEART_CSV : string := path_join DATA_DIR "heartrate_seconds_merged.csv".

(** ** Load, lines 34-51 *)

Definition read_csv_safe (fs : FileSystem) (path : string) : M (option DataFrame) :=
  if negb (path_exists fs path) then
    _ ← log ("Missing file: " +:+ path); mret None
  else
    match pd_read_csv fs path with
    | inr df => mret (Some df)
    | inl e => _ ← log ("Failed to read " +:+ path +:+ ": " +:+ e); mret None
    end.

Definition warn_not_loaded (name : string) (df : option DataFrame) : M unit :=
  match df with
  | None => log ("WARNING: " +:+ name +:+ " not loaded")
  | Some _ => mret tt
  end.

Section Script.
Context `{Pandas}.

(** ** Identifier normalisation, lines 53-61 *)

(** One cell under [pd.to_numeric(..., errors="coerce")]: [None] is NaN.
    Timestamps never reach it (no column the script coerces holds any). *)
Definition numeric_of_cell (c : cell) : option numeric :=
  match c with
  | VNum q => Some (match Qint q with Some z => NInt z | None => NFloat q end)
  | VStr s => floatify s
  | VBool b => Some (NInt (if b then 1 else 0))
  | VNull | VDate _ => None
  end.

(** The result is a float64 column as soon as one value is a float or NaN,
    an int64 column otherwise. *)
Definition is_float64 (l : list (option numeric)) : bool :=
  existsb (fun n => match n with Some (NInt _) => false | _ => true end) l.

(** One value under [.astype("Int64")]: NaN becomes <NA>; a value of a
    float64 column must be an integer, one of any column must fit int64. *)
Definition int64_of (as_float : bool) (n : option numeric) : Res (option Z) :=
  match n with
  | None => inr None
  | Some v =>
    let z := match v with
             | NInt z => Some (if as_float then float64_of_Z z else z)
             | NFloat q => float64_of_Z <$> Qint q
             end in
    match z with
    | Some z =>
      if in_int64 z then inr (Some z)
      else inl (TypeError "cannot safely cast non-equivalent float64 to int64")
    | None => inl (TypeError "cannot safely cast non-equivalent float64 to int64")
    end
  end.

Fixpoint traverse {A B} (f : A -> Res B) (l : list A) : Res (list B) :=
  match l with
  | [] => inr []
  | a :: l => b ← f a; bs ← traverse f l; mret (b :: bs)
  end.

Definition astype_Int64 (l : list (option numeric)) : Res (list (option Z)) :=
  traverse (int64_of (is_float64 l)) l.

(** [.astype(str)] on a nullable integer. *)
Definition astype_str (z : option Z) : cell :=
  VStr (match z with Some z => str_int z | None => "<NA>" end).

Definition norm_id (df : option DataFrame) : Res (option DataFrame) :=
  match df with
  | None => mret None
  | Some d =>
    if has_col "Id" d then
      ids ← astype_Int64 (numeric_of_cell <$> col "Id" d);
      mret (Some (assign "Id" (astype_str <$> ids) d))
    else mret (Some d)
  end.

(** ** Date parsing, lines 64-87 *)

Definition FMT_DATE : string := "%m/%d/%Y".
Definition FMT_12H : string := "%m/%d/%Y %I:%M:%S %p".
Definition FMT_24H : string := "%m/%d/%Y %H:%M:%S".

(** [pd.to_datetime(col, format=fmt, errors="coerce")]: a string that
    does not match, and a number (its digits match none of the script's
    formats), become NaT. *)
Definition to_datetime_coerce (fmt : string) (l : list cell) : list cell :=
  map (fun c => match c with
                | VStr s => from_option VDate VNull (strptime fmt s)
                | VDate t => VDate t
                | _ => VNull
                end) l.

(** [pd.to_datetime(col, format=fmt, errors="raise")]: one cell that does
    not match fails the whole column. *)
Definition to_datetime_raise (fmt : string) (l : list cell) : Res (list cell) :=
  traverse (fun c => match c with
                     | VStr s => match strptime fmt s with
                                 | Some t => inr (VDate t)
                                 | None => inl (ValueError "time data doesn't match format")
                                 end
                     | VDate t => inr (VDate t)
                     | VNull => inr VNull
                     | _ => inl (ValueError "time data doesn't match format")
                     end) l.

(** [.dt.normalize()] *)
Definition normalize (t : Timestamp) : Timestamp :=
  mkTS (year t) (month t) (day t) 0 0 0.

Definition dt_normalize (l : list cell) : list cell :=
  map (fun c => match c with VDate t => VDate (normalize t) | _ => VNull end) l.

(** Lines 64-66. *)
Definition parse_daily (daily : option DataFrame) : option DataFrame :=
  match daily with
  | Some d =>
    if has_col "ActivityDate" d then
      let d := assign "ActivityDate" (to_datetime_coerce FMT_DATE (col "ActivityDate" d)) d in
      Some (assign "date" (dt_normalize (col "ActivityDate" d)) d)
    else Some d
  | None => None
  end.

(** Lines 68-70. *)
Definition parse_sleep (sleep : option DataFrame) : option DataFrame :=
  match sleep with
  | Some d =>
    if has_col "SleepDay" d then
      let d := assign "SleepDay" (to_datetime_coerce FMT_12H (col "SleepDay" d)) d in
      Some (assign "date" (dt_normalize (col "SleepDay" d)) d)
    else Some d
  | None => None
  end.

(** The [try]/[except] of lines 73-76 and 81-84: the 12-hour format for
    the whole column, and when that raises, the 24-hour format with
    coercion for the whole column. *)
Definition to_datetime_fallback (l : list cell) : list cell :=
  match to_datetime_raise FMT_12H l with
  | inr parsed => parsed
  | inl _ => to_datetime_coerce FMT_24H l
  end.

(** Lines 72-76. *)
Definition parse_weight (weight : option DataFrame) : option DataFrame :=
  match weight with
  | Some d =>
    if has_col "Date" d then
      Some (assign "Date" (to_datetime_fallback (col "Date" d)) d)
    else Some d
  | None => None
  end.

(** Line 79. *)
Definition time_col (heart : DataFrame) : option string :=
  if has_col "Time" heart then Some "Time"
  else if has_col "ActivitySecond" heart then Some "ActivitySecond"
  else None.

(** Lines 78-87. *)
Definition parse_heart (heart : option DataFrame) : M (option DataFrame) :=
  match heart with
  | Some d =>
    match time_col d with
    | Some tc =>
      let d := assign tc (to_datetime_fallback (col tc d)) d in
      mret (Some (assign "date" (dt_normalize (col tc d)) d))
    | None =>
      _ ← log "WARNING: Heart file missing Time/ActivitySecond column"; mret (Some d)
    end
  | None => mret None
  end.

(** ** Keys and their order *)

(** The join key of a row, [(Id, date)]. *)
Definition key_of (r : gmap string cell) : cell * cell :=
  (get "Id" r, get "date" r).

Definition lexc (c1 c2 : comparison) : comparison :=
  match c1 with Eq => c2 | _ => c1 end.

Definition ts_compare (a b : Timestamp) : comparison :=
  lexc (year a ?= year b) (lexc (month a ?= month b) (lexc (day a ?= day b)
    (lexc (hour a ?= hour b) (lexc (minute a ?= minute b) (second a ?= second b))))).

Definition Qlt_bool (p q : Q) : bool := negb (Qle_bool q p).

Definition cell_rank (c : cell) : Z :=
  match c with VBool _ => 0 | VNum _ => 1 | VStr _ => 2 | VDate _ => 3 | VNull => 4 end.

(** Ascending order within a column, missing values last.  Columns the
    script sorts hold one type of value; across types the order is by
    type, only so that the function is total. *)
Definition cell_ltb (a b : cell) : bool :=
  match a, b with
  | VNum p, VNum q => Qlt_bool p q
  | VStr s, VStr t => String.ltb s t
  | VDate s, VDate t => match ts_compare s t with Lt => true | _ => false end
  | VBool x, VBool y => negb x && y
  | _, _ => cell_rank a <? cell_rank b
  end.

Definition key_ltb (k1 k2 : cell * cell) : bool :=
  cell_ltb k1.1 k2.1 || (bool_decide (k1.1 = k2.1) && cell_ltb k1.2 k2.2).

(** ** Dedupe, lines 90-93 *)

(** A row goes in front of the first row that is not smaller: rows with its
    key stay behind it. *)
Fixpoint insert_sorted {A} (kf : A -> cell * cell) (x : A) (l : list A) : list A :=
  match l with
  | [] => [x]
  | y :: l' => if key_ltb (kf y) (kf x) then y :: insert_sorted kf x l' else x :: l
  end.

(** [sort_values(["Id","date"])]: a stable sort. *)
Definition sort_values {A} (kf : A -> cell * cell) (l : list A) : list A :=
  foldr (insert_sorted kf) [] l.

(** [drop_duplicates(["Id","date"], keep="first")], with the keys already
    met. *)
Fixpoint drop_duplicates_from (seen : list (cell * cell)) (l : list (gmap string cell))
    : list (gmap string cell) :=
  match l with
  | [] => []
  | r :: l' =>
    if bool_decide (key_of r ∈ seen) then drop_duplicates_from seen l'
    else r :: drop_duplicates_from (key_of r :: seen) l'
  end.

Definition drop_duplicates (l : list (gmap string cell)) : list (gmap string cell) :=
  drop_duplicates_from [] l.

(** The body of the loop of lines 90-93, for one table. *)
Definition dedupe (d : option DataFrame) : option DataFrame :=
  match d with
  | Some d =>
    if has_col "Id" d && has_col "date" d then
      Some (mkDF (columns d) (drop_duplicates (sort_values key_of (rows d))))
    else Some d
  | None => None
  end.

(** ** Heart-rate daily aggregate, lines 96-105 *)

(** A row joins the group of its key, or opens a new group after the
    groups met so far. *)
Fixpoint group_add (r : gmap string cell) (gs : list (cell * cell * list (gmap string cell)))
    : list (cell * cell * list (gmap string cell)) :=
  match gs with
  | [] => [(key_of r, [r])]
  | (k, g) :: gs' =>
    if bool_decide (k = key_of r) then (k, g ++ [r]) :: gs'
    else (k, g) :: group_add r gs'
  end.

Definition key_notna (k : cell * cell) : bool :=
  negb (bool_decide (k.1 = VNull)) && negb (bool_decide (k.2 = VNull)).

(** A row with a missing key is left out (dropna). *)
Definition group_step (gs : list (cell * cell * list (gmap string cell)))
    (r : gmap string cell) : list (cell * cell * list (gmap string cell)) :=
  if key_notna (key_of r) then group_add r gs else gs.

(** [groupby(["Id","date"])]: each group keeps the order of its rows,
    groups come sorted by key. *)
Definition groupby (l : list (gmap string cell))
    : list (cell * cell * list (gmap string cell)) :=
  sort_values fst (foldl group_step [] l).

(** The number in a cell, for arithmetic and comparisons. *)
Definition as_number (c : cell) : option Q :=
  match c with
  | VNum q => Some q
  | VBool b => Some (if b then 1%Q else 0%Q)
  | _ => None
  end.

Definition Qsum (l : list Q) : Q := foldr Qplus 0%Q l.

(** mean, max and min skip missing values; of no value at all they are NaN. *)
Definition mean (l : list Q) : option Q :=
  match l with
  | [] => None
  | _ => Some (Qred (Qsum l / inject_Z (Z.of_nat (length l))))
  end.

Definition Qmax (p q : Q) : Q := if Qle_bool p q then q else p.
Definition Qmin (p q : Q) : Q := if Qle_bool p q then p else q.

Definition maximum (l : list Q) : option Q :=
  match l with [] => None | x :: l' => Some (foldl Qmax x l') end.

Definition minimum (l : list Q) : option Q :=
  match l with [] => None | x :: l' => Some (foldl Qmin x l') end.

(** Nearest integer, halves to the even one. *)
Definition rint (q : Q) : Z :=
  let n := Qnum q in
  let d := Z.pos (Qden q) in
  let f := n / d in
  let r2 := 2 * (n mod d) in
  if r2 <? d then f else if d <? r2 then f + 1 else if Z.even f then f else f + 1.

(** [round(1)] *)
Definition round1 (q : Q) : Q := Qred (rint (q * 10) # 10).

Definition num_cell (q : option Q) : cell := from_option VNum VNull q.

Definition HR_COLUMNS : list string := ["Id"; "date"; "AvgHR"; "MaxHR"; "MinHR"; "HRCount"].

(** One row of [hr_day], from one group. *)
Definition agg_row (kg : cell * cell * list (gmap string cell)) : gmap string cell :=
  let vs := omap as_number (get "Value" <$> kg.2) in
  <["Id" := kg.1.1]> (<["date" := kg.1.2]> (
  <["AvgHR" := num_cell (round1 <$> mean vs)]> (
  <["MaxHR" := num_cell (round1 <$> maximum vs)]> (
  <["MinHR" := num_cell (round1 <$> minimum vs)]> (
  <["HRCount" := VNum (inject_Z (Z.of_nat (length kg.2)))]> ∅))))).

Definition is_str (c : cell) : bool :=
  match c with VStr _ => true | _ => false end.

(** Lines 96-104.  The mean of a column of strings raises. *)
Definition hr_day (heart : option DataFrame) : Res DataFrame :=
  match heart with
  | Some h =>
    if has_col "Value" h && has_col "Id" h && has_col "date" h then
      if existsb is_str (col "Value" h) then
        inl (TypeError "agg function failed [how->mean,dtype->object]")
      else inr (mkDF HR_COLUMNS (agg_row <$> groupby (rows h)))
    else inr (empty_frame HR_COLUMNS)
  | None => inr (empty_frame HR_COLUMNS)
  end.

(** ** Build analysis df, lines 108-125 *)

Definition safe_cols (df : option DataFrame) (cols : list string) : list string :=
  filter (fun c => c ∈ match df with Some d => columns d | None => [] end) cols.

Definition keep : list string :=
  ["Id"; "date"; "TotalSteps"; "Calories"; "SedentaryMinutes"; "VeryActiveMinutes";
   "LightlyActiveMinutes"].

Definition ON : list string := ["Id"; "date"].

(** [left.merge(right, on=["Id","date"], how="left")]: every left row, in
    order, once per right row with its key, or once with the right
    columns missing when there is none.  Missing keys match each other.
    A key column absent on either side raises.  (The frames the script
    merges share no other column, so no suffix is ever added.) *)
Definition merge (left right : DataFrame) : Res DataFrame :=
  if negb (has_col "Id" left && has_col "Id" right) then inl (KeyError "Id")
  else if negb (has_col "date" left && has_col "date" right) then inl (KeyError "date")
  else
    let extra := filter (fun c => c ∉ ON) (columns right) in
    let nulls : gmap string cell := list_to_map ((fun c => (c, VNull)) <$> extra) in
    let payload (r : gmap string cell) : gmap string cell :=
      filter (fun kv : string * cell => kv.1 ∈ extra) r in
    inr (mkDF (columns left ++ extra)
           (flat_map (fun l =>
              match filter (fun r => key_of r = key_of l) (rows right) with
              | [] => [l ∪ nulls]
              | ms => (fun r => l ∪ payload r) <$> ms
              end) (rows left))).

(** Lines 111-116. *)
Definition merge_chain (daily sleep : option DataFrame) (hr : DataFrame) : Res DataFrame :=
  let df := match daily with
            | Some d => project (safe_cols daily keep) d
            | None => empty_frame keep
            end in
  df ← match sleep with
       | Some s => merge df (project (safe_cols sleep ["Id"; "date"; "TotalMinutesAsleep"]) s)
       | None => mret df
       end;
  merge df hr.

Definition num_cols : list string :=
  ["TotalSteps"; "Calories"; "SedentaryMinutes"; "VeryActiveMinutes"; "LightlyActiveMinutes";
   "TotalMinutesAsleep"; "AvgHR"; "MaxHR"; "MinHR"; "HRCount"].

(** [pd.to_numeric(col, errors="coerce")] *)
Definition to_numeric_coerce (l : list cell) : list cell :=
  map (fun c => match numeric_of_cell c with
                | Some (NInt z) => VNum (inject_Z z)
                | Some (NFloat q) => VNum q
                | None => VNull
                end) l.

(** Lines 120-122. *)
Definition coerce_num_cols (df : DataFrame) : DataFrame :=
  foldl (fun df c => if has_col c df then assign c (to_numeric_coerce (col c df)) df else df)
        df num_cols.

(** Days since 1970-01-01 of a civil date. *)
Definition days_from_civil (y m d : Z) : Z :=
  let y := if m <=? 2 then y - 1 else y in
  let era := y / 400 in
  let yoe := y - era * 400 in
  let mp := (m + 9) mod 12 in
  let doy := (153 * mp + 2) / 5 + d - 1 in
  let doe := yoe * 365 + yoe / 4 - yoe / 100 + doy in
  era * 146097 + doe - 719468.

(** [.dt.day_name()]; 1970-01-01 was a Thursday. *)
Definition day_name (t : Timestamp) : string :=
  nth (Z.to_nat ((days_from_civil (year t) (month t) (day t) + 3) mod 7))
      ["Monday"; "Tuesday"; "Wednesday"; "Thursday"; "Friday"; "Saturday"; "Sunday"] "".

(** Lines 124-125, for a [date] column of timestamps and missing values,
    which [pd.to_datetime] leaves as it is.  On a [date] column of
    strings, which date parsing never produces, [pd.to_datetime] would
    parse the strings or raise; that conversion is not modelled, and such
    a cell is given no weekday here. *)
Definition add_weekday (df : DataFrame) : DataFrame :=
  if has_col "date" df then
    assign "weekday"
      (map (fun c => match c with VDate t => VStr (day_name t) | _ => VNull end) (col "date" df))
      df
  else df.

(** ** QC flags, lines 127-132 *)

Fixpoint insert_Q (x : Q) (l : list Q) : list Q :=
  match l with
  | [] => [x]
  | y :: l' => if Qlt_bool y x then y :: insert_Q x l' else x :: l
  end.

Definition sort_Q (l : list Q) : list Q := foldr insert_Q [] l.

(** [.median(skipna=True)]: the middle value of the sorted numbers, the
    mean of the two middle ones when their count is even, NaN when there
    is none. *)
Definition median (l : list cell) : option Q :=
  let xs := sort_Q (omap as_number l) in
  let n := length xs in
  match n with
  | O => None
  | _ =>
    if Nat.odd n then Some (nth (n / 2) xs 0%Q)
    else Some (Qred ((nth (n / 2 - 1) xs 0 + nth (n / 2) xs 0) / 2)%Q)
  end.

(** Line 128. *)
Definition cal_median (df : DataFrame) : option Q :=
  if has_col "Calories" df then median (col "Calories" df) else None.

(** [df.get(c, 0)], read at one row: the column's cell, or the scalar 0
    when the frame has no such column. *)
Definition get_or_0 (c : string) (df : DataFrame) (r : gmap string cell) : cell :=
  if has_col c df then get c r else VNum 0.

(** [x == 0] and [x > m], cell by cell: false on a missing value, and
    false against a NaN median. *)
Definition eq_0 (c : cell) : bool :=
  match as_number c with Some x => Qeq_bool x 0 | None => false end.

Definition gt (c : cell) (m : option Q) : bool :=
  match as_number c, m with
  | Some x, Some m => Qlt_bool m x
  | _, _ => false
  end.

Definition zero_step_high_cal (df : DataFrame) (r : gmap string cell) : bool :=
  eq_0 (get_or_0 "TotalSteps" df r) && gt (get_or_0 "Calories" df r) (cal_median df).

(** [~col] *)
Definition invert (l : list cell) : list cell :=
  map (fun c => match c with VBool b => VBool (negb b) | c => c end) l.

(** Lines 129-130. *)
Definition qc_flags (df : DataFrame) : DataFrame :=
  let df := assign "zero_step_high_cal"
              (map (fun r => VBool (zero_step_high_cal df r)) (rows df)) df in
  assign "valid_row" (invert (col "zero_step_high_cal" df)) df.

(** Line 131, [df[df["valid_row"]]]. *)
Definition valid_rows (df : DataFrame) : DataFrame :=
  mkDF (columns df) (filter (fun r => get "valid_row" r = VBool true) (rows df)).

(** ** The script, lines 44-132 *)

(** The script's globals when line 132 is reached. *)
Record Globals := {
  g_daily : option DataFrame;
  g_sleep : option DataFrame;
  g_weight : option DataFrame;
  g_heart : option DataFrame;
  g_hr_day : DataFrame;
  g_df : DataFrame;
  g_df_valid : DataFrame }.

Definition str_len (df : DataFrame) : string := str_int (Z.of_nat (len df)).

Definition main (fs : FileSystem) : M Globals :=
  daily ← read_csv_safe fs DAILY_CSV;
  sleep ← read_csv_safe fs SLEEP_CSV;
  weight ← read_csv_safe fs WEIGHT_CSV;
  heart ← read_csv_safe fs HEART_CSV;
  _ ← warn_not_loaded "daily" daily;
  _ ← warn_not_loaded "sleep" sleep;
  _ ← warn_not_loaded "weight" weight;
  _ ← warn_not_loaded "heart" heart;
  daily ← lift (norm_id daily);
  sleep ← lift (norm_id sleep);
  weight ← lift (norm_id weight);
  heart ← lift (norm_id heart);
  let daily := parse_daily daily in
  let sleep := parse_sleep sleep in
  let weight := parse_weight weight in
  heart ← parse_heart heart;
  let daily := dedupe daily in
  let sleep := dedupe sleep in
  hr ← lift (hr_day heart);
  _ ← log ("hr_day rows: " +:+ str_len hr);
  df ← lift (merge_chain daily sleep hr);
  let df := coerce_num_cols df in
  let df := add_weekday df in
  let df := qc_flags df in
  let df_valid := valid_rows df in
  _ ← log ("df_valid rows: " +:+ str_len df_valid);
  mret {| g_daily := daily; g_sleep := sleep; g_weight := weight; g_heart := heart;
          g_hr_day := hr; g_df := df; g_df_valid := df_valid |}.

(** ** Aggregations, lines 134-150 *)

(** [frame.empty]: no row, or no column. *)
Definition is_empty (frame : DataFrame) : bool :=
  match rows frame, columns frame with
  | [], _ | _, [] => true
  | _, _ => false
  end.

(** A row joins the group of its key [k], or opens a new group after the
    groups met so far. *)
Fixpoint group_add_by (k : cell) (r : gmap string cell)
    (gs : list (cell * list (gmap string cell))) : list (cell * list (gmap string cell)) :=
  match gs with
  | [] => [(k, [r])]
  | (k', g) :: gs' =>
    if bool_decide (k' = k) then (k', g ++ [r]) :: gs'
    else (k', g) :: group_add_by k r gs'
  end.

Definition group_step_by (by_ : string) (gs : list (cell * list (gmap string cell)))
    (r : gmap string cell) : list (cell * list (gmap string cell)) :=
  if bool_decide (get by_ r = VNull) then gs else group_add_by (get by_ r) r gs.

(** [groupby(by, observed=True)] on one column: a row with a missing key
    is left out, each group keeps the order of its rows, and the groups
    come sorted by [rank] of their key: the key itself, or its code when
    the column is an ordered categorical. *)
Definition groupby_col (rank : cell -> cell) (by_ : string) (l : list (gmap string cell))
    : list (cell * list (gmap string cell)) :=
  sort_values (fun kg => (rank kg.1, VNull)) (foldl (group_step_by by_) [] l).

(** The mean of a column over a group. *)
Definition mean_of (c : string) (g : list (gmap string cell)) : cell :=
  num_cell (mean (omap as_number (get c <$> g))).

(** One row of the aggregate: the key, and the mean of each column. *)
Definition mean_row (by_ : string) (cols : list string)
    (kg : cell * list (gmap string cell)) : gmap string cell :=
  <[by_ := kg.1]> (list_to_map ((fun c => (c, mean_of c kg.2)) <$> cols)).

(** [frame.groupby(by, as_index=False, observed=True).agg(...)] with the
    mean of each of [cols].  A key column the frame lacks raises at the
    group-by, an aggregated column it lacks raises at the aggregation
    (the exception lists the absent columns; the first one is kept here),
    and so does the mean of a column of strings.  (The script never lists
    the key among the aggregated columns.) *)
Definition agg_mean (rank : cell -> cell) (by_ : string) (cols : list string)
    (frame : DataFrame) : Res DataFrame :=
  if negb (has_col by_ frame) then inl (KeyError by_)
  else
    match filter (fun c => c ∉ columns frame) cols with
    | c :: _ => inl (KeyError c)
    | [] =>
      if existsb (fun c => existsb is_str (col c frame)) cols then
        inl (TypeError "agg function failed [how->mean,dtype->object]")
      else inr (mkDF (by_ :: cols) (mean_row by_ cols <$> groupby_col rank by_ (rows frame)))
    end.

(** Lines 135-139. *)
Definition groupmean (frame : DataFrame) (by_ : string) (cols : list string) : Res DataFrame :=
  if is_empty frame then inr (empty_frame (by_ :: cols))
  else agg_mean id by_ cols frame.

(** Lines 141-145. *)
Definition agg_by_date (df_valid : DataFrame) : Res DataFrame :=
  groupmean df_valid "date"
    ["TotalSteps"; "Calories"; "SedentaryMinutes"; "VeryActiveMinutes"; "LightlyActiveMinutes";
     "TotalMinutesAsleep"; "AvgHR"].

(** Lines 147-150. *)
Definition agg_by_weekday (df_valid : DataFrame) : Res DataFrame :=
  groupmean df_valid "weekday" ["TotalSteps"; "Calories"; "TotalMinutesAsleep"; "AvgHR"].

(** ** Step segments, lines 152-164 *)

(** An edge of a bin: a number, or [np.inf]. *)
Inductive edge :=
| Edge (q : Q)
| Inf.

Definition bins : list edge := [Edge (-1); Edge 5000; Edge 10000; Inf].
Definition labels : list string := ["<5k"; "5k-10k"; ">10k"].

Definition edge_ltb (e : edge) (x : Q) : bool :=
  match e with Edge q => Qlt_bool q x | Inf => false end.

Definition edge_eqb (e : edge) (x : Q) : bool :=
  match e with Edge q => Qeq_bool q x | Inf => false end.

(** [bins.searchsorted(x, side="left")] on ascending edges: the number of
    edges below [x]. *)
Definition searchsorted (bins : list edge) (x : Q) : nat :=
  length (filter (fun e => edge_ltb e x = true) bins).

(** [pd.cut(..., bins=bins, labels=labels, include_lowest=True)] on one
    cell: the position of the value among the edges, the lowest edge
    counting as inside the first bin; a value outside every bin and a
    missing value have no category.  (The column the script cuts holds
    numbers and missing values only.) *)
Definition cut (bins : list edge) (labels : list string) (c : cell) : cell :=
  match as_number c with
  | Some x =>
    let ids := if from_option (fun e => edge_eqb e x) false (head bins) then 1%nat
               else searchsorted bins x in
    if (ids =? 0)%nat || (ids =? length bins)%nat then VNull
    else from_option VStr VNull (labels !! (ids - 1)%nat)
  | None => VNull
  end.

(** Lines 155-158.  [pd.Categorical([])] has no value: as a column it fits
    a frame without rows, and raises on any other. *)
Definition add_steps_bucket (df_valid : DataFrame) : Res DataFrame :=
  if has_col "TotalSteps" df_valid then
    inr (assign "steps_bucket" (map (cut bins labels) (col "TotalSteps" df_valid)) df_valid)
  else
    match rows df_valid with
    | [] => inr (assign "steps_bucket" [] df_valid)
    | _ => inl (ValueError "Length of values (0) does not match length of index")
    end.

(** The code of a category: its position among the labels. *)
Fixpoint index_of (s : string) (l : list string) : option nat :=
  match l with
  | [] => None
  | x :: l' => if String.eqb s x then Some O else S <$> index_of s l'
  end.

Definition category_code (labels : list string) (c : cell) : cell :=
  match c with
  | VStr s => from_option (fun i => VNum (inject_Z (Z.of_nat i))) VNull (index_of s labels)
  | _ => VNull
  end.

(** [.round(1)] on a frame: every number of it. *)
Definition round_1 (df : DataFrame) : DataFrame :=
  mkDF (columns df)
       ((fun r : gmap string cell =>
           (fun c => match c with VNum q => VNum (round1 q) | _ => c end) <$> r) <$> rows df).

Definition SEG_COLUMNS : list string :=
  ["Calories"; "TotalMinutesAsleep"; "SedentaryMinutes"; "AvgHR"].

(** Lines 160-164: the buckets come in the order of the categories. *)
Definition seg (df_valid : DataFrame) : Res DataFrame :=
  out ← agg_mean (category_code labels) "steps_bucket" SEG_COLUMNS df_valid;
  mret (round_1 out).

(** The tables of lines 134-164. *)
Record Aggregates := {
  a_agg_by_date : DataFrame;
  a_agg_by_weekday : DataFrame;
  a_df_valid : DataFrame;
  a_seg : DataFrame }.

Definition aggregations (df_valid : DataFrame) : Res Aggregates :=
  by_date ← agg_by_date df_valid;
  by_weekday ← agg_by_weekday df_valid;
  df_valid ← add_steps_bucket df_valid;
  s ← seg df_valid;
  mret {| a_agg_by_date := by_date; a_agg_by_weekday := by_weekday;
          a_df_valid := df_valid; a_seg := s |}.

(** ** The script, lines 44-164 *)

Definition script (fs : FileSystem) : M (Globals * Aggregates) :=
  g ← main fs;
  a ← lift (aggregations (g_df_valid g));
  mret (g, a).

End Script.

(** ** An implementation of the parsers

    Decimal integer literals for [floatify]; for [strptime], the
    directives the script's three formats use.  Years are kept inside the
    range a nanosecond timestamp covers in full. *)

Definition parse_int (s : string) : option numeric :=
  (fun d => NInt (Z.of_int d)) <$> NilZero.int_of_string s.

Definition is_digit (c : ascii) : bool :=
  let n := N_of_ascii c in ((48 <=? n) && (n <=? 57))%N.

Definition digit_val (c : ascii) : Z := Z.of_N (N_of_ascii c) - 48.

Definition is_space (c : ascii) : bool :=
  let n := N_of_ascii c in ((n =? 32) || ((9 <=? n) && (n <=? 13)))%N.

(** At least one and at most [w] digits, as many as stand there. *)
Fixpoint read_digits (w : nat) (got : option Z) (s : list ascii) : option (Z * list ascii) :=
  match w, s with
  | S w', c :: s' =>
    if is_digit c then read_digits w' (Some (default 0 got * 10 + digit_val c)) s'
    else (fun n => (n, s)) <$> got
  | _, _ => (fun n => (n, s)) <$> got
  end.

(** Exactly [w] digits. *)
Fixpoint read_exactly (w : nat) (acc : Z) (s : list ascii) : option (Z * list ascii) :=
  match w, s with
  | O, _ => Some (acc, s)
  | S w', c :: s' => if is_digit c then read_exactly w' (acc * 10 + digit_val c) s' else None
  | S _, [] => None
  end.

Fixpoint skip_spaces (s : list ascii) : list ascii :=
  match s with
  | c :: s' => if is_space c then skip_spaces s' else s
  | [] => []
  end.

Definition upper (c : ascii) : ascii :=
  let n := N_of_ascii c in
  if ((97 <=? n) && (n <=? 122))%N then ascii_of_N (n - 32) else c.

(** The fields a format can set. *)
Record Fields := mkFields {
  f_year : option Z; f_month : option Z; f_day : option Z;
  f_hour24 : option Z; f_hour12 : option Z; f_pm : option bool;
  f_minute : option Z; f_second : option Z }.

Definition no_fields : Fields := mkFields None None None None None None None None.

Definition set_field (d : ascii) (n : Z) (f : Fields) : option Fields :=
  if Ascii.eqb d "m" then Some (mkFields (f_year f) (Some n) (f_day f) (f_hour24 f) (f_hour12 f) (f_pm f) (f_minute f) (f_second f))
  else if Ascii.eqb d "d" then Some (mkFields (f_year f) (f_month f) (Some n) (f_hour24 f) (f_hour12 f) (f_pm f) (f_minute f) (f_second f))
  else if Ascii.eqb d "Y" then Some (mkFields (Some n) (f_month f) (f_day f) (f_hour24 f) (f_hour12 f) (f_pm f) (f_minute f) (f_second f))
  else if Ascii.eqb d "H" then Some (mkFields (f_year f) (f_month f) (f_day f) (Some n) (f_hour12 f) (f_pm f) (f_minute f) (f_second f))
  else if Ascii.eqb d "I" then Some (mkFields (f_year f) (f_month f) (f_day f) (f_hour24 f) (Some n) (f_pm f) (f_minute f) (f_second f))
  else if Ascii.eqb d "M" then Some (mkFields (f_year f) (f_month f) (f_day f) (f_hour24 f) (f_hour12 f) (f_pm f) (Some n) (f_second f))
  else if Ascii.eqb d "S" then Some (mkFields (f_year f) (f_month f) (f_day f) (f_hour24 f) (f_hour12 f) (f_pm f) (f_minute f) (Some n))
  else None.

Definition set_pm (b : bool) (f : Fields) : Fields :=
  mkFields (f_year f) (f_month f) (f_day f) (f_hour24 f) (f_hour12 f) (Some b) (f_minute f) (f_second f).

(** The format is matched against the whole string: a directive reads
    its field, a blank stands for one or more blanks, any other character
    for itself. *)
Fixpoint match_format (fmt s : list ascii) (f : Fields) : option Fields :=
  match fmt with
  | [] => match s with [] => Some f | _ => None end
  | c :: fmt' =>
    if Ascii.eqb c "%" then
      match fmt' with
      | d :: fmt'' =>
        if Ascii.eqb d "p" then
          match s with
          | a :: m :: s' =>
            if Ascii.eqb (upper m) "M" then
              if Ascii.eqb (upper a) "A" then match_format fmt'' s' (set_pm false f)
              else if Ascii.eqb (upper a) "P" then match_format fmt'' s' (set_pm true f)
              else None
            else None
          | _ => None
          end
        else
          '(n, s') ← (if Ascii.eqb d "Y" then read_exactly 4 0 s else read_digits 2 None s);
          f' ← set_field d n f;
          match_format fmt'' s' f'
      | [] => None
      end
    else if is_space c then
      match s with
      | a :: s' => if is_space a then match_format fmt' (skip_spaces s') f else None
      | [] => None
      end
    else
      match s with
      | a :: s' => if Ascii.eqb a c then match_format fmt' s' f else None
      | [] => None
      end
  end.

Definition is_leap (y : Z) : bool :=
  ((y mod 4 =? 0) && negb (y mod 100 =? 0)) || (y mod 400 =? 0).

Definition days_in_month (y m : Z) : Z :=
  if m =? 2 then (if is_leap y then 29 else 28)
  else if (m =? 4) || (m =? 6) || (m =? 9) || (m =? 11) then 30 else 31.

Definition between (lo x hi : Z) : bool := (lo <=? x) && (x <=? hi).

(** The timestamp of the fields read, when they are a date and a time. *)
Definition timestamp_of (f : Fields) : option Timestamp :=
  y ← f_year f; m ← f_month f; d ← f_day f;
  let mi := default 0 (f_minute f) in
  let s := default 0 (f_second f) in
  h ← match f_hour12 f with
      | Some i =>
        if between 1 i 12 then Some (i mod 12 + (if default false (f_pm f) then 12 else 0))
        else None
      | None => Some (default 0 (f_hour24 f))
      end;
  if between 1678 y 2261 && between 1 m 12 && between 1 d (days_in_month y m)
     && between 0 h 23 && between 0 mi 59 && between 0 s 59
  then Some (mkTS y m d h mi s) else None.

Definition parse_time (fmt s : string) : option Timestamp :=
  match_format (list_ascii_of_string fmt) (list_ascii_of_string s) no_fields ≫= timestamp_of.

Lemma parse_int_str_int (z : Z) : parse_int (str_int z) = Some (NInt z).
Proof.
  unfold parse_int, str_int.
  rewrite NilZero.isi.
  - simpl. by rewrite DecimalZ.of_to.
  - destruct z; simpl; try discriminate.
    intros [= E]. by apply DecimalPos.Unsigned.to_uint_nonnil in E.
  - destruct z; simpl; try discriminate.
    intros [= E]. by apply DecimalPos.Unsigned.to_uint_nonnil in E.
Qed.

Definition parsers : Pandas := {|
  floatify := parse_int;
  strptime := parse_time;
  floatify_int64 := fun z _ => parse_int_str_int z;
  floatify_NA := eq_refl |}.

(** * Vocabulary of the properties *)

(** A message names a source when the source's path stands in it. *)
Definition names (msg path : string) : Prop :=
  exists pre post, msg = pre +:+ path +:+ post.


(** The canonical identifiers: the decimal string of an int64, or the
    sentinel. *)
Definition canonical (c : cell) : Prop :=
  c = VStr "<NA>" \/ exists z, in_int64 z = true /\ c = VStr (str_int z).


(** In a table sorted by key, [a] may stand before [b]: [b] is not
    smaller. *)
Definition key_le {A} (kf : A -> cell * cell) (a b : A) : Prop :=
  key_ltb (kf b) (kf a) = false.

(** What the aggregate of a group is said to be: the arithmetic mean, the
    greatest and the least of its values, each rounded to the nearest
    tenth. *)
Definition is_mean (m : Q) (vs : list Q) : Prop :=
  (m == Qsum vs / inject_Z (Z.of_nat (length vs)))%Q.

Definition is_max (m : Q) (vs : list Q) : Prop :=
  m ∈ vs /\ Forall (fun v => v <= m)%Q vs.

Definition is_min (m : Q) (vs : list Q) : Prop :=
  m ∈ vs /\ Forall (fun v => m <= v)%Q vs.

Definition is_round1 (x q : Q) : Prop :=
  exists z : Z, (x == z # 10)%Q /\ (Qabs (q * 10 - inject_Z z) <= 1 # 2)%Q.

(** The frame line 112 starts from. *)
Definition activity_frame (daily : option DataFrame) : DataFrame :=
  match daily with
  | Some d => project (safe_cols daily keep) d
  | None => empty_frame keep
  end.

(** The median of a list of numbers: with the numbers in ascending order,
    the middle one, or the mean of the two middle ones. *)
Definition is_median (m : Q) (vs : list Q) : Prop :=
  exists xs : list Q, xs ≡ₚ vs /\ Sorted Qle xs /\
    if Nat.odd (length xs) then xs !! (length xs / 2)%nat = Some m
    else exists a b, xs !! (length xs / 2 - 1)%nat = Some a /\
                     xs !! (length xs / 2)%nat = Some b /\ (m == (a + b) / 2)%Q.

(** The test of line 129 on the row's cells: an absent [TotalSteps]
    column counts as 0 everywhere, a missing cell is not 0; the calories
    must be a number above a median that exists. *)
Definition steps_are_zero (df : DataFrame) (r : gmap string cell) : Prop :=
  if has_col "TotalSteps" df
  then exists q, as_number (get "TotalSteps" r) = Some q /\ (q == 0)%Q
  else True.

Definition calories_above_median (df : DataFrame) (r : gmap string cell) : Prop :=
  has_col "Calories" df = true /\
  exists q m, as_number (get "Calories" r) = Some q /\ cal_median df = Some m /\ (m < q)%Q.

(** The calories test of line 129 against the median as the
    specification words it, not as line 128 computes it. *)
Definition calories_exceed_median (df : DataFrame) (r : gmap string cell) : Prop :=
  has_col "Calories" df = true /\
  exists q m, as_number (get "Calories" r) = Some q /\
              is_median m (omap as_number (col "Calories" df)) /\ (m < q)%Q.

(** The flag as the specification words it: a missing [TotalSteps] or
    [Calories] of a row is taken as 0 in the comparison. *)
Definition fill_0 (c : cell) : cell :=
  match c with VNull => VNum 0 | c => c end.

Definition claimed_zero_step_high_cal (df : DataFrame) (r : gmap string cell) : bool :=
  eq_0 (fill_0 (get "TotalSteps" r)) && gt (fill_0 (get "Calories" r)) (cal_median df).

(** ** Example tables *)

(** A frame from its column names and the cells of its rows, in column
    order. *)
Definition frame (cols : list string) (cells : list (list cell)) : DataFrame :=
  mkDF cols ((fun cs => list_to_map (zip cols cs)) <$> cells).

Definition int (z : Z) : cell := VNum (inject_Z z).

Definition daily_csv : DataFrame :=
  frame ["Id"; "ActivityDate"; "TotalSteps"; "Calories"]
    [ [int 1503960366; VStr "4/13/2016"; int 8000; int 2200];
      [int 1503960366; VStr "4/12/2016"; int 0; int 4000];
      [int 1503960366; VStr "4/12/2016"; int 13162; int 1985] ].

Definition sleep_csv : DataFrame :=
  frame ["Id"; "SleepDay"; "TotalSleepRecords"; "TotalMinutesAsleep"]
    [ [int 1503960366; VStr "4/12/2016 12:00:00 AM"; int 1; int 327];
      [int 1503960366; VStr "4/12/2016 12:00:00 AM"; int 2; int 384];
      [int 1927972279; VStr "4/12/2016 12:00:00 AM"; int 1; int 750] ].

Definition weight_csv : DataFrame :=
  frame ["Id"; "Date"; "WeightKg"]
    [ [int 1503960366; VStr "5/2/2016 11:59:59 PM"; VNum (105 # 2)] ].

Definition heart_csv : DataFrame :=
  frame ["Id"; "Time"; "Value"]
    [ [int 1503960366; VStr "4/12/2016 7:21:00 AM"; int 60];
      [int 2022484408; VStr "4/12/2016 7:21:00 AM"; int 97];
      [int 1503960366; VStr "4/12/2016 7:21:05 AM"; int 70];
      [int 1503960366; VStr "4/12/2016 7:21:10 AM"; int 80] ].

(** Four files, each read as the given frame. *)
Definition files (daily sleep weight heart : DataFrame) : FileSystem :=
  {| path_exists := fun _ => true;
     pd_read_csv := fun p =>
       if String.eqb p DAILY_CSV then inr daily
       else if String.eqb p SLEEP_CSV then inr sleep
       else if String.eqb p WEIGHT_CSV then inr weight
       else inr heart |}.

(** The sleep export with its day column gone. *)
Definition sleep_csv_no_day : DataFrame :=
  frame ["Id"; "TotalMinutesAsleep"] [ [int 1503960366; int 327] ].

(** The sleep export written with a 24-hour clock. *)
Definition sleep_csv_24h : DataFrame :=
  frame ["Id"; "SleepDay"; "TotalMinutesAsleep"]
    [ [int 1503960366; VStr "4/12/2016 13:00:00"; int 327] ].

(** The same timestamp in a heart-rate export. *)
Definition heart_csv_24h : DataFrame :=
  frame ["Id"; "Time"; "Value"]
    [ [int 1503960366; VStr "4/12/2016 13:00:00"; int 60] ].



(** The activity export without its identifier column. *)
Definition daily_csv_no_id : DataFrame :=
  frame ["ActivityDate"; "TotalSteps"; "Calories"]
    [ [VStr "4/12/2016"; int 0; int 4000] ].

(** Raw identifiers: numbers, and a string that is no number. *)
Definition raw_ids : DataFrame :=
  frame ["Id"; "Value"]
    [ [VStr "1503960366"; int 60]; [VStr "n/a"; int 70]; [VStr "-7"; int 80] ].

(** A joined table with a missing step count on a high-calorie day. *)
Definition joined_missing_steps : DataFrame :=
  frame ["Id"; "date"; "TotalSteps"; "Calories"]
    [ [VStr "1"; VDate (mkTS 2016 4 12 0 0 0); VNull; int 4000];
      [VStr "1"; VDate (mkTS 2016 4 13 0 0 0); int 8000; int 2200] ].

(** A joined table without calories. *)
Definition joined_no_calories : DataFrame :=
  frame ["Id"; "date"; "TotalSteps"]
    [ [VStr "1"; VDate (mkTS 2016 4 12 0 0 0); int 0];
      [VStr "1"; VDate (mkTS 2016 4 13 0 0 0); int 8000] ].

(** A sleep table after date parsing, with a day logged twice. *)
Definition sleep_twice : DataFrame :=
  frame ["Id"; "date"; "TotalMinutesAsleep"]
    [ [VStr "2"; VDate (mkTS 2016 4 12 0 0 0); int 400];
      [VStr "1"; VDate (mkTS 2016 4 12 0 0 0); int 327];
      [VStr "1"; VDate (mkTS 2016 4 12 0 0 0); int 384] ].

(** Heart-rate samples after date parsing. *)
Definition heart_samples : DataFrame :=
  frame ["Id"; "date"; "Value"]
    [ [VStr "1"; VDate (mkTS 2016 4 12 0 0 0); int 60];
      [VStr "2"; VDate (mkTS 2016 4 12 0 0 0); int 97];
      [VStr "1"; VDate (mkTS 2016 4 12 0 0 0); int 70];
      [VStr "1"; VDate (mkTS 2016 4 12 0 0 0); int 80] ].

(** A cell the format reads: a string that matches it, a timestamp, or a
    missing value. *)
Definition parses `{Pandas} (fmt : string) (c : cell) : Prop :=
  match c with
  | VStr s => is_Some (strptime fmt s)
  | VNull | VDate _ => True
  | VNum _ | VBool _ => False
  end.

(** A day: a missing value, or a timestamp at midnight. *)
Definition midnight (c : cell) : Prop :=
  c = VNull \/ exists t, c = VDate t /\ hour t = 0 /\ minute t = 0 /\ second t = 0.

(** A column of timestamps in both clocks. *)
Definition mixed_clocks : list cell :=
  [VStr "5/2/2016 11:59:59 PM"; VStr "5/3/2016 13:05:00"].

(** What a left join makes of a left row [l], cell by cell: the cells of
    [l] stay; a column of the right table that is no key and that [l] lacks
    is read in the first right row with the key of [l], and is missing
    when there is none; no other cell is added. *)
Definition joined (right : DataFrame) (l o : gmap string cell) : Prop :=
  (forall c, is_Some (l !! c) -> o !! c = l !! c) /\
  (forall c, l !! c = None -> c ∈ columns right -> c ∉ ON ->
     get c o = from_option (get c) VNull
                 (head (filter (fun r => key_of r = key_of l) (rows right)))) /\
  (forall c, l !! c = None -> c ∉ columns right \/ c ∈ ON -> o !! c = None).

(** The integer an identifier stands for, when it is one. *)
Definition id_value (n : option numeric) : option Z :=
  match n with
  | Some (NInt z) => Some z
  | Some (NFloat q) => Qint q
  | None => None
  end.

(** One cell under [pd.to_numeric(..., errors="coerce")]. *)
Definition coerce_cell `{Pandas} (c : cell) : cell :=
  match numeric_of_cell c with
  | Some (NInt z) => VNum (inject_Z z)
  | Some (NFloat q) => VNum q
  | None => VNull
  end.

(** The cell of column [c] in the row of table [t] with key [k] (the first
    such row); missing when no row has the key. *)
Definition lookup_key (t : DataFrame) (k : cell * cell) (c : string) : cell :=
  from_option (get c) VNull (head (filter (fun r => key_of r = k) (rows t))).

(** The measures the joined table takes from each source. *)
Definition activity_measures : list string :=
  ["TotalSteps"; "Calories"; "SedentaryMinutes"; "VeryActiveMinutes"; "LightlyActiveMinutes"].

Definition hr_measures : list string := ["AvgHR"; "MaxHR"; "MinHR"; "HRCount"].

(** A row [r] of the joined table against the activity row [a] it comes
    from: each measure is the numeric reading of the cell of its source at
    the key of [a]. *)
Definition joined_row `{Pandas} (daily sleep : option DataFrame) (hr : DataFrame)
    (a r : gmap string cell) : Prop :=
  (forall c d, c ∈ activity_measures -> daily = Some d -> has_col c d = true ->
     get c r = coerce_cell (get c a)) /\
  (forall s, sleep = Some s -> has_col "TotalMinutesAsleep" s = true ->
     get "TotalMinutesAsleep" r = coerce_cell (lookup_key s (key_of a) "TotalMinutesAsleep")) /\
  (forall c, c ∈ hr_measures -> get c r = coerce_cell (lookup_key hr (key_of a) c)).

(** The cell that holds the mean of the numbers [vs]: missing when there
    is no number. *)
Definition is_mean_cell (v : cell) (vs : list Q) : Prop :=
  match vs with
  | [] => v = VNull
  | _ => exists m, v = VNum m /\ is_mean m vs
  end.

(** The cell that holds the mean of the numbers [vs] rounded to one
    decimal: missing when there is no number. *)
Definition is_round1_mean_cell (v : cell) (vs : list Q) : Prop :=
  match vs with
  | [] => v = VNull
  | _ => exists m x, is_mean m vs /\ is_round1 x m /\ v = VNum x
  end.

(** The position of a bucket among the labels. *)
Definition bucket_code (k : cell) : nat :=
  match k with
  | VStr s => default 0%nat (index_of s labels)
  | _ => 0%nat
  end.

(** Valid days of three subjects: step counts in each bucket, and one
    missing. *)
Definition valid_days : DataFrame :=
  frame ["Id"; "date"; "TotalSteps"; "Calories"; "SedentaryMinutes"; "TotalMinutesAsleep"; "AvgHR"]
    [ [VStr "1"; VDate (mkTS 2016 4 12 0 0 0); int 13162; int 1985; int 728; int 327; VNum (701 # 10)];
      [VStr "1"; VDate (mkTS 2016 4 13 0 0 0); int 3000; int 1800; int 900; VNull; VNull];
      [VStr "2"; VDate (mkTS 2016 4 12 0 0 0); int 4000; int 2001; int 800; int 400; int 80];
      [VStr "2"; VDate (mkTS 2016 4 13 0 0 0); VNull; int 1500; int 1000; int 300; VNull];
      [VStr "3"; VDate (mkTS 2016 4 12 0 0 0); int 8000; int 2200; int 700; int 420; int 75] ].

(** The columns the aggregations take means of. *)
Definition mean_columns : list string :=
  ["TotalSteps"; "Calories"; "SedentaryMinutes"; "VeryActiveMinutes"; "LightlyActiveMinutes";
   "TotalMinutesAsleep"; "AvgHR"].

(** What lines 134-164 need of the valid table: the four measures of the
    segments, and, unless the table has no row, every column a mean is
    taken of. *)
Definition aggregable (dv : DataFrame) : Prop :=
  Forall (fun c => has_col c dv = true) SEG_COLUMNS /\
  (rows dv = [] \/ Forall (fun c => has_col c dv = true) mean_columns).

(** An activity export with every column the script keeps. *)
Definition daily_full : DataFrame :=
  frame ["Id"; "ActivityDate"; "TotalSteps"; "Calories"; "SedentaryMinutes"; "VeryActiveMinutes";
         "LightlyActiveMinutes"]
    [ [int 1503960366; VStr "4/12/2016"; int 13162; int 1985; int 728; int 25; int 328];
      [int 1503960366; VStr "4/13/2016"; int 3000; int 1800; int 900; int 0; int 100];
      [int 1927972279; VStr "4/12/2016"; int 0; int 4000; int 1440; int 0; int 0] ].

(** A sleep export without the minutes asleep. *)
Definition sleep_csv_no_minutes : DataFrame :=
  frame ["Id"; "SleepDay"; "TotalSleepRecords"]
    [ [int 1503960366; VStr "4/12/2016 12:00:00 AM"; int 1] ].

(** No file at all. *)
Definition no_files : FileSystem :=
  {| path_exists := fun _ => false; pd_read_csv := fun _ => inl "no such file" |}.

(** The output directories of line 18 and a file of another name,
    but none of the four exports. *)
Definition no_exports : FileSystem :=
  {| path_exists := fun p =>
       String.eqb p "files/fitness_result" || String.eqb p "files/fitness_result/plots"
       || String.eqb p "data_raw/dailySteps_merged.csv";
     pd_read_csv := fun _ => inl "not an export" |}.

(** What the script prints when it finds no file. *)
Definition no_files_log : list string :=
  ["[Fitbit-EDA] Missing file: data_raw/dailyActivity_merged.csv";
   "[Fitbit-EDA] Missing file: data_raw/sleepDay_merged.csv";
   "[Fitbit-EDA] Missing file: data_raw/weightLogInfo_merged.csv";
   "[Fitbit-EDA] Missing file: data_raw/heartrate_seconds_merged.csv";
   "[Fitbit-EDA] WARNING: daily not loaded";
   "[Fitbit-EDA] WARNING: sleep not loaded";
   "[Fitbit-EDA] WARNING: weight not loaded";
   "[Fitbit-EDA] WARNING: heart not loaded";
   "[Fitbit-EDA] hr_day rows: 0";
   "[Fitbit-EDA] df_valid rows: 0"].

(** A computation that only adds lines to what is printed, and whose
    result does not depend on what was printed before. *)
Definition appends {A} (m : M A) : Prop :=
  forall out, m out = ((m []).1, out ++ (m []).2).

(** The table [read_csv_safe] returns for a path. *)
Definition loaded (fs : FileSystem) (path : string) : option DataFrame :=
  if path_exists fs path then
    match pd_read_csv fs path with inr df => Some df | inl _ => None end
  else None.

(** The heart-rate table after date parsing. *)
Definition heart_dated `{Pandas} (heart : option DataFrame) : option DataFrame :=
  match heart with
  | Some d =>
    match time_col d with
    | Some tc =>
      let d := assign tc (to_datetime_fallback (col tc d)) d in
      Some (assign "date" (dt_normalize (col tc d)) d)
    | None => Some d
    end
  | None => None
  end.

(** Lines 58-131 without the printing, as a function of the four tables
    read: the tables line 132 is reached with, or the exception. *)
Definition analysis `{Pandas} (daily sleep weight heart : option DataFrame) : Res Globals :=
  daily ← norm_id daily;
  sleep ← norm_id sleep;
  weight ← norm_id weight;
  heart ← norm_id heart;
  hr ← hr_day (heart_dated heart);
  df ← merge_chain (dedupe (parse_daily daily)) (dedupe (parse_sleep sleep)) hr;
  mret {| g_daily := dedupe (parse_daily daily); g_sleep := dedupe (parse_sleep sleep);
          g_weight := parse_weight weight; g_heart := heart_dated heart; g_hr_day := hr;
          g_df := qc_flags (add_weekday (coerce_num_cols df));
          g_df_valid := valid_rows (qc_flags (add_weekday (coerce_num_cols df))) |}.

(** What lines 58-116 need of the four tables read. *)
Definition joinable `{Pandas} (fs : FileSystem) : Prop :=
  exists d s w h hr,
    norm_id (loaded fs DAILY_CSV) = inr d /\ norm_id (loaded fs SLEEP_CSV) = inr s /\
    norm_id (loaded fs WEIGHT_CSV) = inr w /\ norm_id (loaded fs HEART_CSV) = inr h /\
    hr_day (heart_dated h) = inr hr /\
    (forall d', parse_daily d = Some d' -> has_col "Id" d' = true /\ has_col "date" d' = true) /\
    (forall s', parse_sleep s = Some s' -> has_col "Id" s' = true /\ has_col "date" s' = true).

(** A date of the calendar. *)
Definition valid_date (t : Timestamp) : Prop :=
  1 <= month t <= 12 /\ 1 <= day t <= days_in_month (year t) (month t).

(** The day after. *)
Definition next_day (t : Timestamp) : Timestamp :=
  if day t <? days_in_month (year t) (month t) then mkTS (year t) (month t) (day t + 1) 0 0 0
  else if month t <? 12 then mkTS (year t) (month t + 1) 1 0 0 0
  else mkTS (year t + 1) 1 1 0 0 0.

Definition WEEKDAYS : list string :=
  ["Monday"; "Tuesday"; "Wednesday"; "Thursday"; "Friday"; "Saturday"; "Sunday"].

(** A key as the script makes them: the identifier a string (identifier
    normalisation), the day a timestamp or missing (date parsing). *)
Definition typed_key (k : cell * cell) : Prop :=
  (exists s, k.1 = VStr s) /\ (k.2 = VNull \/ exists t, k.2 = VDate t).

(** * Properties *)

Ltac unfold_monad :=
  unfold mbind, mret, M_bind, M_ret, Res_bind, Res_ret, res_bind, lift, log in *.

Lemma string_app_nil_r (s : string) : s +:+ "" = s.
Proof.
  induction s as [| a s IH]; [done |].
  change (String a (s +:+ "") = String a s). by rewrite IH.
Qed.

(** ** The float64 of an integer *)

(** From 53 bits on, the float64 of an integer is a 53-bit mantissa times
    a power of two. *)
Lemma float64_of_Z_abs (z : Z) :
  2 ^ 53 <= Z.abs z ->
  exists m e, 1 <= e /\ 2 ^ 52 <= m <= 2 ^ 53 /\ float64_of_Z z = Z.sgn z * (m * 2 ^ e).
Proof.
  intros Hz. unfold float64_of_Z.
  destruct (Z.ltb_spec (Z.abs z) (2 ^ 53)) as [? | _]; [lia |].
  set (a := Z.abs z) in *.
  assert (Ha : 0 < a) by lia.
  pose proof (Z.log2_spec a Ha) as [Hlo Hhi].
  assert (Hl : 53 <= Z.log2 a).
  { apply Z.log2_le_pow2; lia. }
  set (e := Z.log2 a - 52) in *.
  assert (He : 1 <= e) by lia.
  replace (Z.log2 a) with (52 + e) in Hlo by lia.
  replace (Z.succ (Z.log2 a)) with (53 + e) in Hhi by lia.
  rewrite Z.pow_add_r in Hlo, Hhi by lia.
  assert (Hp : 0 < 2 ^ e) by (apply Z.pow_pos_nonneg; lia).
  assert (Hm : 2 ^ 52 <= a / 2 ^ e < 2 ^ 53).
  { split.
    - apply Z.div_le_lower_bound; lia.
    - apply Z.div_lt_upper_bound; lia. }
  eexists _, e. split; [done |]. split; [| reflexivity].
  repeat case_match; lia.
Qed.

(** A float64 that is an integer of 53 bits or more converts to itself. *)
Lemma float64_of_Z_scaled (s m e : Z) :
  (s = 1 \/ s = -1) -> 1 <= e -> 2 ^ 52 <= m <= 2 ^ 53 ->
  float64_of_Z (s * (m * 2 ^ e)) = s * (m * 2 ^ e).
Proof.
  intros Hs He Hm.
  assert (Hp : 0 < 2 ^ e) by (apply Z.pow_pos_nonneg; lia).
  assert (Hp1 : 2 ^ e = 2 * 2 ^ (e - 1)).
  { rewrite <- Z.pow_succ_r by lia. f_equal. lia. }
  assert (Hh : 0 < 2 ^ (e - 1)) by (apply Z.pow_pos_nonneg; lia).
  set (w := s * (m * 2 ^ e)).
  assert (Hw : Z.abs w = m * 2 ^ e) by (unfold w; nia).
  assert (Hsg : Z.sgn w = s) by (unfold w; nia).
  unfold float64_of_Z. rewrite Hw, Hsg.
  destruct (Z.ltb_spec (m * 2 ^ e) (2 ^ 53)) as [? | _]; [nia |].
  destruct (Z.eq_dec m (2 ^ 53)) as [-> | Hne].
  - assert (Hlog : Z.log2 (2 ^ 53 * 2 ^ e) = 53 + e).
    { rewrite <- Z.pow_add_r by lia. apply Z.log2_pow2. lia. }
    rewrite Hlog. replace (53 + e - 52) with (e + 1) by lia.
    replace (2 ^ 53 * 2 ^ e) with (2 ^ 52 * 2 ^ (e + 1)).
    2:{ rewrite (Z.pow_add_r 2 e 1) by lia. lia. }
    assert (Hq : 0 < 2 ^ (e + 1)) by (apply Z.pow_pos_nonneg; lia).
    rewrite Z.div_mul, Z_mod_mult by lia.
    replace (e + 1 - 1) with e by lia.
    destruct (Z.ltb_spec 0 (2 ^ e)); [| lia].
    unfold w. rewrite (Z.pow_add_r 2 e 1) by lia. lia.
  - assert (Hlog : Z.log2 (m * 2 ^ e) = 52 + e).
    { apply Z.log2_unique; [lia |].
      replace (Z.succ (52 + e)) with (53 + e) by lia.
      rewrite !Z.pow_add_r by lia. nia. }
    rewrite Hlog. replace (52 + e - 52) with e by lia.
    rewrite Z.div_mul, Z_mod_mult by lia.
    destruct (Z.ltb_spec 0 (2 ^ (e - 1))); [done | lia].
Qed.

Lemma float64_of_Z_idem (z : Z) : float64_of_Z (float64_of_Z z) = float64_of_Z z.
Proof.
  destruct (Z.lt_ge_cases (Z.abs z) (2 ^ 53)) as [Hlt | Hge].
  - assert (E : float64_of_Z z = z).
    { unfold float64_of_Z. by destruct (Z.ltb_spec (Z.abs z) (2 ^ 53)); [| lia]. }
    by rewrite !E.
  - destruct (float64_of_Z_abs z Hge) as (m & e & He & Hm & ->).
    apply float64_of_Z_scaled; [lia | done | done].
Qed.

(** ** The loader *)

(** C7. Whatever the path, [read_csv_safe] returns (it never raises): a
    frame, which is then what [pd.read_csv] parsed, with nothing printed;
    or the absent result, exactly when the file does not exist or exists
    and [pd.read_csv] fails on it, and then one line is printed, which
    names the path. *)
Theorem read_csv_safe_contract (fs : FileSystem) (path : string) (out : list string) :
  exists (res : option DataFrame) (out' : list string),
    read_csv_safe fs path out = (inr res, out') /\
    (res = None <->
       path_exists fs path = false \/
       (path_exists fs path = true /\ exists e, pd_read_csv fs path = inl e)) /\
    match res with
    | Some df => pd_read_csv fs path = inr df /\ out' = out
    | None => exists msg, out' = out ++ [msg] /\ names msg path
    end.
Proof.
  unfold read_csv_safe.
  destruct (path_exists fs path) eqn:Hex; simpl.
  - destruct (pd_read_csv fs path) as [e | df] eqn:Hrd; unfold_monad.
    + exists None, (out ++ ["[Fitbit-EDA] " +:+ ("Failed to read " +:+ path +:+ ": " +:+ e)]).
      split; [done |]. split.
      * split; [intros _; right; eauto | done].
      * eexists. split; [done |].
        exists "[Fitbit-EDA] Failed to read ", (": " +:+ e). done.
    + exists (Some df), out. split; [done |]. split; [| done].
      split; [done |]. intros [? | [_ [e He]]]; congruence.
  - unfold_monad.
    exists None, (out ++ ["[Fitbit-EDA] " +:+ ("Missing file: " +:+ path)]).
    split; [done |]. split.
    + split; [intros _; by left | done].
    + eexists. split; [done |].
      exists "[Fitbit-EDA] Missing file: ", "".
      by rewrite string_app_nil_r.
Qed.

(** ** Frames *)

Lemma traverse_inr {A B} (f : A -> Res B) (l : list A) (l' : list B) :
  traverse f l = inr l' <-> Forall2 (fun a b => f a = inr b) l l'.
Proof.
  revert l'. induction l as [| a l IH]; intros l'; simpl.
  - split.
    + intros [= <-]. constructor.
    + intros Hf. by inversion Hf.
  - unfold_monad. split.
    + destruct (f a) as [e | b] eqn:Hfa; [done |].
      destruct (traverse f l) as [e | bs] eqn:Htr; [done |].
      intros [= <-]. constructor; [done | by apply IH].
    + intros Hf. inversion Hf as [| a' b l1 bs Hab Hrest]; subst.
      rewrite Hab. apply IH in Hrest. by rewrite Hrest.
Qed.

Lemma traverse_inl {A B} (f : A -> Res B) (l : list A) (e : Exn) :
  traverse f l = inl e -> exists a, a ∈ l /\ f a = inl e.
Proof.
  induction l as [| a l IH]; simpl; [done |]. unfold_monad.
  destruct (f a) as [e' | b] eqn:Hfa.
  - intros [= ->]. exists a. split; [left | done].
  - destruct (traverse f l) as [e' | bs]; [| done].
    intros [= ->]. destruct IH as (a' & Hin & Ha'); [done |].
    exists a'. split; [by right | done].
Qed.

Lemma rows_assign (c : string) (vs : list cell) (df : DataFrame) :
  rows (assign c vs df) = zip_with (fun r v => <[c := v]> r) (rows df) vs.
Proof. done. Qed.

Lemma rows_assign_map (c : string) (f : gmap string cell -> cell) (df : DataFrame) :
  rows (assign c (map f (rows df)) df) = map (fun r => <[c := f r]> r) (rows df).
Proof.
  rewrite rows_assign. induction (rows df) as [| r l IH]; simpl; [done | by rewrite IH].
Qed.

Lemma get_insert_eq (c : string) (v : cell) (r : gmap string cell) :
  get c (<[c := v]> r) = v.
Proof. unfold get. by rewrite lookup_insert_eq. Qed.

Lemma get_insert_ne (c c' : string) (v : cell) (r : gmap string cell) :
  c ≠ c' -> get c' (<[c := v]> r) = get c' r.
Proof. intros Hne. unfold get. by rewrite lookup_insert_ne. Qed.

Lemma col_assign_eq (c : string) (vs : list cell) (df : DataFrame) :
  length vs = length (rows df) -> col c (assign c vs df) = vs.
Proof.
  unfold col. rewrite rows_assign. generalize (rows df). intros l. revert l.
  induction vs as [| v vs IH]; intros [| r l]; simpl; try done.
  intros [= Hlen]. by rewrite get_insert_eq, IH.
Qed.

Lemma col_assign_ne (c c' : string) (vs : list cell) (df : DataFrame) :
  c ≠ c' -> length vs = length (rows df) -> col c' (assign c vs df) = col c' df.
Proof.
  intros Hne. unfold col. rewrite rows_assign. generalize (rows df). intros l. revert l.
  induction vs as [| v vs IH]; intros [| r l]; simpl; try done.
  intros [= Hlen]. by rewrite get_insert_ne, IH.
Qed.

Lemma has_col_assign (c c' : string) (vs : list cell) (df : DataFrame) :
  has_col c' (assign c vs df) = has_col c' df || bool_decide (c' = c).
Proof.
  unfold has_col, assign; simpl. fold (has_col c df). unfold has_col.
  apply eq_true_iff_eq.
  rewrite orb_true_iff, !bool_decide_eq_true.
  destruct (bool_decide_reflect (c ∈ columns df)) as [Hin | Hnin].
  - split; [by left | intros [? | ->]; done].
  - rewrite elem_of_app, list_elem_of_singleton. done.
Qed.

Lemma columns_assign_has (c : string) (vs : list cell) (df : DataFrame) :
  has_col c df = true -> columns (assign c vs df) = columns df.
Proof. intros Hc. unfold assign; simpl. by rewrite Hc. Qed.


(** ** Identifier normalisation *)


Section NormId.
Context `{Pandas}.



Lemma int64_of_inr (fl : bool) (n : option numeric) (oz : option Z) :
  int64_of fl n = inr oz ->
  match oz with
  | Some z => in_int64 z = true /\ (fl = true -> float64_of_Z z = z)
  | None => n = None
  end.
Proof.
  destruct n as [[z | q] |]; simpl.
  - destruct (in_int64 _) eqn:E; [| done]. intros [= <-]. split; [done |].
    intros ->. apply float64_of_Z_idem.
  - destruct (Qint q) as [z |]; simpl; [| done].
    destruct (in_int64 _) eqn:E; [| done]. intros [= <-]. split; [done |].
    intros _. apply float64_of_Z_idem.
  - by intros [= <-].
Qed.




Lemma traverse_length {A B} (f : A -> Res B) (l : list A) (l' : list B) :
  traverse f l = inr l' -> length l' = length l.
Proof. intros Htr. apply traverse_inr in Htr. symmetry. by eapply Forall2_length. Qed.



Lemma astype_str_canonical (fl : bool) (n : option numeric) (oz : option Z) :
  int64_of fl n = inr oz -> canonical (astype_str oz).
Proof.
  intros Hn. apply int64_of_inr in Hn. destruct oz as [z |].
  - right. exists z. by destruct Hn.
  - by left.
Qed.


End NormId.

(** ** The order of keys *)

Lemma lexc_opp (c1 c2 : comparison) : CompOpp (lexc c1 c2) = lexc (CompOpp c1) (CompOpp c2).
Proof. by destruct c1. Qed.

Lemma ts_compare_antisym (a b : Timestamp) : ts_compare b a = CompOpp (ts_compare a b).
Proof.
  unfold ts_compare. rewrite !lexc_opp, <- !Z.compare_antisym. done.
Qed.

Lemma ts_compare_refl (a : Timestamp) : ts_compare a a = Eq.
Proof. unfold ts_compare. by rewrite !Z.compare_refl. Qed.

Lemma Qlt_bool_asym (p q : Q) : Qlt_bool p q = true -> Qlt_bool q p = false.
Proof.
  unfold Qlt_bool. rewrite negb_true_iff, negb_false_iff.
  intros Hqp. apply Qle_bool_iff. apply Qlt_le_weak, Qnot_le_lt.
  intros Hle. apply Qle_bool_iff in Hle. congruence.
Qed.

Lemma cell_ltb_asym (a b : cell) : cell_ltb a b = true -> cell_ltb b a = false.
Proof.
  destruct a as [| p | s | t | x], b as [| q | s' | t' | y]; simpl; try done.
  - apply Qlt_bool_asym.
  - unfold String.ltb. rewrite (String.compare_antisym s s').
    by destruct (String.compare s' s).
  - rewrite (ts_compare_antisym t t'). by destruct (ts_compare t t').
  - by destruct x, y.
Qed.

Lemma cell_ltb_irrefl (a : cell) : cell_ltb a a = false.
Proof. destruct (cell_ltb a a) eqn:E; [| done]. by rewrite (cell_ltb_asym a a E) in E. Qed.

Lemma key_ltb_irrefl (k : cell * cell) : key_ltb k k = false.
Proof. unfold key_ltb. rewrite !cell_ltb_irrefl. by rewrite andb_false_r. Qed.

Lemma key_ltb_asym (k1 k2 : cell * cell) : key_ltb k1 k2 = true -> key_ltb k2 k1 = false.
Proof.
  unfold key_ltb. destruct k1 as [a1 b1], k2 as [a2 b2]; simpl.
  intros Hlt. apply orb_true_iff in Hlt as [Ha | Hb].
  - rewrite (cell_ltb_asym _ _ Ha). simpl.
    destruct (bool_decide_reflect (a2 = a1)) as [-> | ?]; [| done].
    by rewrite cell_ltb_irrefl in Ha.
  - apply andb_true_iff in Hb as [Heq Hb]. apply bool_decide_eq_true in Heq as ->.
    rewrite cell_ltb_irrefl, (cell_ltb_asym _ _ Hb). by rewrite andb_false_r.
Qed.


(** ** Sorting *)

Section Sorting.
Context {A : Type} (kf : A -> cell * cell).

Lemma insert_sorted_perm (x : A) (l : list A) : insert_sorted kf x l ≡ₚ x :: l.
Proof.
  induction l as [| y l IH]; simpl; [done |].
  destruct (key_ltb (kf y) (kf x)); [| done].
  rewrite IH. apply Permutation_swap.
Qed.

Lemma sort_values_perm (l : list A) : sort_values kf l ≡ₚ l.
Proof.
  induction l as [| x l IH]; simpl; [done |].
  by rewrite insert_sorted_perm, IH.
Qed.

Lemma insert_sorted_Sorted (x : A) (l : list A) :
  Sorted (key_le kf) l -> Sorted (key_le kf) (insert_sorted kf x l).
Proof.
  induction l as [| y l IH]; simpl; intros Hs.
  - by repeat constructor.
  - destruct (key_ltb (kf y) (kf x)) eqn:Hyx.
    + apply Sorted_inv in Hs as [Hs Hhd]. constructor; [by apply IH |].
      destruct l as [| z l]; simpl.
      * constructor. by apply key_ltb_asym.
      * destruct (key_ltb (kf z) (kf x)).
        -- constructor. by apply HdRel_inv in Hhd.
        -- constructor. by apply key_ltb_asym.
    + constructor; [done |]. by constructor.
Qed.

Lemma sort_values_Sorted (l : list A) : Sorted (key_le kf) (sort_values kf l).
Proof.
  induction l as [| x l IH]; simpl; [constructor |].
  by apply insert_sorted_Sorted.
Qed.

(** The sort is stable: the rows of one key keep their order. *)
Lemma insert_sorted_filter (k : cell * cell) (x : A) (l : list A) :
  filter (fun y => kf y = k) (insert_sorted kf x l) = filter (fun y => kf y = k) (x :: l).
Proof.
  induction l as [| y l IH]; simpl; [done |].
  destruct (key_ltb (kf y) (kf x)) eqn:Hyx; [| done].
  rewrite !filter_cons in *. rewrite IH.
  destruct (decide (kf y = k)) as [Hy | Hy]; [| done].
  destruct (decide (kf x = k)) as [Hx | Hx]; [| done].
  rewrite Hy, Hx, key_ltb_irrefl in Hyx. done.
Qed.

Lemma sort_values_stable (k : cell * cell) (l : list A) :
  filter (fun y => kf y = k) (sort_values kf l) = filter (fun y => kf y = k) l.
Proof.
  induction l as [| x l IH]; simpl; [done |].
  rewrite insert_sorted_filter, !filter_cons, IH. done.
Qed.

End Sorting.

(** ** De-duplication *)

Lemma drop_duplicates_from_spec (seen : list (cell * cell)) (l : list (gmap string cell))
    (r : gmap string cell) :
  (r ∈ drop_duplicates_from seen l) <->
  (key_of r ∉ seen) /\ head (filter (fun x => key_of x = key_of r) l) = Some r.
Proof.
  revert seen. induction l as [| x l IH]; intros seen; simpl.
  - split; [by intros ?%elem_of_nil | by intros [_ ?]].
  - rewrite filter_cons.
    destruct (bool_decide_reflect (key_of x ∈ seen)) as [Hin | Hnin].
    + rewrite IH. destruct (decide (key_of x = key_of r)) as [E | E]; [| done].
      rewrite <- E. split; by intros [? _].
    + rewrite elem_of_cons, IH, not_elem_of_cons.
      destruct (decide (key_of x = key_of r)) as [E | E]; simpl.
      * split.
        -- intros [-> | [[? _] _]]; done.
        -- intros [_ [= ->]]. by left.
      * split.
        -- intros [-> | [[_ ?] ?]]; done.
        -- intros [? ?]. right. done.
Qed.

Lemma drop_duplicates_from_NoDup (seen : list (cell * cell)) (l : list (gmap string cell)) :
  NoDup (key_of <$> drop_duplicates_from seen l).
Proof.
  revert seen. induction l as [| x l IH]; intros seen; simpl; [constructor |].
  destruct (bool_decide_reflect (key_of x ∈ seen)) as [Hin | Hnin]; [done |].
  rewrite fmap_cons. constructor; [| done].
  intros (r & Hk & Hr)%list_elem_of_fmap.
  apply drop_duplicates_from_spec in Hr as [Hr _].
  rewrite Hk in Hr. apply Hr. left.
Qed.

Lemma head_filter_key (k : cell * cell) (l : list (gmap string cell)) :
  k ∈ key_of <$> l ->
  exists r, key_of r = k /\ head (filter (fun x => key_of x = k) l) = Some r.
Proof.
  induction l as [| x l IH]; [by intros ?%elem_of_nil |].
  rewrite fmap_cons, filter_cons. intros Hin.
  destruct (decide (key_of x = k)) as [E | E]; [by exists x |].
  apply elem_of_cons in Hin as [-> | Hin]; [done | by apply IH].
Qed.

Lemma drop_duplicates_keys (l : list (gmap string cell)) (k : cell * cell) :
  k ∈ key_of <$> l <-> k ∈ key_of <$> drop_duplicates l.
Proof.
  split.
  - intros (r & <- & Hr)%head_filter_key.
    apply list_elem_of_fmap. exists r. split; [done |].
    apply drop_duplicates_from_spec. split; [apply not_elem_of_nil | done].
  - intros (r & -> & Hr)%list_elem_of_fmap.
    apply drop_duplicates_from_spec in Hr as [_ Hr].
    apply head_Some_elem_of, list_elem_of_filter in Hr as [_ Hr].
    apply list_elem_of_fmap. eauto.
Qed.

(** C3. A table with [Id] and [date] columns is sorted by key, stably
    (a permutation, ascending, the rows of each key in their order), and
    then holds, for each key of the input, exactly one row: the first of
    the key's rows in the sorted table. *)
Theorem dedupe_first_of_group (d : DataFrame) :
  has_col "Id" d = true -> has_col "date" d = true ->
  exists d', dedupe (Some d) = Some d' /\ columns d' = columns d /\
    let sorted := sort_values key_of (rows d) in
    sorted ≡ₚ rows d /\
    Sorted (key_le key_of) sorted /\
    (forall k, filter (fun x => key_of x = k) sorted = filter (fun x => key_of x = k) (rows d)) /\
    NoDup (key_of <$> rows d') /\
    (forall k, k ∈ key_of <$> rows d <-> k ∈ key_of <$> rows d') /\
    (forall r, r ∈ rows d' <->
               head (filter (fun x => key_of x = key_of r) sorted) = Some r).
Proof.
  intros Hid Hdate. unfold dedupe. rewrite Hid, Hdate. simpl.
  eexists. split; [done |]. split; [done |]. simpl.
  split; [apply sort_values_perm |].
  split; [apply sort_values_Sorted |].
  split; [intros k; apply sort_values_stable |].
  split; [apply drop_duplicates_from_NoDup |].
  split.
  - intros k. rewrite <- drop_duplicates_keys.
    by rewrite (sort_values_perm key_of (rows d)).
  - intros r. unfold drop_duplicates. rewrite drop_duplicates_from_spec.
    split; [by intros [_ ?] | intros ?; split; [apply not_elem_of_nil | done]].
Qed.

(** ** Aggregates *)

Lemma mean_is_mean (vs : list Q) (m : Q) : mean vs = Some m -> is_mean m vs.
Proof.
  destruct vs as [| v vs]; [done |]. intros [= <-]. unfold is_mean. apply Qred_correct.
Qed.

Lemma Qmax_cases (p q : Q) : (Qmax p q = q /\ (p <= q)%Q) \/ (Qmax p q = p /\ (q <= p)%Q).
Proof.
  unfold Qmax. destruct (Qle_bool p q) eqn:E.
  - left. split; [done |]. by apply Qle_bool_iff.
  - right. split; [done |]. apply Qlt_le_weak, Qnot_le_lt.
    intros Hle. apply Qle_bool_iff in Hle. congruence.
Qed.

Lemma Qmin_cases (p q : Q) : (Qmin p q = p /\ (p <= q)%Q) \/ (Qmin p q = q /\ (q <= p)%Q).
Proof.
  unfold Qmin. destruct (Qle_bool p q) eqn:E.
  - left. split; [done |]. by apply Qle_bool_iff.
  - right. split; [done |]. apply Qlt_le_weak, Qnot_le_lt.
    intros Hle. apply Qle_bool_iff in Hle. congruence.
Qed.

Lemma foldl_Qmax (x : Q) (l : list Q) :
  foldl Qmax x l ∈ x :: l /\ Forall (fun v => v <= foldl Qmax x l)%Q (x :: l).
Proof.
  revert x. induction l as [| y l IH]; intros x; simpl.
  - split; [left |]. constructor; [apply Qle_refl | constructor].
  - destruct (IH (Qmax x y)) as [Hin Hall].
    apply Forall_cons in Hall as [Hhd Htl].
    destruct (Qmax_cases x y) as [[E Hle] | [E Hle]]; rewrite E in *.
    + split; [by right |]. constructor; [by eapply Qle_trans | by constructor].
    + split.
      * apply elem_of_cons in Hin as [-> | Hin]; [left | right; by right].
      * constructor; [done |]. constructor; [by eapply Qle_trans | done].
Qed.

Lemma foldl_Qmin (x : Q) (l : list Q) :
  foldl Qmin x l ∈ x :: l /\ Forall (fun v => foldl Qmin x l <= v)%Q (x :: l).
Proof.
  revert x. induction l as [| y l IH]; intros x; simpl.
  - split; [left |]. constructor; [apply Qle_refl | constructor].
  - destruct (IH (Qmin x y)) as [Hin Hall].
    apply Forall_cons in Hall as [Hhd Htl].
    destruct (Qmin_cases x y) as [[E Hle] | [E Hle]]; rewrite E in *.
    + split.
      * apply elem_of_cons in Hin as [-> | Hin]; [left | right; by right].
      * constructor; [done |]. constructor; [by eapply Qle_trans | done].
    + split; [by right |]. constructor; [by eapply Qle_trans | by constructor].
Qed.

Lemma maximum_is_max (vs : list Q) (m : Q) : maximum vs = Some m -> is_max m vs.
Proof. destruct vs as [| v vs]; [done |]. intros [= <-]. apply foldl_Qmax. Qed.

Lemma minimum_is_min (vs : list Q) (m : Q) : minimum vs = Some m -> is_min m vs.
Proof. destruct vs as [| v vs]; [done |]. intros [= <-]. apply foldl_Qmin. Qed.

Lemma rint_nearest (q : Q) : (Qabs (q - inject_Z (rint q)) <= 1 # 2)%Q.
Proof.
  destruct q as [n d].
  pose proof (Z.div_mod n (Z.pos d) ltac:(lia)) as Hdm.
  pose proof (Z.mod_pos_bound n (Z.pos d) ltac:(lia)) as Hr.
  assert (Hcases : forall z,
            (z = n / Z.pos d /\ 2 * (n mod Z.pos d) <= Z.pos d) \/
            (z = n / Z.pos d + 1 /\ Z.pos d <= 2 * (n mod Z.pos d)) ->
            (Qabs ((n # d) - inject_Z z) <= 1 # 2)%Q).
  { intros z Hz. apply Qabs_Qle_condition.
    unfold Qle, Qminus, Qplus, Qopp, inject_Z. simpl.
    rewrite !Pos2Z.inj_mul. nia. }
  apply Hcases. unfold rint. cbn [Qnum Qden].
  destruct (Z.ltb_spec (2 * (n mod Z.pos d)) (Z.pos d)); [left; split; [done | lia] |].
  destruct (Z.ltb_spec (Z.pos d) (2 * (n mod Z.pos d))); [right; split; [done | lia] |].
  destruct (Z.even (n / Z.pos d)); [left | right]; split; try done; lia.
Qed.

Lemma round1_is_round1 (q : Q) : is_round1 (round1 q) q.
Proof.
  exists (rint (q * 10)). split; [apply Qred_correct | apply rint_nearest].
Qed.

(** ** Grouping *)

Lemma group_add_keys (r : gmap string cell) (gs : list (cell * cell * list (gmap string cell))) :
  (group_add r gs).*1 =
  if decide (key_of r ∈ gs.*1) then gs.*1 else gs.*1 ++ [key_of r].
Proof.
  induction gs as [| [k g] gs IH]; cbn [group_add].
  - by rewrite decide_False by apply not_elem_of_nil.
  - rewrite !fmap_cons. cbn [fst].
    destruct (bool_decide_reflect (k = key_of r)) as [-> | Hne].
    + rewrite fmap_cons. cbn [fst]. by rewrite decide_True by left.
    + rewrite fmap_cons, IH. cbn [fst].
      destruct (decide (key_of r ∈ gs.*1)) as [Hin | Hnin].
      * by rewrite decide_True by (by right).
      * rewrite decide_False; [done |].
        intros [? | ?]%elem_of_cons; congruence.
Qed.

Lemma group_add_elem (r : gmap string cell) (gs : list (cell * cell * list (gmap string cell)))
    (k : cell * cell) (g : list (gmap string cell)) :
  NoDup gs.*1 -> (k, g) ∈ group_add r gs ->
  (k ≠ key_of r /\ (k, g) ∈ gs) \/
  (k = key_of r /\ ((exists g0, (k, g0) ∈ gs /\ g = g0 ++ [r]) \/ ((k ∉ gs.*1) /\ g = [r]))).
Proof.
  induction gs as [| [k0 g0] gs IH]; cbn [group_add]; intros Hnd Hin.
  - apply list_elem_of_singleton in Hin as [= -> ->]. right. split; [done |].
    right. split; [apply not_elem_of_nil | done].
  - rewrite fmap_cons in Hnd. apply NoDup_cons in Hnd as [Hk0 Hnd]. cbn [fst] in Hk0.
    destruct (bool_decide_reflect (k0 = key_of r)) as [-> | Hne].
    + apply elem_of_cons in Hin as [[= -> ->] | Hin].
      * right. split; [done |]. left. exists g0. split; [left | done].
      * left. split; [| by right].
        intros ->. apply Hk0. apply list_elem_of_fmap. by exists (key_of r, g).
    + apply elem_of_cons in Hin as [[= -> ->] | Hin].
      * left. split; [done | left].
      * destruct (IH Hnd Hin) as [[? ?] | [-> [(g1 & ? & ->) | [? ->]]]].
        -- left. split; [done | by right].
        -- right. split; [done |]. left. exists g1. split; [by right | done].
        -- right. split; [done |]. right. split; [| done].
           rewrite fmap_cons. cbn [fst].
           intros [? | ?]%elem_of_cons; congruence.
Qed.

(** The groups hold, key by key and in order, the rows of the table whose
    key is complete. *)
Lemma foldl_group_step (l : list (gmap string cell)) :
  let gs := foldl group_step [] l in
  NoDup gs.*1 /\
  (forall k g, (k, g) ∈ gs ->
     key_notna k = true /\ g = filter (fun r => key_of r = k) l) /\
  (forall r, r ∈ l -> key_notna (key_of r) = true -> key_of r ∈ gs.*1).
Proof.
  induction l as [| r l IH] using rev_ind; cbn zeta.
  - split; [constructor |]. split; [by intros k g ?%elem_of_nil | by intros r ?%elem_of_nil].
  - rewrite foldl_app. cbn [foldl]. destruct IH as (Hnd & Hgs & Hall).
    set (gs := foldl group_step [] l) in *. unfold group_step at 1 2 3.
    destruct (key_notna (key_of r)) eqn:Hna.
    + split; [| split].
      * rewrite group_add_keys. destruct (decide (key_of r ∈ gs.*1)); [done |].
        apply NoDup_app. split; [done |]. split; [| apply NoDup_singleton].
        intros k Hk ->%list_elem_of_singleton. done.
      * intros k g Hin. rewrite filter_app, filter_cons, filter_nil.
        apply group_add_elem in Hin as [[Hne Hin] | [-> [(g0 & Hin & ->) | [Hnin ->]]]];
          [| | | done].
        -- destruct (Hgs k g Hin) as [? ->]. split; [done |].
           rewrite decide_False by done. by rewrite app_nil_r.
        -- destruct (Hgs _ g0 Hin) as [? ->]. split; [done |].
           by rewrite decide_True by done.
        -- split; [done |]. rewrite decide_True by done.
           assert (Hnil : filter (fun r0 => key_of r0 = key_of r) l = []); [| by rewrite Hnil].
           destruct (filter _ l) as [| x ?] eqn:E; [done |].
           assert (Hx : x ∈ filter (fun r0 => key_of r0 = key_of r) l) by (rewrite E; left).
           apply list_elem_of_filter in Hx as [Hkx Hx].
           destruct Hnin. rewrite <- Hkx. apply Hall; [done |]. by rewrite Hkx.
      * intros r' [Hin | ->%list_elem_of_singleton]%elem_of_app Hna'.
        -- rewrite group_add_keys. specialize (Hall r' Hin Hna').
           destruct (decide (key_of r ∈ gs.*1)); [done |].
           apply elem_of_app. by left.
        -- rewrite group_add_keys.
           destruct (decide (key_of r ∈ gs.*1)); [done |].
           apply elem_of_app. right. left.
    + split; [done |]. split.
      * intros k g Hin. destruct (Hgs k g Hin) as [Hk ->]. split; [done |].
        rewrite filter_app, filter_cons, filter_nil.
        rewrite decide_False; [by rewrite app_nil_r |]. intros E. congruence.
      * intros r' [Hin | ->%list_elem_of_singleton]%elem_of_app Hna'; [by apply Hall |].
        congruence.
Qed.

Lemma groupby_NoDup (l : list (gmap string cell)) : NoDup (groupby l).*1.
Proof.
  unfold groupby. rewrite (sort_values_perm fst (foldl group_step [] l)).
  apply foldl_group_step.
Qed.

Lemma groupby_elem (l : list (gmap string cell)) (k : cell * cell) :
  key_notna k = true -> filter (fun r => key_of r = k) l ≠ [] ->
  (k, filter (fun r => key_of r = k) l) ∈ groupby l.
Proof.
  intros Hna Hne. unfold groupby.
  rewrite (sort_values_perm fst (foldl group_step [] l)).
  destruct (foldl_group_step l) as (_ & Hgs & Hall).
  destruct (filter _ l) as [| r g] eqn:E; [done |]. rewrite <- E.
  assert (Hr : r ∈ filter (fun r => key_of r = k) l) by (rewrite E; left).
  apply list_elem_of_filter in Hr as [<- Hr].
  apply Hall in Hr; [| done].
  apply list_elem_of_fmap in Hr as ([k' g'] & Hk & Hin). simpl in Hk. subst k'.
  by destruct (Hgs _ _ Hin) as [_ <-].
Qed.

Lemma filter_unique_key {A K} `{EqDecision K} (f : A -> K) (l : list A) (x : A) :
  NoDup (f <$> l) -> x ∈ l -> filter (fun y => f y = f x) l = [x].
Proof.
  induction l as [| y l IH]; [by intros _ ?%elem_of_nil |].
  rewrite fmap_cons, filter_cons. intros [Hy Hnd]%NoDup_cons [-> | Hin]%elem_of_cons.
  - rewrite decide_True by done. f_equal.
    destruct (filter _ l) as [| z ?] eqn:E; [done |].
    assert (Hz : z ∈ filter (fun y0 => f y0 = f y) l) by (rewrite E; left).
    apply list_elem_of_filter in Hz as [Hfz Hz].
    destruct Hy. rewrite <- Hfz. apply list_elem_of_fmap. eauto.
  - rewrite decide_False; [by apply IH |].
    intros E. apply Hy. rewrite E. apply list_elem_of_fmap. eauto.
Qed.

Lemma key_of_agg_row (kg : cell * cell * list (gmap string cell)) :
  key_of (agg_row kg) = kg.1.
Proof. by destruct kg as [[a b] g]. Qed.

Lemma keys_of_agg_rows (l : list (cell * cell * list (gmap string cell))) :
  key_of <$> (agg_row <$> l) = l.*1.
Proof.
  induction l as [| kg l IH]; [done |].
  by rewrite !fmap_cons, key_of_agg_row, IH.
Qed.

Lemma hr_day_NoDup (heart : option DataFrame) (hr : DataFrame) :
  hr_day heart = inr hr ->
  has_col "Id" hr = true /\ has_col "date" hr = true /\ NoDup (key_of <$> rows hr).
Proof.
  unfold hr_day. destruct heart as [h |]; [| intros [= <-]; repeat split; constructor].
  destruct (_ && _); [| intros [= <-]; repeat split; constructor].
  destruct (existsb _ _); [done |]. intros [= <-]. repeat split. cbn [rows].
  rewrite keys_of_agg_rows. apply groupby_NoDup.
Qed.

Lemma omap_as_number (g : list (gmap string cell)) (vs : list Q) :
  Forall2 (fun r v => as_number (get "Value" r) = Some v) g vs ->
  omap as_number (get "Value" <$> g) = vs.
Proof.
  induction 1 as [| r v g vs Hr _ IH]; [done |].
  rewrite fmap_cons. cbn [omap list_omap]. rewrite Hr. by rewrite <- IH.
Qed.

(** C4. In a heart-rate table with numeric values, take a complete key
    and the samples that carry it, [N] of them (at least one), all with a
    value.  The aggregate holds exactly one row with that key; its
    [AvgHR], [MaxHR] and [MinHR] are the mean, the greatest and the least
    of the values, rounded to the nearest tenth, and its [HRCount] is
    [N]. *)
Theorem hr_day_group (h : DataFrame) (k : cell * cell) (vs : list Q) :
  has_col "Value" h = true -> has_col "Id" h = true -> has_col "date" h = true ->
  existsb is_str (col "Value" h) = false ->
  key_notna k = true ->
  vs ≠ [] ->
  Forall2 (fun r v => as_number (get "Value" r) = Some v)
          (filter (fun r => key_of r = k) (rows h)) vs ->
  exists (hr : DataFrame) (row : gmap string cell) (m mx mn : Q),
    hr_day (Some h) = inr hr /\
    filter (fun r => key_of r = k) (rows hr) = [row] /\
    is_mean m vs /\ is_max mx vs /\ is_min mn vs /\
    get "AvgHR" row = VNum (round1 m) /\ is_round1 (round1 m) m /\
    get "MaxHR" row = VNum (round1 mx) /\ is_round1 (round1 mx) mx /\
    get "MinHR" row = VNum (round1 mn) /\ is_round1 (round1 mn) mn /\
    get "HRCount" row = VNum (inject_Z (Z.of_nat (length vs))).
Proof.
  intros Hv Hi Hd Hnum Hna Hne Hvs.
  set (g := filter (fun r => key_of r = k) (rows h)) in *.
  assert (Hg : g ≠ []).
  { intros E. rewrite E in Hvs. by inversion Hvs. }
  pose proof (groupby_elem (rows h) k Hna Hg) as Hin. fold g in Hin.
  destruct (mean vs) as [m |] eqn:Hm; [| by destruct vs].
  destruct (maximum vs) as [mx |] eqn:Hmx; [| by destruct vs].
  destruct (minimum vs) as [mn |] eqn:Hmn; [| by destruct vs].
  exists (mkDF HR_COLUMNS (agg_row <$> groupby (rows h))), (agg_row (k, g)), m, mx, mn.
  split; [| split].
  - unfold hr_day. by rewrite Hv, Hi, Hd, Hnum.
  - cbn [rows].
    pose proof (filter_unique_key key_of (agg_row <$> groupby (rows h)) (agg_row (k, g)))
      as Hf.
    rewrite key_of_agg_row in Hf. apply Hf.
    + rewrite keys_of_agg_rows. apply groupby_NoDup.
    + apply list_elem_of_fmap. eauto.
  - pose proof (omap_as_number g vs Hvs) as Hom.
    split; [by apply mean_is_mean |]. split; [by apply maximum_is_max |].
    split; [by apply minimum_is_min |].
    unfold agg_row. cbn [fst snd]. rewrite Hom, Hm, Hmx, Hmn.
    assert (Hlen : length g = length vs) by (by eapply Forall2_length).
    rewrite Hlen.
    repeat split; try apply round1_is_round1; unfold get;
      repeat (rewrite lookup_insert_ne by done); by rewrite lookup_insert_eq.
Qed.

(** ** The join *)

Lemma lookup_project (cols : list string) (r : gmap string cell) (c : string) :
  c ∈ cols -> filter (fun kv : string * cell => kv.1 ∈ cols) r !! c = r !! c.
Proof.
  intros Hc. destruct (r !! c) as [v |] eqn:E.
  - by apply map_lookup_filter_Some_2.
  - apply map_lookup_filter_None_2. by left.
Qed.

Lemma key_of_project (cols : list string) (r : gmap string cell) :
  "Id" ∈ cols -> "date" ∈ cols ->
  key_of (filter (fun kv : string * cell => kv.1 ∈ cols) r) = key_of r.
Proof. intros Hi Hd. unfold key_of, get. by rewrite !lookup_project. Qed.

Lemma keys_project (cols : list string) (d : DataFrame) :
  "Id" ∈ cols -> "date" ∈ cols -> key_of <$> rows (project cols d) = key_of <$> rows d.
Proof.
  intros Hi Hd. unfold project. cbn [rows]. induction (rows d) as [| r l IH]; [done |].
  cbn [map]. by rewrite !fmap_cons, key_of_project, IH.
Qed.

Lemma key_of_union (l m : gmap string cell) :
  m !! "Id" = None -> m !! "date" = None -> key_of (l ∪ m) = key_of l.
Proof. intros Hi Hd. unfold key_of, get. by rewrite !lookup_union_l. Qed.

Lemma has_col_safe_cols (c : string) (d : DataFrame) (cols : list string) :
  c ∈ safe_cols (Some d) cols <-> c ∈ cols /\ has_col c d = true.
Proof.
  unfold safe_cols, has_col. rewrite list_elem_of_filter, bool_decide_eq_true. tauto.
Qed.

Lemma merge_inr (left right df : DataFrame) :
  merge left right = inr df ->
  has_col "Id" left = true /\ has_col "date" left = true /\
  has_col "Id" right = true /\ has_col "date" right = true /\
  columns df = columns left ++ filter (fun c => c ∉ ON) (columns right).
Proof.
  unfold merge.
  destruct (has_col "Id" left), (has_col "Id" right); try done;
  destruct (has_col "date" left), (has_col "date" right); try done.
  intros [= <-]. done.
Qed.

Lemma merge_total (left right : DataFrame) :
  has_col "Id" left = true -> has_col "date" left = true ->
  has_col "Id" right = true -> has_col "date" right = true ->
  exists df, merge left right = inr df.
Proof. intros Hil Hdl Hir Hdr. unfold merge. rewrite Hil, Hdl, Hir, Hdr. eauto. Qed.

(** A left join on a right table whose keys are unique keeps the keys of
    the left table, one row for one row. *)
Lemma merge_keys (left right df : DataFrame) :
  NoDup (key_of <$> rows right) -> merge left right = inr df ->
  key_of <$> rows df = key_of <$> rows left.
Proof.
  intros Hnd. unfold merge.
  destruct (negb _); [done |]. destruct (negb _); [done |]. intros [= <-]. cbn [rows].
  set (extra := filter (fun c => c ∉ ON) (columns right)).
  assert (Hextra : forall c, c ∈ ON -> c ∉ extra).
  { intros c Hc [Hn _]%list_elem_of_filter. done. }
  assert (Hnull : forall c, c ∈ ON ->
            (list_to_map ((fun c => (c, VNull)) <$> extra) : gmap string cell) !! c = None).
  { intros c Hc. apply not_elem_of_list_to_map_1.
    rewrite <- list_fmap_compose. intros (c' & -> & Hc')%list_elem_of_fmap.
    by apply (Hextra c'). }
  assert (Hpay : forall (r : gmap string cell) c, c ∈ ON ->
            filter (fun kv : string * cell => kv.1 ∈ extra) r !! c = None).
  { intros r c Hc. apply map_lookup_filter_None_2. right. intros v _. by apply Hextra. }
  assert (Hid : "Id" ∈ ON) by (left).
  assert (Hdate : "date" ∈ ON) by (right; left).
  induction (rows left) as [| l ls IH]; [done |].
  cbn [flat_map]. rewrite fmap_app, fmap_cons, IH. f_equal.
  destruct (filter _ (rows right)) as [| x ms] eqn:E.
  - rewrite fmap_cons. by rewrite key_of_union by auto.
  - assert (Hx : x ∈ filter (fun r => key_of r = key_of l) (rows right)) by (rewrite E; left).
    apply list_elem_of_filter in Hx as [Hkx Hx].
    pose proof (filter_unique_key key_of (rows right) x Hnd Hx) as Hu.
    rewrite Hkx, E in Hu. injection Hu as ->.
    cbn [fmap list_fmap]. by rewrite key_of_union by auto.
Qed.

Lemma dedupe_NoDup (d : option DataFrame) (d' : DataFrame) :
  dedupe d = Some d' -> has_col "Id" d' = true -> has_col "date" d' = true ->
  NoDup (key_of <$> rows d').
Proof.
  destruct d as [d |]; [| done]. unfold dedupe.
  destruct (has_col "Id" d && has_col "date" d) eqn:E; intros [= <-].
  - intros _ _. apply drop_duplicates_from_NoDup.
  - intros Hi Hd. by rewrite Hi, Hd in E.
Qed.

Lemma has_col_project (c : string) (cols : list string) (d : DataFrame) :
  has_col c (project cols d) = bool_decide (c ∈ cols).
Proof. done. Qed.



Lemma merge_chain_keys (daily sleep : option DataFrame) (hr df : DataFrame) :
  (forall s, sleep = Some s -> has_col "Id" s = true -> has_col "date" s = true ->
             NoDup (key_of <$> rows s)) ->
  NoDup (key_of <$> rows hr) ->
  merge_chain daily sleep hr = inr df ->
  key_of <$> rows df = key_of <$> from_option rows [] daily /\
  (forall d, daily = Some d -> has_col "Id" d = true /\ has_col "date" d = true).
Proof.
  intros Hsleep Hhr. unfold merge_chain. fold (activity_frame daily). unfold_monad.
  set (df0 := activity_frame daily).
  assert (Hdf0 : has_col "Id" df0 = true -> has_col "date" df0 = true ->
            key_of <$> rows df0 = key_of <$> from_option rows [] daily /\
            (forall d, daily = Some d -> has_col "Id" d = true /\ has_col "date" d = true)).
  { unfold df0, activity_frame. destruct daily as [d |]; [| by intros].
    rewrite !has_col_project, !bool_decide_eq_true.
    intros Hi Hd. split; [by apply keys_project |].
    intros ? [= <-]. apply has_col_safe_cols in Hi, Hd. tauto. }
  destruct sleep as [s |].
  - destruct (merge df0 _) as [e | df1] eqn:Hm1; [done |]. intros Hm2.
    pose proof (merge_inr _ _ _ Hm1) as (Hi0 & Hd0 & Hi1 & Hd1 & _).
    rewrite has_col_project, bool_decide_eq_true in Hi1, Hd1.
    pose proof Hi1 as Hi1'. pose proof Hd1 as Hd1'.
    apply has_col_safe_cols in Hi1' as [_ His], Hd1' as [_ Hds].
    rewrite (merge_keys _ _ _ Hhr Hm2).
    rewrite (merge_keys _ _ _ ltac:(rewrite keys_project by done; by apply Hsleep) Hm1).
    by apply Hdf0.
  - intros Hm2. pose proof (merge_inr _ _ _ Hm2) as (Hi0 & Hd0 & _).
    rewrite (merge_keys _ _ _ Hhr Hm2). by apply Hdf0.
Qed.

(** The join keeps the keys of the de-duplicated activity table: stated
    for lines 111-116 alone. *)
Lemma join_keys (daily sleep heart : option DataFrame) (hr df : DataFrame) :
  hr_day heart = inr hr ->
  merge_chain (dedupe daily) (dedupe sleep) hr = inr df ->
  key_of <$> rows df = key_of <$> from_option rows [] (dedupe daily) /\
  NoDup (key_of <$> from_option rows [] (dedupe daily)).
Proof.
  intros Hhr Hm.
  apply hr_day_NoDup in Hhr as (_ & _ & Hhr).
  pose proof (merge_chain_keys _ _ _ _ (fun s Hs => dedupe_NoDup sleep s Hs) Hhr Hm)
    as [Hkeys Hcols].
  split; [done |].
  destruct (dedupe daily) as [d' |] eqn:Hd; [| constructor]. cbn [from_option].
  destruct (Hcols d' eq_refl). by eapply dedupe_NoDup.
Qed.

Ltac decide_in := apply (bool_decide_unpack _); vm_compute; exact I.
Ltac decide_not_in := apply (proj1 (bool_decide_eq_false _)); vm_compute; reflexivity.

Lemma keys_assign (c : string) (vs : list cell) (df : DataFrame) :
  c ∉ ON -> length vs = length (rows df) ->
  key_of <$> rows (assign c vs df) = key_of <$> rows df.
Proof.
  intros Hc. rewrite rows_assign. generalize (rows df). intros l. revert vs.
  induction l as [| r l IH]; intros [| v vs]; try done.
  intros [= Hlen]. cbn [zip_with]. rewrite !fmap_cons, IH by done. f_equal.
  unfold key_of. rewrite !get_insert_ne; [done | |].
  - intros ->. apply Hc. right; left.
  - intros ->. apply Hc. left.
Qed.

Lemma keys_add_weekday (df : DataFrame) :
  key_of <$> rows (add_weekday df) = key_of <$> rows df.
Proof.
  unfold add_weekday. destruct (has_col "date" df); [| done].
  apply keys_assign; [decide_not_in |].
  unfold col. by rewrite !length_map.
Qed.

Lemma rows_qc_flags (df : DataFrame) :
  rows (qc_flags df) =
  map (fun r => <["valid_row" := VBool (negb (zero_step_high_cal df r))]>
                  (<["zero_step_high_cal" := VBool (zero_step_high_cal df r)]> r))
      (rows df).
Proof.
  unfold qc_flags. cbv zeta.
  set (df1 := assign "zero_step_high_cal" _ df).
  assert (H1 : rows df1 = map (fun r => <["zero_step_high_cal" :=
                 VBool (zero_step_high_cal df r)]> r) (rows df)).
  { unfold df1. apply (rows_assign_map _ (fun r => VBool (zero_step_high_cal df r))). }
  rewrite rows_assign. unfold invert, col. rewrite H1. clear H1 df1.
  generalize (rows df). intros l. induction l as [| r l IH]; [done |].
  cbn [map zip_with]. rewrite get_insert_eq. f_equal. apply IH.
Qed.

Lemma keys_qc_flags (df : DataFrame) :
  key_of <$> rows (qc_flags df) = key_of <$> rows df.
Proof.
  rewrite rows_qc_flags. induction (rows df) as [| r l IH]; [done |].
  cbn [map]. rewrite !fmap_cons, IH. f_equal.
  unfold key_of. by rewrite !get_insert_ne.
Qed.

Section Main.
Context `{Pandas}.

Lemma keys_coerce_num_cols (df : DataFrame) :
  key_of <$> rows (coerce_num_cols df) = key_of <$> rows df.
Proof.
  unfold coerce_num_cols.
  assert (Hcols : Forall (fun c => c ∉ ON) num_cols).
  { unfold num_cols. repeat (apply List.Forall_cons; [decide_not_in |]). apply List.Forall_nil. }
  revert df. induction Hcols as [| c cols Hc _ IH]; intros df; [done |].
  cbn [foldl]. rewrite IH. destruct (has_col c df); [| done].
  apply keys_assign; [done |]. unfold to_numeric_coerce, col. by rewrite !length_map.
Qed.


(** What a run that reaches line 132 went through. *)
Lemma main_inr (fs : FileSystem) (out out' : list string) (g : Globals) :
  main fs out = (inr g, out') ->
  exists (heart : option DataFrame) (daily0 sleep0 : option DataFrame) (df0 : DataFrame),
    g_daily g = dedupe daily0 /\ g_sleep g = dedupe sleep0 /\
    hr_day heart = inr (g_hr_day g) /\
    merge_chain (g_daily g) (g_sleep g) (g_hr_day g) = inr df0 /\
    g_df g = qc_flags (add_weekday (coerce_num_cols df0)) /\
    g_df_valid g = valid_rows (g_df g).
Proof.
  unfold main. unfold_monad. intros Hmain.
  repeat case_match; simplify_eq.
  by eexists _, (parse_daily _), (parse_sleep _), _.
Qed.

(** C1. When the run reaches the joined table, the keys of its rows are,
    row for row, the keys of the de-duplicated activity table, and these
    are pairwise distinct: every key of the activity table stands in
    exactly one row of the joined table, and the joined table has no row
    with another key, whatever the sleep and heart-rate tables hold.
    (With no activity table loaded, the joined table is empty.) *)
Theorem main_join_keys (fs : FileSystem) (out out' : list string) (g : Globals) :
  main fs out = (inr g, out') ->
  let activity := from_option rows [] (g_daily g) in
  key_of <$> rows (g_df g) = key_of <$> activity /\
  NoDup (key_of <$> activity) /\
  (forall k, k ∈ key_of <$> activity ->
     length (filter (fun r => key_of r = k) (rows (g_df g))) = 1%nat) /\
  (forall r, r ∈ rows (g_df g) -> key_of r ∈ key_of <$> activity).
Proof.
  intros (heart & daily0 & sleep0 & df0 & Hd & Hs & Hhr & Hm & Hdf & _)%main_inr.
  rewrite Hd, Hs in Hm. destruct (join_keys _ _ _ _ _ Hhr Hm) as [Hkeys Hnd].
  rewrite <- Hd in Hkeys, Hnd. cbv zeta.
  assert (Hk : key_of <$> rows (g_df g) = key_of <$> from_option rows [] (g_daily g)).
  { by rewrite Hdf, keys_qc_flags, keys_add_weekday, keys_coerce_num_cols. }
  split; [done |]. split; [done |]. split.
  - intros k. rewrite <- Hk. intros (r & -> & Hr)%list_elem_of_fmap.
    rewrite (filter_unique_key key_of _ r); [done | by rewrite Hk | done].
  - intros r Hr. rewrite <- Hk. apply list_elem_of_fmap. eauto.
Qed.

End Main.

(** The join succeeds as soon as the tables loaded carry the key columns. *)
Lemma merge_chain_total (daily sleep : option DataFrame) (hr : DataFrame) :
  (forall d, daily = Some d -> has_col "Id" d = true /\ has_col "date" d = true) ->
  (forall s, sleep = Some s -> has_col "Id" s = true /\ has_col "date" s = true) ->
  has_col "Id" hr = true -> has_col "date" hr = true ->
  exists df, merge_chain daily sleep hr = inr df.
Proof.
  intros Hdaily Hsleep Hi Hd. unfold merge_chain. fold (activity_frame daily). unfold_monad.
  assert (Hdf0 : has_col "Id" (activity_frame daily) = true /\
                 has_col "date" (activity_frame daily) = true).
  { unfold activity_frame. destruct daily as [d |]; [| done].
    destruct (Hdaily d eq_refl) as [Hdi Hdd].
    rewrite !has_col_project, !bool_decide_eq_true, !has_col_safe_cols.
    repeat split; try done; decide_in. }
  destruct Hdf0 as [Hi0 Hd0].
  destruct sleep as [s |].
  - destruct (Hsleep s eq_refl) as [Hsi Hsd].
    destruct (merge_total (activity_frame daily)
                (project (safe_cols (Some s) ["Id"; "date"; "TotalMinutesAsleep"]) s))
      as [df1 Hm1]; try done.
    { rewrite has_col_project, bool_decide_eq_true, has_col_safe_cols.
      split; [decide_in | done]. }
    { rewrite has_col_project, bool_decide_eq_true, has_col_safe_cols.
      split; [decide_in | done]. }
    rewrite Hm1. apply merge_inr in Hm1 as (_ & _ & _ & _ & Hcols).
    apply merge_total; try done; unfold has_col; rewrite Hcols, bool_decide_eq_true;
      apply elem_of_app; left; by apply (bool_decide_eq_true_1 _).
  - by apply merge_total.
Qed.

(** A sleep table without its day key stops the join. *)
Lemma merge_chain_no_sleep_date (daily : option DataFrame) (s hr : DataFrame) :
  (forall d, daily = Some d -> has_col "Id" d = true /\ has_col "date" d = true) ->
  has_col "Id" s = true -> has_col "date" s = false ->
  merge_chain daily (Some s) hr = inl (KeyError "date").
Proof.
  intros Hdaily Hi Hd. unfold merge_chain. fold (activity_frame daily). unfold_monad.
  assert (Hdf0 : has_col "Id" (activity_frame daily) = true).
  { unfold activity_frame. destruct daily as [d |]; [| done].
    destruct (Hdaily d eq_refl) as [Hdi Hdd].
    rewrite !has_col_project, !bool_decide_eq_true, !has_col_safe_cols.
    split; [decide_in | done]. }
  unfold merge at 1. rewrite Hdf0, !has_col_project.
  rewrite (bool_decide_eq_true_2 ("Id" ∈ _)).
  2:{ apply has_col_safe_cols. split; [decide_in | done]. }
  rewrite (bool_decide_eq_false_2 ("date" ∈ _)).
  2:{ intros [_ ?]%has_col_safe_cols. congruence. }
  cbn. by rewrite andb_false_r.
Qed.

(** ** The quality flags *)

Lemma Qlt_bool_iff (p q : Q) : Qlt_bool p q = true <-> (p < q)%Q.
Proof.
  unfold Qlt_bool. rewrite negb_true_iff. split.
  - intros Hf. apply Qnot_le_lt. intros Hle. apply Qle_bool_iff in Hle. congruence.
  - intros Hlt. destruct (Qle_bool q p) eqn:E; [| done].
    apply Qle_bool_iff in E. by apply Qlt_not_le in Hlt.
Qed.

Lemma insert_Q_perm (x : Q) (l : list Q) : insert_Q x l ≡ₚ x :: l.
Proof.
  induction l as [| y l IH]; cbn [insert_Q]; [done |].
  destruct (Qlt_bool y x); [| done]. rewrite IH. apply Permutation_swap.
Qed.

Lemma sort_Q_perm (l : list Q) : sort_Q l ≡ₚ l.
Proof.
  induction l as [| x l IH]; [done |].
  unfold sort_Q in *. cbn [foldr]. by rewrite insert_Q_perm, IH.
Qed.

Lemma insert_Q_Sorted (x : Q) (l : list Q) : Sorted Qle l -> Sorted Qle (insert_Q x l).
Proof.
  induction l as [| y l IH]; cbn [insert_Q]; intros Hs.
  - by repeat constructor.
  - destruct (Qlt_bool y x) eqn:Hyx.
    + apply Sorted_inv in Hs as [Hs Hhd]. constructor; [by apply IH |].
      apply Qlt_bool_iff, Qlt_le_weak in Hyx.
      destruct l as [| z l]; cbn [insert_Q]; [by constructor |].
      destruct (Qlt_bool z x); constructor; [| done]. by apply HdRel_inv in Hhd.
    + constructor; [done |]. constructor.
      apply Qnot_lt_le. intros Hlt%Qlt_bool_iff. congruence.
Qed.

Lemma sort_Q_Sorted (l : list Q) : Sorted Qle (sort_Q l).
Proof.
  induction l as [| x l IH]; [constructor |].
  unfold sort_Q in *. cbn [foldr]. by apply insert_Q_Sorted.
Qed.

Lemma median_is_median (l : list cell) (m : Q) :
  median l = Some m -> is_median m (omap as_number l).
Proof.
  unfold median. cbv zeta. set (xs := sort_Q (omap as_number l)).
  intros Hm. exists xs. split; [apply sort_Q_perm |]. split; [apply sort_Q_Sorted |].
  destruct (length xs) as [| n] eqn:Hlen; [done |]. rewrite <- Hlen in *.
  assert (Hlt : (length xs / 2 < length xs)%nat).
  { apply Nat.div_lt; lia. }
  destruct (lookup_lt_is_Some_2 xs _ Hlt) as [b Hb].
  destruct (Nat.odd (length xs)).
  - rewrite nth_lookup, Hb in Hm. cbn [default] in Hm. by injection Hm as <-.
  - assert (Hlt' : (length xs / 2 - 1 < length xs)%nat) by lia.
    destruct (lookup_lt_is_Some_2 xs _ Hlt') as [a Ha].
    rewrite !nth_lookup, Ha, Hb in Hm. cbn [default] in Hm. injection Hm as <-.
    exists a, b. split; [done |]. split; [done |]. apply Qred_correct.
Qed.

Lemma median_None (l : list cell) : median l = None <-> omap as_number l = [].
Proof.
  unfold median. cbv zeta. split.
  - destruct (length _) eqn:Hlen.
    + intros _. apply length_zero_iff_nil.
      by rewrite <- (sort_Q_perm (omap as_number l)).
    + by destruct (Nat.odd _).
  - intros ->. done.
Qed.

Lemma eq_0_iff (c : cell) : eq_0 c = true <-> exists q, as_number c = Some q /\ (q == 0)%Q.
Proof.
  unfold eq_0. destruct (as_number c) as [q |].
  - rewrite Qeq_bool_iff. split; [eauto | by intros (? & [= <-] & ?)].
  - split; [done | by intros (? & ? & ?)].
Qed.

Lemma gt_iff (c : cell) (om : option Q) :
  gt c om = true <-> exists q m, as_number c = Some q /\ om = Some m /\ (m < q)%Q.
Proof.
  unfold gt. destruct (as_number c) as [q |], om as [m |].
  - rewrite Qlt_bool_iff. split; [eauto | by intros (? & ? & [= <-] & [= <-] & ?)].
  - split; [done | by intros (? & ? & ? & ? & ?)].
  - split; [done | by intros (? & ? & ? & ? & ?)].
  - split; [done | by intros (? & ? & ? & ? & ?)].
Qed.

(** ** The median is unique *)

(** How many numbers of a list lie below, or not above, a bound. *)
Lemma count_le_lt (v v' : Q) (l : list Q) :
  (v < v')%Q ->
  (length (filter (fun x => Qle_bool x v = true) l)
   <= length (filter (fun x => Qlt_bool x v' = true) l))%nat.
Proof.
  intros Hlt. induction l as [| x l IH]; [done |].
  rewrite !filter_cons.
  destruct (decide (Qle_bool x v = true)) as [Hle | Hle].
  - rewrite decide_True.
    + cbn [length]. lia.
    + apply Qlt_bool_iff. apply Qle_bool_iff in Hle. lra.
  - destruct (decide (Qlt_bool x v' = true)); cbn [length]; lia.
Qed.

Lemma count_sorted (xs : list Q) (k : nat) (v : Q) :
  Sorted Qle xs -> xs !! k = Some v ->
  (length (filter (fun x => Qlt_bool x v = true) xs) <= k)%nat /\
  (k < length (filter (fun x => Qle_bool x v = true) xs))%nat.
Proof.
  intros Hs. apply Sorted_StronglySorted in Hs; [| intros ? ? ?; apply Qle_trans].
  revert k. induction Hs as [| x xs Hs IH Hx]; intros k Hk; [done |].
  destruct k as [| k]; cbn in Hk.
  - injection Hk as ->. rewrite !filter_cons.
    rewrite decide_False, decide_True.
    + split; [| cbn [length]; lia].
      assert (Hnil : filter (fun x => Qlt_bool x v = true) xs = []).
      { clear IH Hs. induction Hx as [| y xs Hy _ IHx]; [done |].
        rewrite filter_cons, decide_False; [done |].
        rewrite Qlt_bool_iff. lra. }
      by rewrite Hnil.
    + apply Qle_bool_iff. lra.
    + rewrite Qlt_bool_iff. lra.
  - destruct (IH k Hk) as [H1 H2]. rewrite !filter_cons.
    assert (Hxv : (x <= v)%Q).
    { rewrite Forall_forall in Hx. apply Hx. by eapply list_elem_of_lookup_2. }
    rewrite (decide_True (P := Qle_bool x v = true)) by by apply Qle_bool_iff.
    destruct (decide (Qlt_bool x v = true)); cbn [length]; lia.
Qed.

Lemma sorted_lookup_unique (xs ys : list Q) (k : nat) (v v' : Q) :
  xs ≡ₚ ys -> Sorted Qle xs -> Sorted Qle ys ->
  xs !! k = Some v -> ys !! k = Some v' -> (v == v')%Q.
Proof.
  intros Hp Hx Hy Hv Hv'.
  destruct (count_sorted xs k v Hx Hv) as [Hx1 Hx2].
  destruct (count_sorted ys k v' Hy Hv') as [Hy1 Hy2].
  destruct (Q_dec v v') as [[Hlt | Hgt] | Heq]; [| | done].
  - pose proof (count_le_lt v v' ys Hlt) as Hc. rewrite <- Hp in Hc at 1. lia.
  - pose proof (count_le_lt v' v xs Hgt) as Hc. rewrite Hp in Hc at 1. lia.
Qed.

Lemma is_median_unique (m m' : Q) (vs : list Q) :
  is_median m vs -> is_median m' vs -> (m == m')%Q.
Proof.
  intros (xs & Hpx & Hsx & Hm) (ys & Hpy & Hsy & Hm').
  assert (Hp : xs ≡ₚ ys) by by rewrite Hpx, Hpy.
  assert (Hlen : length ys = length xs) by by rewrite Hp.
  rewrite Hlen in Hm'. destruct (Nat.odd (length xs)).
  - by eapply sorted_lookup_unique.
  - destruct Hm as (a & b & Ha & Hb & ->), Hm' as (a' & b' & Ha' & Hb' & ->).
    rewrite (sorted_lookup_unique xs ys _ a a' Hp Hsx Hsy Ha Ha').
    by rewrite (sorted_lookup_unique xs ys _ b b' Hp Hsx Hsy Hb Hb').
Qed.

Lemma is_median_nonempty (m : Q) (vs : list Q) : is_median m vs -> vs ≠ [].
Proof.
  intros (xs & Hp & _ & Hm) ->. apply Permutation_nil_r in Hp. subst xs.
  cbn in Hm. by destruct Hm as (a & b & Ha & _).
Qed.

Lemma cal_median_Some (df : DataFrame) :
  has_col "Calories" df = true -> omap as_number (col "Calories" df) ≠ [] ->
  exists m, cal_median df = Some m.
Proof.
  intros Hc Hne. unfold cal_median. rewrite Hc.
  destruct (median (col "Calories" df)) as [m |] eqn:E; [by exists m |].
  by apply median_None in E.
Qed.

(** C2, as amended. The median is that of the [Calories] cells that hold
    a number: line 128 finds it whenever the column is there and holds a
    number, and finds none otherwise.  Every row of the joined table gets
    two flags: [zero_step_high_cal], true exactly when its [TotalSteps] is
    a number equal to 0 (or the table has no [TotalSteps] column) and its
    [Calories] is a number strictly above the median; and [valid_row],
    its negation.  A missing cell is not taken as 0: it fails the
    comparison.  The last part states the flag against the median of the
    numbers itself, which is unique. *)
Theorem qc_flags_spec (df : DataFrame) :
  (forall m, cal_median df = Some m -> is_median m (omap as_number (col "Calories" df))) /\
  (forall r, zero_step_high_cal df r = true <->
             steps_are_zero df r /\ calories_above_median df r) /\
  rows (qc_flags df) =
    map (fun r => <["valid_row" := VBool (negb (zero_step_high_cal df r))]>
                    (<["zero_step_high_cal" := VBool (zero_step_high_cal df r)]> r))
        (rows df) /\
  (has_col "Calories" df = true -> omap as_number (col "Calories" df) ≠ [] ->
   exists m, cal_median df = Some m /\ is_median m (omap as_number (col "Calories" df))) /\
  (cal_median df = None <->
   has_col "Calories" df = false \/ omap as_number (col "Calories" df) = []) /\
  (forall r, zero_step_high_cal df r = true <->
             steps_are_zero df r /\ calories_exceed_median df r).
Proof.
  assert (Hmed : forall m, cal_median df = Some m ->
                           is_median m (omap as_number (col "Calories" df))).
  { unfold cal_median. intros m. destruct (has_col "Calories" df); [| done].
    apply median_is_median. }
  assert (Hflag : forall r, zero_step_high_cal df r = true <->
                            steps_are_zero df r /\ calories_above_median df r).
  { intros r. unfold zero_step_high_cal, steps_are_zero, calories_above_median, get_or_0.
    rewrite andb_true_iff, eq_0_iff, gt_iff.
    destruct (has_col "TotalSteps" df), (has_col "Calories" df) eqn:Hc; split.
    + tauto.
    + tauto.
    + intros [_ (q & m & _ & Hm & _)]. unfold cal_median in Hm. by rewrite Hc in Hm.
    + by intros [_ [? _]].
    + intros [_ ?]. tauto.
    + intros [_ [_ ?]]. split; [| done]. exists 0%Q. done.
    + intros [_ (q & m & _ & Hm & _)]. unfold cal_median in Hm. by rewrite Hc in Hm.
    + by intros [_ [? _]]. }
  split; [exact Hmed |]. split; [exact Hflag |]. split; [apply rows_qc_flags |].
  split; [| split].
  - intros Hc Hne. destruct (cal_median_Some df Hc Hne) as [m Hm].
    exists m. split; [exact Hm | by apply Hmed].
  - unfold cal_median. destruct (has_col "Calories" df).
    + rewrite median_None. split; [by right | by intros [? | ?]].
    + split; [by left | done].
  - intros r. rewrite Hflag. unfold calories_above_median, calories_exceed_median.
    split; intros [Hz [Hc (q & m & Hq & Hm & Hlt)]]; (split; [exact Hz |]); (split; [exact Hc |]).
    + exists q, m. split; [done |]. split; [by apply Hmed | done].
    + destruct (cal_median_Some df Hc (is_median_nonempty _ _ Hm)) as [m' Hm'].
      exists q, m'. split; [done |]. split; [done |].
      by rewrite <- (is_median_unique m m' _ Hm (Hmed m' Hm')).
Qed.

(** C10. With no [Calories] column, or with only missing values in it,
    there is no median, no row is flagged, every row is valid, and the
    valid subset is the whole joined table. *)
Theorem qc_flags_no_median (df : DataFrame) :
  has_col "Calories" df = false \/ Forall (fun c => c = VNull) (col "Calories" df) ->
  cal_median df = None /\
  Forall (fun r => get "zero_step_high_cal" r = VBool false /\ get "valid_row" r = VBool true)
         (rows (qc_flags df)) /\
  valid_rows (qc_flags df) = qc_flags df.
Proof.
  intros Hcal.
  assert (Hm : cal_median df = None).
  { unfold cal_median. destruct Hcal as [-> | Hall]; [done |].
    destruct (has_col "Calories" df); [| done].
    apply median_None. induction Hall as [| c l -> _ IH]; [done |]. done. }
  assert (Hz : forall r, zero_step_high_cal df r = false).
  { intros r. unfold zero_step_high_cal. rewrite Hm.
    unfold gt. destruct (as_number _); by rewrite andb_false_r. }
  assert (Hall : Forall (fun r => get "zero_step_high_cal" r = VBool false /\
                                  get "valid_row" r = VBool true) (rows (qc_flags df))).
  { rewrite rows_qc_flags. induction (rows df) as [| r l IH]; [constructor |].
    cbn [map]. constructor; [| done]. rewrite Hz. cbn [negb].
    by rewrite get_insert_eq, get_insert_ne, get_insert_eq. }
  split; [done |]. split; [done |].
  unfold valid_rows. destruct (qc_flags df) as [cs rs]. cbn [rows columns] in *. f_equal.
  clear -Hall. induction Hall as [| r l [_ Hr] _ IH]; [done |].
  rewrite filter_cons, decide_True by done. by rewrite IH.
Qed.

(** ** Identifier normalisation: fixed points *)

Lemma float64_of_Z_small (z : Z) : Z.abs z < 2 ^ 53 -> float64_of_Z z = z.
Proof.
  intros Hz. unfold float64_of_Z. by destruct (Z.ltb_spec (Z.abs z) (2 ^ 53)); [| lia].
Qed.


Section Fixed.
Context `{Pandas}.



(** The day of a sleep row is read with the 12-hour format and with no
    other. *)
Lemma parse_sleep_dates (d : DataFrame) :
  has_col "SleepDay" d = true ->
  exists d', parse_sleep (Some d) = Some d' /\
    col "date" d' = dt_normalize (to_datetime_coerce FMT_12H (col "SleepDay" d)).
Proof.
  intros Hc. unfold parse_sleep. rewrite Hc. eexists. split; [done |].
  assert (Hlen : length (to_datetime_coerce FMT_12H (col "SleepDay" d)) = length (rows d)).
  { unfold to_datetime_coerce, col. by rewrite !length_map. }
  rewrite col_assign_eq.
  - by rewrite col_assign_eq.
  - unfold dt_normalize. rewrite length_map, col_assign_eq by done.
    rewrite rows_assign, length_zip_with. rewrite Hlen. lia.
Qed.

End Fixed.

(** ** The pipeline on the example tables *)

(** A complete run: two activity days are left after de-duplication, the
    day with no step and 4000 calories is above the median 3100 and is
    not valid. *)
Example main_example :
  let run := @main parsers (files daily_csv sleep_csv weight_csv heart_csv) [] in
  (len ∘ g_df <$> run.1) = inr 2%nat /\
  (col "zero_step_high_cal" ∘ g_df <$> run.1) = inr [VBool true; VBool false] /\
  (col "TotalMinutesAsleep" ∘ g_df <$> run.1) = inr [int 327; VNull] /\
  (col "AvgHR" ∘ g_df <$> run.1) = inr [int 70; VNull] /\
  (col "weekday" ∘ g_df <$> run.1) = inr [VStr "Tuesday"; VStr "Wednesday"] /\
  run.2 = ["[Fitbit-EDA] hr_day rows: 2"; "[Fitbit-EDA] df_valid rows: 1"].
Proof. vm_compute. repeat split. Qed.

(** Samples 60, 70, 80 of one subject and day. *)
Example hr_day_example :
  (fun hr => (fun r => (get "AvgHR" r, get "MaxHR" r, get "MinHR" r, get "HRCount" r))
               <$> rows hr) <$> hr_day (Some heart_samples)
  = inr [(int 70, int 80, int 60, int 3); (int 97, int 97, int 97, int 1)].
Proof. vm_compute. reflexivity. Qed.

(** Two sleep rows of one subject and day: the first one stays. *)
Example dedupe_example :
  (col "TotalMinutesAsleep" <$> dedupe (Some sleep_twice)) = Some [int 327; int 400].
Proof. vm_compute. reflexivity. Qed.

(** C1, at the example run: it reaches the joined table, whose keys are
    those of the activity table. *)
Lemma main_join_keys_witness :
  exists g out,
    @main parsers (files daily_csv sleep_csv weight_csv heart_csv) [] = (inr g, out) /\
    key_of <$> rows (g_df g) = key_of <$> from_option rows [] (g_daily g).
Proof.
  assert (Hok : match (@main parsers (files daily_csv sleep_csv weight_csv heart_csv) []).1
                with inr _ => true | inl _ => false end = true) by (vm_compute; reflexivity).
  destruct (@main parsers (files daily_csv sleep_csv weight_csv heart_csv) [])
    as [[e | g] out] eqn:E.
  - discriminate Hok.
  - exists g, out. split; [reflexivity |].
    exact (proj1 (@main_join_keys parsers _ _ _ _ E)).
Defined.

(** C3, at a sleep table with a day logged twice. *)
Lemma dedupe_first_of_group_witness :
  has_col "Id" sleep_twice = true /\ has_col "date" sleep_twice = true /\
  exists d', dedupe (Some sleep_twice) = Some d' /\ NoDup (key_of <$> rows d').
Proof.
  split; [vm_compute; reflexivity |]. split; [vm_compute; reflexivity |].
  destruct (dedupe_first_of_group sleep_twice) as (d' & Hd & _ & _ & _ & _ & Hnd & _).
  - vm_compute; reflexivity.
  - vm_compute; reflexivity.
  - exists d'. split; assumption.
Defined.

Lemma fmap_Some_Forall2 {A B} (f : A -> option B) (l : list A) (vs : list B) :
  f <$> l = Some <$> vs -> Forall2 (fun a v => f a = Some v) l vs.
Proof.
  revert vs. induction l as [| a l IH]; intros [| v vs]; try done.
  rewrite !fmap_cons. intros [= Ha Hl]. constructor; [done | by apply IH].
Qed.

(** C4, at the samples 60, 70, 80. *)
Lemma hr_day_group_witness :
  exists (hr : DataFrame) (row : gmap string cell),
    hr_day (Some heart_samples) = inr hr /\
    filter (fun r => key_of r = (VStr "1", VDate (mkTS 2016 4 12 0 0 0))) (rows hr) = [row] /\
    get "HRCount" row = int 3.
Proof.
  destruct (hr_day_group heart_samples (VStr "1", VDate (mkTS 2016 4 12 0 0 0))
              [inject_Z 60; inject_Z 70; inject_Z 80])
    as (hr & row & m & mx & mn & Hhr & Hrow & _ & _ & _ & _ & _ & _ & _ & _ & _ & Hn).
  - vm_compute; reflexivity.
  - vm_compute; reflexivity.
  - vm_compute; reflexivity.
  - vm_compute; reflexivity.
  - vm_compute; reflexivity.
  - discriminate.
  - apply fmap_Some_Forall2. vm_compute. reflexivity.
  - exists hr, row. repeat split; assumption.
Defined.





(** C2: the counterexample.  The step count of the first row is missing
    and its 4000 calories are above the median 3100: with the missing
    count taken as 0 the row would be flagged; it is not. *)
Lemma missing_steps_not_flagged :
  get "TotalSteps" <$> head (rows joined_missing_steps) = Some VNull /\
  cal_median joined_missing_steps = Some (inject_Z 3100) /\
  claimed_zero_step_high_cal joined_missing_steps <$> head (rows joined_missing_steps)
    = Some true /\
  zero_step_high_cal joined_missing_steps <$> head (rows joined_missing_steps) = Some false /\
  col "zero_step_high_cal" (qc_flags joined_missing_steps) = [VBool false; VBool false].
Proof. repeat split; vm_compute; reflexivity. Qed.

(** C10, at a joined table without calories. *)
Lemma qc_flags_no_median_witness :
  has_col "Calories" joined_no_calories = false /\
  valid_rows (qc_flags joined_no_calories) = qc_flags joined_no_calories.
Proof.
  split; [vm_compute; reflexivity |].
  apply (qc_flags_no_median joined_no_calories). left. vm_compute; reflexivity.
Defined.

(** C5: where the code departs.  A sleep timestamp on a 24-hour clock
    matches the 24-hour format, and in the heart-rate table the fallback
    reads its day; in the sleep table, where there is no fallback, the
    day is missing. *)
Lemma sleep_24h_day_is_missing :
  @strptime parsers FMT_12H "4/12/2016 13:00:00" = None /\
  @strptime parsers FMT_24H "4/12/2016 13:00:00" = Some (mkTS 2016 4 12 13 0 0) /\
  col "date" <$> @parse_sleep parsers (Some sleep_csv_24h) = Some [VNull] /\
  (fun d : option DataFrame => col "date" <$> d) <$> (@parse_heart parsers (Some heart_csv_24h) []).1
    = inr (Some [VDate (mkTS 2016 4 12 0 0 0)]).
Proof. repeat split; vm_compute; reflexivity. Qed.

(** C6: where the code departs.  With the day column of the sleep export
    absent, or the [Id] column of the activity export, the run stops on a
    [KeyError] at the join. *)
Lemma main_raises_on_missing_column :
  (@main parsers (files daily_csv sleep_csv_no_day weight_csv heart_csv) []).1
    = inl (KeyError "date") /\
  (@main parsers (files daily_csv_no_id sleep_csv weight_csv heart_csv) []).1
    = inl (KeyError "Id").
Proof. split; vm_compute; reflexivity. Qed.

(** ** Date parsing *)

Section Dates.
Context `{Pandas}.

Lemma to_datetime_raise_inr (fmt : string) (l : list cell) :
  Forall (parses fmt) l -> to_datetime_raise fmt l = inr (to_datetime_coerce fmt l).
Proof.
  intros Hall. apply traverse_inr. unfold to_datetime_coerce.
  induction Hall as [| c l Hc _ IH]; [constructor |].
  cbn [map]. constructor; [| done].
  destruct c as [| q | s | t | b]; try done. by destruct Hc as [t ->].
Qed.

Lemma to_datetime_raise_inl (fmt : string) (l : list cell) :
  ~ Forall (parses fmt) l -> exists e, to_datetime_raise fmt l = inl e.
Proof.
  intros Hnot. destruct (to_datetime_raise fmt l) as [e | l'] eqn:E; [eauto |].
  destruct Hnot. apply traverse_inr in E.
  induction E as [| c c' l l' Hc _ IH]; constructor; [| done].
  destruct c as [| q | s | t | b]; try done. simpl.
  by destruct (strptime fmt s).
Qed.

(** X1. The fallback of weight and heart-rate dates is taken for the
    column as a whole: when every cell is read by the 12-hour format the
    column is parsed with it; as soon as one cell is not, every cell is
    parsed with the 24-hour format and coercion, the cells in the 12-hour
    format included. *)
Theorem to_datetime_fallback_by_column (l : list cell) :
  (Forall (parses FMT_12H) l -> to_datetime_fallback l = to_datetime_coerce FMT_12H l) /\
  (~ Forall (parses FMT_12H) l -> to_datetime_fallback l = to_datetime_coerce FMT_24H l).
Proof.
  unfold to_datetime_fallback. split.
  - intros Hall. by rewrite to_datetime_raise_inr.
  - intros Hnot. by destruct (to_datetime_raise_inl _ _ Hnot) as [e ->].
Qed.

Lemma dt_normalize_midnight (l : list cell) : Forall midnight (dt_normalize l).
Proof.
  unfold dt_normalize. induction l as [| c l IH]; [constructor |].
  cbn [map]. constructor; [| done].
  destruct c; try (by left). right. eexists. done.
Qed.

Lemma length_to_datetime_coerce (fmt : string) (l : list cell) :
  length (to_datetime_coerce fmt l) = length l.
Proof. unfold to_datetime_coerce. by rewrite length_map. Qed.

Lemma length_to_datetime_fallback (l : list cell) :
  length (to_datetime_fallback l) = length l.
Proof.
  unfold to_datetime_fallback.
  destruct (to_datetime_raise FMT_12H l) as [e | l'] eqn:E.
  - apply length_to_datetime_coerce.
  - by apply traverse_length in E.
Qed.

Lemma length_dt_normalize (l : list cell) : length (dt_normalize l) = length l.
Proof. unfold dt_normalize. by rewrite length_map. Qed.

(** The frame [assign]s leave behind: same rows in the same order, apart
    from the columns assigned. *)
Lemma rows_assign_other (c : string) (vs : list cell) (d : DataFrame) :
  length vs = length (rows d) ->
  Forall2 (fun r r' : gmap string cell => forall c', c' ≠ c -> r' !! c' = r !! c')
          (rows d) (rows (assign c vs d)).
Proof.
  rewrite rows_assign. generalize (rows d). intros l. revert vs.
  induction l as [| r l IH]; intros [| v vs] Hlen; try discriminate Hlen;
    cbn [zip_with]; [constructor |].
  injection Hlen as Hlen. constructor; [| by apply IH].
  intros c' Hne. by rewrite lookup_insert_ne.
Qed.

Lemma length_rows_assign (c : string) (vs : list cell) (d : DataFrame) :
  length vs = length (rows d) -> length (rows (assign c vs d)) = length (rows d).
Proof. intros Hlen. rewrite rows_assign, length_zip_with. lia. Qed.

(** What date parsing does to a table whose time column is [tc]:
    [parsed] being the parsed time column. *)
Lemma parse_column_date (tc : string) (parsed : list cell) (d : DataFrame) :
  length parsed = length (rows d) ->
  let d' := assign "date" (dt_normalize (col tc (assign tc parsed d))) (assign tc parsed d) in
  Forall midnight (col "date" d') /\
  Forall2 (fun r r' : gmap string cell =>
             forall c, c ≠ tc -> c ≠ "date" -> r' !! c = r !! c) (rows d) (rows d').
Proof.
  intros Hlen. cbv zeta.
  assert (Hlen1 : length (rows (assign tc parsed d)) = length (rows d))
    by (by apply length_rows_assign).
  assert (Hlen2 : length (dt_normalize (col tc (assign tc parsed d)))
                  = length (rows (assign tc parsed d))).
  { rewrite length_dt_normalize. unfold col. by rewrite length_map. }
  split.
  - rewrite col_assign_eq by done. apply dt_normalize_midnight.
  - pose proof (rows_assign_other tc parsed d Hlen) as H1.
    pose proof (rows_assign_other "date" _ (assign tc parsed d) Hlen2) as H2.
    revert H1 H2. generalize (rows (assign "date" (dt_normalize (col tc (assign tc parsed d)))
                                 (assign tc parsed d))).
    generalize (rows (assign tc parsed d)). generalize (rows d). clear.
    intros l1. induction l1 as [| r1 l1 IH]; intros l2 l3 H1 H2.
    + inversion H1; subst. inversion H2; subst. constructor.
    + inversion H1 as [| ? r2 ? l2' Hr1 Hl1]; subst.
      inversion H2 as [| ? r3 ? l3' Hr2 Hl2]; subst.
      constructor; [| by eapply IH].
      intros c Hc Hd. by rewrite Hr2, Hr1.
Qed.

(** X2. Date parsing adds a [date] column of days: in the activity table
    with an [ActivityDate] column and in the sleep table with a [SleepDay]
    column, every [date] is missing or a timestamp at midnight, and the
    rows are the same, in the same order, outside the parsed column and
    [date]; in the heart-rate table with a time column likewise, and the
    parse of the heart-rate table does not raise. *)
Theorem parse_dates_days (d : DataFrame) :
  (has_col "ActivityDate" d = true ->
   exists d', parse_daily (Some d) = Some d' /\
     Forall midnight (col "date" d') /\
     Forall2 (fun r r' : gmap string cell =>
                forall c, c ≠ "ActivityDate" -> c ≠ "date" -> r' !! c = r !! c)
             (rows d) (rows d')) /\
  (has_col "SleepDay" d = true ->
   exists d', parse_sleep (Some d) = Some d' /\
     Forall midnight (col "date" d') /\
     Forall2 (fun r r' : gmap string cell =>
                forall c, c ≠ "SleepDay" -> c ≠ "date" -> r' !! c = r !! c)
             (rows d) (rows d')) /\
  (forall tc out, time_col d = Some tc ->
   exists d', parse_heart (Some d) out = (inr (Some d'), out) /\
     Forall midnight (col "date" d') /\
     Forall2 (fun r r' : gmap string cell =>
                forall c, c ≠ tc -> c ≠ "date" -> r' !! c = r !! c)
             (rows d) (rows d')).
Proof.
  split; [| split].
  - intros Hc. unfold parse_daily. rewrite Hc. eexists. split; [done |].
    apply parse_column_date. rewrite length_to_datetime_coerce. unfold col.
    by rewrite length_map.
  - intros Hc. unfold parse_sleep. rewrite Hc. eexists. split; [done |].
    apply parse_column_date. rewrite length_to_datetime_coerce. unfold col.
    by rewrite length_map.
  - intros tc out Htc. unfold parse_heart. rewrite Htc. eexists. split; [done |].
    apply parse_column_date. rewrite length_to_datetime_fallback. unfold col.
    by rewrite length_map.
Qed.

End Dates.

(** X1, at a column in both clocks: the evening of May 2nd is lost. *)
Lemma to_datetime_fallback_by_column_witness :
  ~ Forall (@parses parsers FMT_12H) mixed_clocks /\
  @to_datetime_fallback parsers mixed_clocks = [VNull; VDate (mkTS 2016 5 3 13 5 0)].
Proof.
  assert (Hnot : ~ Forall (@parses parsers FMT_12H) mixed_clocks).
  { intros Hall. apply Forall_cons in Hall as [_ Hall].
    apply Forall_cons in Hall as [[t Ht] _]. vm_compute in Ht. discriminate Ht. }
  split; [exact Hnot |].
  rewrite (proj2 (@to_datetime_fallback_by_column parsers mixed_clocks) Hnot).
  vm_compute. reflexivity.
Defined.

(** X2, at the example activity table. *)
Lemma parse_dates_days_witness :
  has_col "ActivityDate" daily_csv = true /\
  exists d', @parse_daily parsers (Some daily_csv) = Some d' /\ Forall midnight (col "date" d').
Proof.
  split; [vm_compute; reflexivity |].
  destruct (proj1 (@parse_dates_days parsers daily_csv)) as (d' & Hd' & Hmid & _).
  - vm_compute; reflexivity.
  - exists d'. split; assumption.
Defined.

(** ** What de-duplication keeps *)

Lemma drop_duplicates_from_submseteq (seen : list (cell * cell)) (l : list (gmap string cell)) :
  drop_duplicates_from seen l ⊆+ l.
Proof.
  revert seen. induction l as [| r l IH]; intros seen; cbn [drop_duplicates_from]; [done |].
  case_bool_decide; [by apply submseteq_cons | by apply submseteq_skip].
Qed.

Lemma drop_duplicates_from_unique (seen : list (cell * cell)) (l : list (gmap string cell)) :
  NoDup (key_of <$> l) -> Forall (fun r => key_of r ∉ seen) l ->
  drop_duplicates_from seen l = l.
Proof.
  revert seen. induction l as [| r l IH]; intros seen Hnd Hall; cbn [drop_duplicates_from]; [done |].
  rewrite fmap_cons in Hnd. apply NoDup_cons in Hnd as [Hr Hnd].
  apply Forall_cons in Hall as [Hs Hall].
  rewrite bool_decide_eq_false_2 by done. f_equal. apply IH; [done |].
  apply Forall_forall. intros x Hx Hin. apply elem_of_cons in Hin as [Heq | Hin].
  - apply Hr. rewrite <- Heq. apply list_elem_of_fmap. eauto.
  - rewrite Forall_forall in Hall. by apply (Hall x).
Qed.

Lemma sort_values_sorted {A} (kf : A -> cell * cell) (l : list A) :
  Sorted (key_le kf) l -> sort_values kf l = l.
Proof.
  induction 1 as [| x l Hs IH Hhd]; [done |].
  unfold sort_values in *. cbn [foldr]. rewrite IH.
  destruct Hhd as [| y l' Hxy]; [done |].
  cbn [insert_sorted]. unfold key_le in Hxy. by rewrite Hxy.
Qed.

(** X3. De-duplication only removes rows: the rows it returns are rows of
    the table, each at most as often as there; a table whose keys are
    pairwise distinct keeps all its rows, and comes back unchanged when it
    is already sorted by key. *)
Theorem dedupe_keeps_rows (d d' : DataFrame) :
  dedupe (Some d) = Some d' ->
  columns d' = columns d /\
  rows d' ⊆+ rows d /\
  (NoDup (key_of <$> rows d) -> rows d' ≡ₚ rows d) /\
  (NoDup (key_of <$> rows d) -> Sorted (key_le key_of) (rows d) -> d' = d).
Proof.
  unfold dedupe. destruct (has_col "Id" d && has_col "date" d).
  - intros [= <-]. cbn [columns rows]. unfold drop_duplicates.
    assert (Hsub : drop_duplicates_from [] (sort_values key_of (rows d)) ⊆+ rows d).
    { etrans; [apply drop_duplicates_from_submseteq |].
      apply Permutation_submseteq, sort_values_perm. }
    assert (Hperm : NoDup (key_of <$> rows d) ->
                    drop_duplicates_from [] (sort_values key_of (rows d))
                    = sort_values key_of (rows d)).
    { intros Hnd. apply drop_duplicates_from_unique.
      - by rewrite (sort_values_perm key_of (rows d)).
      - apply Forall_forall. intros x _. apply not_elem_of_nil. }
    repeat split; [done | |].
    + intros Hnd. rewrite (Hperm Hnd). apply sort_values_perm.
    + intros Hnd Hs. rewrite (Hperm Hnd), (sort_values_sorted _ _ Hs). by destruct d.
  - intros [= <-]. repeat split; try done.
Qed.

(** X3, at a sleep table with a day logged twice. *)
Lemma dedupe_keeps_rows_witness :
  exists d', dedupe (Some sleep_twice) = Some d' /\ rows d' ⊆+ rows sleep_twice.
Proof.
  destruct (dedupe (Some sleep_twice)) as [d' |] eqn:E; [| vm_compute in E; discriminate E].
  exists d'. split; [reflexivity |].
  exact (proj1 (proj2 (dedupe_keeps_rows sleep_twice d' E))).
Defined.

(** ** The heart-rate aggregate as a table *)

Lemma Sorted_fmap {A B} (R : A -> A -> Prop) (S : B -> B -> Prop) (f : A -> B) (l : list A) :
  (forall a b, R a b -> S (f a) (f b)) -> Sorted R l -> Sorted S (f <$> l).
Proof.
  intros HRS. induction 1 as [| x l Hs IH Hhd]; [constructor |].
  rewrite fmap_cons. constructor; [done |].
  destruct Hhd as [| y l' Hxy]; [constructor |]. rewrite fmap_cons. constructor. by apply HRS.
Qed.

Lemma group_add_nonempty (r : gmap string cell) (gs : list (cell * cell * list (gmap string cell))) :
  Forall (fun kg => kg.2 ≠ []) gs -> Forall (fun kg => kg.2 ≠ []) (group_add r gs).
Proof.
  induction 1 as [| [k g] gs Hg Hgs IH]; cbn [group_add].
  - repeat constructor. done.
  - case_bool_decide; constructor; try done. cbn. by destruct g.
Qed.

Lemma foldl_group_step_nonempty (l : list (gmap string cell))
    (gs : list (cell * cell * list (gmap string cell))) :
  Forall (fun kg => kg.2 ≠ []) gs -> Forall (fun kg => kg.2 ≠ []) (foldl group_step gs l).
Proof.
  revert gs. induction l as [| r l IH]; intros gs Hgs; cbn [foldl]; [done |].
  apply IH. unfold group_step. destruct (key_notna (key_of r)); [| done].
  by apply group_add_nonempty.
Qed.

(** The number of rows in the groups. *)
Lemma group_add_size (r : gmap string cell) (gs : list (cell * cell * list (gmap string cell))) :
  sum_list (length <$> (group_add r gs).*2) = S (sum_list (length <$> gs.*2)).
Proof.
  induction gs as [| [k g] gs IH]; cbn [group_add]; [done |].
  case_bool_decide; rewrite !fmap_cons; cbn [snd sum_list_with].
  - rewrite length_app. cbn. lia.
  - rewrite IH. lia.
Qed.

Lemma foldl_group_step_size (l : list (gmap string cell))
    (gs : list (cell * cell * list (gmap string cell))) :
  sum_list (length <$> (foldl group_step gs l).*2) =
  (sum_list (length <$> gs.*2) + length (filter (fun r => key_notna (key_of r) = true) l))%nat.
Proof.
  revert gs. induction l as [| r l IH]; intros gs; cbn [foldl]; [cbn; lia |].
  rewrite IH, filter_cons. unfold group_step.
  destruct (key_notna (key_of r)) eqn:E.
  - rewrite group_add_size, decide_True by done. cbn. lia.
  - rewrite decide_False by done. done.
Qed.

Lemma sum_list_perm (l1 l2 : list nat) : l1 ≡ₚ l2 -> sum_list l1 = sum_list l2.
Proof. induction 1; cbn in *; lia. Qed.

Lemma groupby_size (l : list (gmap string cell)) :
  sum_list (length <$> (groupby l).*2) = length (filter (fun r => key_notna (key_of r) = true) l).
Proof.
  unfold groupby.
  rewrite (sum_list_perm _ (length <$> (foldl group_step [] l).*2)).
  - by rewrite foldl_group_step_size.
  - by rewrite (sort_values_perm fst (foldl group_step [] l)).
Qed.

Lemma Qsum_lengths (gs : list (cell * cell * list (gmap string cell))) :
  (Qsum ((fun kg => inject_Z (Z.of_nat (length kg.2))) <$> gs)
   == inject_Z (Z.of_nat (sum_list (length <$> gs.*2))))%Q.
Proof.
  induction gs as [| kg gs IH]; [reflexivity |].
  rewrite !fmap_cons. cbn [Qsum foldr sum_list sum_list_with]. unfold Qsum in IH. rewrite IH.
  rewrite Nat2Z.inj_add, inject_Z_plus. reflexivity.
Qed.

Lemma groupby_groups (l : list (gmap string cell)) (k : cell * cell)
    (g : list (gmap string cell)) :
  (k, g) ∈ groupby l ->
  key_notna k = true /\ g = filter (fun r => key_of r = k) l /\ g ≠ [].
Proof.
  unfold groupby. rewrite (sort_values_perm fst (foldl group_step [] l)). intros Hin.
  destruct (foldl_group_step l) as (_ & Hg & _). destruct (Hg k g Hin) as [Hk Hgeq].
  repeat split; [done | done |].
  pose proof (foldl_group_step_nonempty l [] (List.Forall_nil _)) as Hne.
  rewrite Forall_forall in Hne. exact (Hne _ Hin).
Qed.

(** X4. The heart-rate aggregate of a table with the three columns, when
    it is computed: its columns are the six named ones; its rows come in
    ascending key order; every row has a complete key, and its [HRCount]
    is the number of samples of that key, at least one; the counts add up
    to the number of samples with a complete key, so a sample counts once
    and a sample without identifier or day is left out. *)
Theorem hr_day_table (h hr : DataFrame) :
  has_col "Value" h = true -> has_col "Id" h = true -> has_col "date" h = true ->
  hr_day (Some h) = inr hr ->
  columns hr = HR_COLUMNS /\
  Sorted (key_le key_of) (rows hr) /\
  Forall (fun r =>
            key_notna (key_of r) = true /\
            let n := length (filter (fun s => key_of s = key_of r) (rows h)) in
            (0 < n)%nat /\ get "HRCount" r = VNum (inject_Z (Z.of_nat n))) (rows hr) /\
  (Qsum (omap as_number (col "HRCount" hr))
   == inject_Z (Z.of_nat (length (filter (fun s => key_notna (key_of s) = true) (rows h)))))%Q.
Proof.
  intros Hv Hi Hd. unfold hr_day. rewrite Hv, Hi, Hd. cbn [andb].
  destruct (existsb is_str (col "Value" h)); [discriminate |].
  intros [= <-]. cbn [columns rows]. repeat split.
  - apply (Sorted_fmap (key_le fst)); [| apply sort_values_Sorted].
    intros a b. unfold key_le. by rewrite !key_of_agg_row.
  - apply Forall_forall. intros r Hr. apply list_elem_of_fmap in Hr as ([k g] & -> & Hin).
    destruct (groupby_groups _ _ _ Hin) as (Hk & Hg & Hne).
    rewrite key_of_agg_row. cbn [fst]. split; [done |]. cbv zeta. rewrite <- Hg. split.
    + destruct g; [done | cbn; lia].
    + done.
  - assert (Hcol : forall gs : list (cell * cell * list (gmap string cell)),
              omap as_number (get "HRCount" <$> (agg_row <$> gs))
              = (fun kg => inject_Z (Z.of_nat (length kg.2))) <$> gs).
    { intros gs. induction gs as [| kg gs IH]; [done |].
      rewrite !fmap_cons.
      change (get "HRCount" (agg_row kg)) with (VNum (inject_Z (Z.of_nat (length kg.2)))).
      cbn [omap list_omap as_number]. by rewrite IH. }
    unfold col. cbn [rows]. change (map (get "HRCount")) with (fmap (M := list) (get "HRCount")).
    rewrite Hcol, Qsum_lengths, groupby_size. reflexivity.
Qed.

(** X4, at the example samples: two rows, four samples. *)
Lemma hr_day_table_witness :
  exists hr, hr_day (Some heart_samples) = inr hr /\
    columns hr = HR_COLUMNS /\
    (Qsum (omap as_number (col "HRCount" hr)) == 4)%Q.
Proof.
  destruct (hr_day (Some heart_samples)) as [e | hr] eqn:E; [vm_compute in E; discriminate E |].
  exists hr. split; [reflexivity |].
  destruct (hr_day_table heart_samples hr) as (Hc & _ & _ & Hsum);
    [vm_compute; reflexivity .. | exact E |].
  split; [exact Hc |]. rewrite Hsum. vm_compute. reflexivity.
Defined.

(** ** The left join, cell by cell *)

Lemma lookup_nulls (extra : list string) (c : string) :
  (list_to_map ((fun c => (c, VNull)) <$> extra) : gmap string cell) !! c
  = if bool_decide (c ∈ extra) then Some VNull else None.
Proof.
  induction extra as [| x extra IH].
  - rewrite bool_decide_eq_false_2 by apply not_elem_of_nil. apply lookup_empty.
  - rewrite fmap_cons, list_to_map_cons. cbn [fst snd]. destruct (decide (c = x)) as [-> | Hne].
    + rewrite lookup_insert_eq, bool_decide_eq_true_2 by left. done.
    + rewrite lookup_insert_ne by done. rewrite IH.
      apply (f_equal (fun b : bool => if b then Some VNull else None)).
      apply bool_decide_ext. rewrite elem_of_cons. tauto.
Qed.

Lemma merge_joined (left right df : DataFrame) :
  NoDup (key_of <$> rows right) ->
  merge left right = inr df ->
  Forall2 (joined right) (rows left) (rows df).
Proof.
  intros Hnd. unfold merge.
  destruct (negb _); [done |]. destruct (negb _); [done |]. intros [= <-]. cbn [rows].
  set (extra := filter (fun c => c ∉ ON) (columns right)).
  assert (Hextra : forall c, c ∈ extra <-> c ∈ columns right /\ c ∉ ON).
  { intros c. unfold extra. rewrite list_elem_of_filter. tauto. }
  induction (rows left) as [| l ls IH]; [constructor |].
  cbn [flat_map].
  destruct (filter _ (rows right)) as [| x ms] eqn:E.
  - cbn [app]. constructor; [| exact IH]. repeat split.
    + intros c Hc. by apply lookup_union_l'.
    + intros c Hl Hc Hon. rewrite E. cbn. unfold get.
      rewrite lookup_union_r, lookup_nulls by done.
      rewrite bool_decide_eq_true_2; [done |]. by apply Hextra.
    + intros c Hl Hc. rewrite lookup_union_r, lookup_nulls by done.
      rewrite bool_decide_eq_false_2; [done |]. rewrite Hextra. tauto.
  - assert (Hx : x ∈ filter (fun r => key_of r = key_of l) (rows right)) by (rewrite E; left).
    apply list_elem_of_filter in Hx as [Hkx Hx].
    pose proof (filter_unique_key key_of (rows right) x Hnd Hx) as Hu.
    rewrite Hkx, E in Hu. injection Hu as ->.
    cbn [fmap list_fmap app]. constructor; [| exact IH]. repeat split.
    + intros c Hc. by apply lookup_union_l'.
    + intros c Hl Hc Hon. rewrite E. cbn. unfold get.
      rewrite lookup_union_r by done. rewrite lookup_project; [done |]. by apply Hextra.
    + intros c Hl Hc. rewrite lookup_union_r by done.
      apply map_lookup_filter_None_2. right. intros v _. cbn. rewrite Hextra. tauto.
Qed.

(** X5. A left join with a right table of pairwise distinct keys returns
    the left columns followed by the right columns that are no key, and
    one row for each left row, in order; that row holds the cells of the
    left row unchanged, the right columns of the one right row with its
    key, missing values in them when no right row has its key, and
    nothing else. *)
Theorem merge_left_join (left right df : DataFrame) :
  NoDup (key_of <$> rows right) ->
  merge left right = inr df ->
  columns df = columns left ++ filter (fun c => c ∉ ON) (columns right) /\
  len df = len left /\
  Forall2 (joined right) (rows left) (rows df).
Proof.
  intros Hnd Hm. pose proof (merge_joined _ _ _ Hnd Hm) as Hj.
  split; [apply (merge_inr _ _ _ Hm) |]. split; [| exact Hj].
  unfold len. symmetry. exact (Forall2_length _ _ _ Hj).
Qed.

(** X5, at one sleep row joined with the example heart-rate aggregate. *)
Lemma merge_left_join_witness :
  exists hr df,
    hr_day (Some heart_samples) = inr hr /\
    merge (project ["Id"; "date"; "TotalMinutesAsleep"] sleep_twice) hr = inr df /\
    Forall2 (joined hr) (rows (project ["Id"; "date"; "TotalMinutesAsleep"] sleep_twice)) (rows df).
Proof.
  destruct (hr_day (Some heart_samples)) as [e | hr] eqn:Ehr; [vm_compute in Ehr; discriminate Ehr |].
  destruct (hr_day_NoDup _ _ Ehr) as (Hi & Hd & Hnd).
  destruct (merge_total (project ["Id"; "date"; "TotalMinutesAsleep"] sleep_twice) hr)
    as [df Hdf]; [vm_compute; reflexivity | vm_compute; reflexivity | exact Hi | exact Hd |].
  exists hr, df. split; [reflexivity |]. split; [exact Hdf |].
  exact (proj2 (proj2 (merge_left_join _ _ _ Hnd Hdf))).
Defined.

(** ** The quality filter keeps the rows that are not flagged *)

(** X6. The valid table is the joined table without the flagged rows:
    its rows are the rows of the joined table that are not flagged, in
    their order, each with the two flag columns set to not-flagged and
    valid; every joined row is either in it or flagged. *)
Theorem valid_rows_unflagged (df : DataFrame) :
  columns (valid_rows (qc_flags df)) = columns (qc_flags df) /\
  rows (valid_rows (qc_flags df)) =
    (fun r => <["valid_row" := VBool true]> (<["zero_step_high_cal" := VBool false]> r))
      <$> filter (fun r => zero_step_high_cal df r = false) (rows df) /\
  len df = (len (valid_rows (qc_flags df)) +
            length (filter (fun r => zero_step_high_cal df r = true) (rows df)))%nat.
Proof.
  split; [done |].
  assert (Hrows : rows (valid_rows (qc_flags df)) =
    (fun r => <["valid_row" := VBool true]> (<["zero_step_high_cal" := VBool false]> r))
      <$> filter (fun r => zero_step_high_cal df r = false) (rows df)).
  { unfold valid_rows. cbn [rows]. rewrite rows_qc_flags.
    generalize (zero_step_high_cal df). intros z.
    induction (rows df) as [| r l IH]; [done |].
    cbn [map]. rewrite !filter_cons, get_insert_eq.
    destruct (z r) eqn:Ez; cbn [negb].
    - rewrite decide_False by done. rewrite decide_False by done. exact IH.
    - rewrite decide_True by done. rewrite decide_True by done.
      rewrite fmap_cons. by rewrite IH. }
  split; [exact Hrows |].
  unfold len. rewrite Hrows, length_fmap. clear Hrows.
  generalize (zero_step_high_cal df). intros z.
  induction (rows df) as [| r l IH]; [done |].
  rewrite !filter_cons. destruct (z r) eqn:Ez.
  - rewrite decide_False by done. rewrite decide_True by done. cbn [length]. lia.
  - rewrite decide_True by done. rewrite decide_False by done. cbn [length]. lia.
Qed.

Section Values.
Context `{Pandas}.

(** ** Numeric coercion, cell by cell *)

Lemma to_numeric_coerce_cells (l : list cell) : to_numeric_coerce l = map coerce_cell l.
Proof. reflexivity. Qed.

Lemma coerce_cols_rows (cs : list string) (df : DataFrame) :
  let df' := foldl (fun df c => if has_col c df then assign c (to_numeric_coerce (col c df)) df
                                else df) df cs in
  columns df' = columns df /\
  rows df' = map (fun r => foldl (fun r c => if bool_decide (c ∈ columns df)
                                             then <[c := coerce_cell (get c r)]> r
                                             else r) r cs) (rows df).
Proof.
  cbv zeta. revert df. induction cs as [| c cs IH]; intros df; cbn [foldl].
  - split; [done |]. by rewrite map_id.
  - set (df1 := if has_col c df then assign c (to_numeric_coerce (col c df)) df else df).
    assert (Hc1 : columns df1 = columns df).
    { unfold df1. destruct (has_col c df) eqn:E; [| done]. by apply columns_assign_has. }
    assert (Hr1 : rows df1 = map (fun r => if bool_decide (c ∈ columns df)
                                           then <[c := coerce_cell (get c r)]> r
                                           else r) (rows df)).
    { unfold df1. fold (has_col c df). destruct (has_col c df) eqn:E; [| by rewrite map_id].
      rewrite to_numeric_coerce_cells. unfold col. rewrite map_map.
      apply (rows_assign_map c (fun r => coerce_cell (get c r))). }
    destruct (IH df1) as [Hc Hr]. split; [by rewrite Hc |].
    by rewrite Hr, Hr1, Hc1, map_map.
Qed.

Lemma coerce_row_get (cols cs : list string) (r : gmap string cell) (c : string) :
  NoDup cs ->
  get c (foldl (fun r c => if bool_decide (c ∈ cols) then <[c := coerce_cell (get c r)]> r
                           else r) r cs)
  = if bool_decide (c ∈ cs) && bool_decide (c ∈ cols) then coerce_cell (get c r) else get c r.
Proof.
  intros Hnd. revert r. induction Hnd as [| a cs Ha Hnd IH]; intros r; cbn [foldl]; [done |].
  rewrite IH. destruct (decide (c = a)) as [-> | Hne].
  - rewrite (bool_decide_eq_false_2 (a ∈ cs)) by done.
    rewrite (bool_decide_eq_true_2 (a ∈ a :: cs)) by left. cbn [andb].
    destruct (bool_decide (a ∈ cols)); [| done]. by rewrite get_insert_eq.
  - rewrite (bool_decide_ext (c ∈ a :: cs) (c ∈ cs)) by (rewrite elem_of_cons; tauto).
    destruct (bool_decide (a ∈ cols)); [| done]. by rewrite get_insert_ne.
Qed.

Lemma coerce_num_cols_rows (df : DataFrame) :
  columns (coerce_num_cols df) = columns df /\
  Forall2 (fun r r' : gmap string cell => forall c,
             get c r' = if bool_decide (c ∈ num_cols) && has_col c df
                        then coerce_cell (get c r) else get c r)
          (rows df) (rows (coerce_num_cols df)).
Proof.
  assert (Hcr : columns (coerce_num_cols df) = columns df /\
                rows (coerce_num_cols df)
                = map (fun r => foldl (fun r c => if bool_decide (c ∈ columns df)
                                                  then <[c := coerce_cell (get c r)]> r
                                                  else r) r num_cols) (rows df))
    by exact (coerce_cols_rows num_cols df).
  destruct Hcr as [Hc Hr].
  assert (Hnd : NoDup num_cols) by decide_in.
  split; [exact Hc |].
  rewrite Hr. clear Hr. generalize (rows df). intros l.
  induction l as [| r l IH]; [constructor |].
  cbn [map]. constructor; [| exact IH]. intros c. by apply coerce_row_get.
Qed.

(** X7. The numeric coercion of lines 120-122 keeps the columns and the
    rows of the joined table; in each of the ten numeric columns the table
    has, every cell becomes the number [pd.to_numeric] reads in it, or a
    missing value, so that no string is left there; every other cell is
    as it was. *)
Theorem coerce_num_cols_cells (df : DataFrame) :
  columns (coerce_num_cols df) = columns df /\
  Forall2 (fun r r' : gmap string cell => forall c,
             get c r' = if bool_decide (c ∈ num_cols) && has_col c df
                        then coerce_cell (get c r) else get c r)
          (rows df) (rows (coerce_num_cols df)) /\
  (forall c, c ∈ num_cols -> has_col c df = true ->
             existsb is_str (col c (coerce_num_cols df)) = false).
Proof.
  destruct (coerce_num_cols_rows df) as [Hc H2].
  split; [exact Hc |]. split; [exact H2 |].
  intros c Hc' Hhas. unfold col. revert H2.
  generalize (rows df) (rows (coerce_num_cols df)). intros l l' H2.
  induction H2 as [| r r' l l' Hrr _ IH]; [done |].
  cbn [map existsb]. rewrite IH, orb_false_r, Hrr, Hhas, bool_decide_eq_true_2 by done.
  cbn [andb]. unfold coerce_cell. by destruct (numeric_of_cell (get c r)) as [[z | q] |].
Qed.

End Values.

(** ** Identifiers across tables *)

Lemma str_int_inj (z1 z2 : Z) : str_int z1 = str_int z2 -> z1 = z2.
Proof.
  intros Heq. pose proof (parse_int_str_int z1) as H1. rewrite Heq, parse_int_str_int in H1.
  by injection H1.
Qed.

Lemma str_int_not_NA (z : Z) : str_int z ≠ "<NA>".
Proof.
  intros Heq. pose proof (parse_int_str_int z) as H1. rewrite Heq in H1.
  vm_compute in H1. discriminate H1.
Qed.

Section Identifiers.
Context `{Pandas}.

Lemma int64_of_small (fl : bool) (n : option numeric) (oz : option Z) (z : Z) :
  int64_of fl n = inr oz -> id_value n = Some z -> Z.abs z < 2 ^ 53 -> oz = Some z.
Proof.
  intros Hi Hv Hz. pose proof (float64_of_Z_small z Hz) as Hf.
  destruct n as [[z' | q] |]; cbn in Hv; [| | done].
  - injection Hv as ->. unfold int64_of in Hi.
    replace (if fl then float64_of_Z z else z) with z in Hi by (by destruct fl).
    destruct (in_int64 z); [by injection Hi | done].
  - unfold int64_of in Hi. rewrite Hv in Hi. cbn [fmap option_fmap option_map] in Hi.
    rewrite Hf in Hi. destruct (in_int64 z); [by injection Hi | done].
Qed.

Lemma norm_id_cell (d d' : DataFrame) (i : nat) (c : cell) :
  has_col "Id" d = true -> norm_id (Some d) = inr (Some d') ->
  col "Id" d !! i = Some c ->
  exists oz, col "Id" d' !! i = Some (astype_str oz) /\
    (forall z, id_value (numeric_of_cell c) = Some z -> Z.abs z < 2 ^ 53 -> oz = Some z) /\
    (numeric_of_cell c = None -> oz = None).
Proof.
  intros Hhas Hn Hc. unfold norm_id in Hn. rewrite Hhas in Hn.
  unfold astype_Int64 in Hn.
  destruct (traverse _ _) as [e | ids] eqn:E; [done |].
  cbn in Hn. injection Hn as <-.
  pose proof (traverse_length _ _ _ E) as Hlen. rewrite length_fmap in Hlen.
  rewrite col_assign_eq by (rewrite length_fmap, Hlen; unfold col; by rewrite length_map).
  apply traverse_inr in E.
  assert (Hn : (numeric_of_cell <$> col "Id" d) !! i = Some (numeric_of_cell c))
    by (by rewrite list_lookup_fmap, Hc).
  destruct (Forall2_lookup_l _ _ _ _ _ E Hn) as (oz & Hoz & Hi).
  exists oz. split; [by rewrite list_lookup_fmap, Hoz |]. split.
  - intros z Hv Hz. by eapply int64_of_small.
  - intros Hnone. rewrite Hnone in Hi. cbn in Hi. by injection Hi.
Qed.

(** X8. Identifier normalisation neither merges nor splits subjects.  In
    two normalised tables (or twice the same), two cells whose raw
    identifiers are the integers [z1] and [z2] below [2^53] in magnitude,
    whether written as numbers or as numeric strings, hold the decimal
    strings of [z1] and [z2], and these are equal exactly when [z1 = z2];
    a raw identifier that is no number becomes ["<NA>"], which is the
    string of no integer. *)
Theorem norm_id_same_subject (d1 d1' d2 d2' : DataFrame) (i j : nat) (c1 c2 : cell) :
  has_col "Id" d1 = true -> has_col "Id" d2 = true ->
  norm_id (Some d1) = inr (Some d1') -> norm_id (Some d2) = inr (Some d2') ->
  col "Id" d1 !! i = Some c1 -> col "Id" d2 !! j = Some c2 ->
  (forall z1 z2,
     id_value (numeric_of_cell c1) = Some z1 -> id_value (numeric_of_cell c2) = Some z2 ->
     Z.abs z1 < 2 ^ 53 -> Z.abs z2 < 2 ^ 53 ->
     col "Id" d1' !! i = Some (VStr (str_int z1)) /\
     col "Id" d2' !! j = Some (VStr (str_int z2)) /\
     (col "Id" d1' !! i = col "Id" d2' !! j <-> z1 = z2)) /\
  (forall z2,
     numeric_of_cell c1 = None -> id_value (numeric_of_cell c2) = Some z2 ->
     Z.abs z2 < 2 ^ 53 ->
     col "Id" d1' !! i = Some (VStr "<NA>") /\ col "Id" d1' !! i ≠ col "Id" d2' !! j).
Proof.
  intros Hh1 Hh2 Hn1 Hn2 Hc1 Hc2.
  destruct (norm_id_cell d1 d1' i c1 Hh1 Hn1 Hc1) as (oz1 & Ho1 & Hz1 & Hna1).
  destruct (norm_id_cell d2 d2' j c2 Hh2 Hn2 Hc2) as (oz2 & Ho2 & Hz2 & Hna2).
  split.
  - intros z1 z2 Hv1 Hv2 Hb1 Hb2.
    rewrite Ho1, Ho2, (Hz1 z1 Hv1 Hb1), (Hz2 z2 Hv2 Hb2). cbn [astype_str].
    repeat split; [| by intros ->].
    intros [= Heq]. by apply str_int_inj.
  - intros z2 Hnone Hv2 Hb2.
    rewrite Ho1, Ho2, (Hna1 Hnone), (Hz2 z2 Hv2 Hb2). cbn [astype_str].
    split; [done |]. intros [= Heq]. symmetry in Heq. by apply str_int_not_NA in Heq.
Qed.

End Identifiers.

(** X8, at the example exports: the subject of the first activity row,
    a number there, is the subject of the first raw identifier, a string. *)
Lemma norm_id_same_subject_witness :
  exists d1' d2',
    @norm_id parsers (Some daily_csv) = inr (Some d1') /\
    @norm_id parsers (Some raw_ids) = inr (Some d2') /\
    col "Id" d1' !! 0%nat = col "Id" d2' !! 0%nat.
Proof.
  destruct (@norm_id parsers (Some daily_csv)) as [e | [d1' |]] eqn:E1;
    [vm_compute in E1; discriminate E1 | | vm_compute in E1; discriminate E1].
  destruct (@norm_id parsers (Some raw_ids)) as [e | [d2' |]] eqn:E2;
    [vm_compute in E2; discriminate E2 | | vm_compute in E2; discriminate E2].
  exists d1', d2'. split; [reflexivity |]. split; [reflexivity |].
  destruct (@norm_id_same_subject parsers daily_csv d1' raw_ids d2' 0%nat 0%nat
              (int 1503960366) (VStr "1503960366")) as [Hsame _];
    [vm_compute; reflexivity | vm_compute; reflexivity | exact E1 | exact E2
    | vm_compute; reflexivity | vm_compute; reflexivity |].
  destruct (Hsame 1503960366 1503960366) as (_ & _ & Hiff);
    [vm_compute; reflexivity | vm_compute; reflexivity | vm_compute; reflexivity
    | vm_compute; reflexivity |].
  by apply Hiff.
Defined.

(** ** The joined table, cell by cell *)

Lemma joined_other (right : DataFrame) (l o : gmap string cell) (c : string) :
  joined right l o -> c ∉ columns right \/ c ∈ ON -> o !! c = l !! c.
Proof.
  intros (Hl & _ & Hn) Hc. destruct (l !! c) as [v |] eqn:E.
  - rewrite <- E. apply Hl. by rewrite E.
  - by apply Hn.
Qed.

Lemma joined_key (right : DataFrame) (l o : gmap string cell) :
  joined right l o -> key_of o = key_of l.
Proof.
  intros Hj. unfold key_of, get.
  rewrite (joined_other right l o "Id" Hj) by (right; left).
  by rewrite (joined_other right l o "date" Hj) by (right; right; left).
Qed.

Lemma lookup_key_project (cols : list string) (s : DataFrame) (k : cell * cell) (c : string) :
  "Id" ∈ cols -> "date" ∈ cols -> c ∈ cols ->
  lookup_key (project cols s) k c = lookup_key s k c.
Proof.
  intros Hi Hd Hc. unfold lookup_key, project. cbn [rows].
  induction (rows s) as [| r l IH]; [done |].
  cbn [map]. rewrite !filter_cons, key_of_project by done.
  destruct (decide (key_of r = k)); [| exact IH].
  cbn. unfold get. by rewrite lookup_project.
Qed.

Lemma hr_day_columns (heart : option DataFrame) (hr : DataFrame) :
  hr_day heart = inr hr -> columns hr = HR_COLUMNS.
Proof.
  unfold hr_day. destruct heart as [h |]; [| by intros [= <-]].
  destruct (_ && _); [| by intros [= <-]].
  destruct (existsb _ _); [done | by intros [= <-]].
Qed.

Lemma has_col_merge (left right df : DataFrame) (c : string) :
  merge left right = inr df ->
  has_col c df = has_col c left || (has_col c right && negb (bool_decide (c ∈ ON))).
Proof.
  intros Hm. destruct (merge_inr _ _ _ Hm) as (_ & _ & _ & _ & Hc).
  unfold has_col. rewrite Hc.
  apply eq_true_iff_eq.
  rewrite orb_true_iff, andb_true_iff, negb_true_iff, !bool_decide_eq_true,
    bool_decide_eq_false, elem_of_app, list_elem_of_filter. tauto.
Qed.

Lemma Forall2_map_r {A B C} (f : A -> B) (P : C -> B -> Prop) (k : list C) (l : list A) :
  Forall2 (fun x y => P x (f y)) k l -> Forall2 P k (map f l).
Proof. induction 1; constructor; auto. Qed.

Lemma Forall2_map_l {A B C} (f : A -> B) (P : B -> C -> Prop) (l : list A) (k : list C) :
  Forall2 P (map f l) k -> Forall2 (fun x y => P (f x) y) l k.
Proof.
  revert k. induction l as [| x l IH]; intros k Hk; inversion Hk; subst; constructor; auto.
Qed.

Section Cells.
Context `{Pandas}.

(** The post-processing of lines 118-130 touches no measure but to
    coerce it. *)
Lemma post_rows (df0 : DataFrame) :
  Forall2 (fun o r : gmap string cell => forall c,
             c ∉ ["weekday"; "zero_step_high_cal"; "valid_row"] ->
             get c r = if bool_decide (c ∈ num_cols) && has_col c df0
                       then coerce_cell (get c o) else get c o)
          (rows df0) (rows (qc_flags (add_weekday (coerce_num_cols df0)))).
Proof.
  rewrite rows_qc_flags. apply Forall2_map_r.
  assert (Hw : Forall2 (fun r r' : gmap string cell => forall c, c ≠ "weekday" ->
                          r' !! c = r !! c)
                 (rows (coerce_num_cols df0)) (rows (add_weekday (coerce_num_cols df0)))).
  { unfold add_weekday. destruct (has_col "date" _).
    - apply rows_assign_other. unfold col. by rewrite !length_map.
    - apply Forall_Forall2_diag, Forall_forall. done. }
  eapply Forall2_trans; [| apply (coerce_num_cols_rows df0) | exact Hw].
  intros o r1 r2 H1 H2 c Hc. cbv beta.
  rewrite !get_insert_ne.
  - unfold get at 1. rewrite H2, <- H1; [done |]. intros ->. apply Hc. left.
  - intros <-. apply Hc. right; left.
  - intros <-. apply Hc. right; right; left.
Qed.

Lemma merge_chain_cells (d : DataFrame) (sleep : option DataFrame) (hr df0 : DataFrame) :
  (forall s, sleep = Some s -> has_col "Id" s = true -> has_col "date" s = true ->
             NoDup (key_of <$> rows s)) ->
  NoDup (key_of <$> rows hr) ->
  columns hr = HR_COLUMNS ->
  merge_chain (Some d) sleep hr = inr df0 ->
  Forall2 (fun a o : gmap string cell =>
     (forall c, c ∈ activity_measures -> has_col c d = true -> o !! c = a !! c) /\
     (forall s, sleep = Some s -> has_col "TotalMinutesAsleep" s = true ->
        get "TotalMinutesAsleep" o = lookup_key s (key_of a) "TotalMinutesAsleep") /\
     (forall c, c ∈ hr_measures -> get c o = lookup_key hr (key_of a) c))
    (rows d) (rows df0) /\
  (forall c, c ∈ activity_measures -> has_col c d = true -> has_col c df0 = true) /\
  (forall s, sleep = Some s -> has_col "TotalMinutesAsleep" s = true ->
     has_col "TotalMinutesAsleep" df0 = true) /\
  (forall c, c ∈ hr_measures -> has_col c df0 = true).
Proof.
  intros Hsleep Hhr Hcols. unfold merge_chain. unfold_monad.
  set (cd := safe_cols (Some d) keep).
  set (left0 := project cd d).
  (* facts on the column names *)
  assert (Hkeep : forall c, c ∈ cd -> c ∈ keep).
  { intros c Hc. by apply has_col_safe_cols in Hc as [? _]. }
  assert (Hact : forall c, c ∈ activity_measures -> has_col c d = true -> c ∈ cd).
  { intros c Hc Hh. apply has_col_safe_cols. split; [| done]. clear Hh.
    revert c Hc. apply Forall_forall. unfold activity_measures.
    repeat (apply List.Forall_cons; [decide_in |]). apply List.Forall_nil. }
  assert (Hact_hr : forall c, c ∈ activity_measures -> (c ∉ HR_COLUMNS) /\ (c ∉ ON) /\
                      (c ∉ ["Id"; "date"; "TotalMinutesAsleep"])).
  { apply Forall_forall. unfold activity_measures.
    repeat (apply List.Forall_cons; [decide_in |]). apply List.Forall_nil. }
  assert (Hhr_m : forall c, c ∈ hr_measures -> c ∈ HR_COLUMNS /\ (c ∉ ON) /\ (c ∉ keep) /\
                      (c ∉ ["Id"; "date"; "TotalMinutesAsleep"])).
  { apply Forall_forall. unfold hr_measures.
    repeat (apply List.Forall_cons; [decide_in |]). apply List.Forall_nil. }
  assert (Htma : ("TotalMinutesAsleep" ∉ keep) /\ ("TotalMinutesAsleep" ∉ HR_COLUMNS) /\
                 ("TotalMinutesAsleep" ∉ ON)) by decide_in.
  destruct Htma as (Htk & Hth & Hto).
  assert (Hlnone : forall (a : gmap string cell) c, c ∉ keep ->
            filter (fun kv : string * cell => kv.1 ∈ cd) a !! c = None).
  { intros a c Hc. apply map_lookup_filter_None_2. right. intros v _ Hin. by apply Hc, Hkeep. }
  assert (Hrows0 : forall (R : gmap string cell -> gmap string cell -> Prop) k,
            Forall2 R (rows left0) k ->
            Forall2 (fun a o => R (filter (fun kv : string * cell => kv.1 ∈ cd) a) o) (rows d) k).
  { intros R k. unfold left0, project. cbn [rows]. apply Forall2_map_l. }
  destruct sleep as [s |].
  - set (cs := safe_cols (Some s) ["Id"; "date"; "TotalMinutesAsleep"]).
    destruct (merge left0 (project cs s)) as [e | df1] eqn:Hm1; [done |]. intros Hm2.
    pose proof (merge_inr _ _ _ Hm1) as (Hi0 & Hd0 & Hi1 & Hd1 & Hc1).
    unfold left0 in Hi0, Hd0.
    rewrite has_col_project, bool_decide_eq_true in Hi0, Hd0, Hi1, Hd1.
    pose proof Hi1 as Hi1'. pose proof Hd1 as Hd1'.
    apply has_col_safe_cols in Hi1' as [_ His], Hd1' as [_ Hds].
    assert (Hnd1 : NoDup (key_of <$> rows (project cs s))).
    { rewrite keys_project by done. by apply Hsleep. }
    pose proof (Hrows0 _ _ (merge_joined _ _ _ Hnd1 Hm1)) as J1.
    pose proof (merge_joined _ _ _ Hhr Hm2) as J2.
    assert (Hcs : forall c, c ∈ cs -> c ∈ ["Id"; "date"; "TotalMinutesAsleep"]).
    { intros c Hc. by apply has_col_safe_cols in Hc as [? _]. }
    split; [| split; [| split]].
    + eapply Forall2_trans; [| exact J1 | exact J2].
      intros a o1 o2 Hj1 Hj2. cbv beta in Hj1. split; [| split].
      * intros c Hc Hh. destruct (Hact_hr c Hc) as (Hn1 & Hn2 & Hn3).
        rewrite (joined_other hr o1 o2 c Hj2) by (left; by rewrite Hcols).
        rewrite (joined_other _ _ o1 c Hj1) by (left; intros Hin; by apply Hn3, Hcs).
        apply lookup_project. by apply Hact.
      * intros s' [= <-] Hh. unfold get at 1.
        rewrite (joined_other hr o1 o2 _ Hj2) by (left; by rewrite Hcols).
        fold (get "TotalMinutesAsleep" o1).
        assert (Hin : "TotalMinutesAsleep" ∈ cs).
        { apply has_col_safe_cols. split; [decide_in | done]. }
        destruct Hj1 as (_ & Hr & _). rewrite Hr; [| by apply Hlnone | done | done].
        fold (lookup_key (project cs s)
                (key_of (filter (fun kv : string * cell => kv.1 ∈ cd) a)) "TotalMinutesAsleep").
        by rewrite lookup_key_project, key_of_project.
      * intros c Hc. destruct (Hhr_m c Hc) as (Hn1 & Hn2 & Hn3 & Hn4).
        pose proof (joined_key _ _ _ Hj1) as Hk. rewrite key_of_project in Hk by done.
        destruct Hj2 as (_ & Hr & _). rewrite Hr; [| | by rewrite Hcols | done].
        -- fold (lookup_key hr (key_of o1) c). by rewrite Hk.
        -- rewrite (joined_other _ _ o1 c Hj1) by (left; intros Hin; by apply Hn4, Hcs).
           by apply Hlnone.
    + intros c Hc Hh. rewrite (has_col_merge _ _ _ c Hm2), (has_col_merge _ _ _ c Hm1).
      unfold left0. rewrite has_col_project, (bool_decide_eq_true_2 (c ∈ cd)); [done |].
      by apply Hact.
    + intros s' [= <-] Hh.
      rewrite (has_col_merge _ _ _ _ Hm2), (has_col_merge _ _ _ _ Hm1).
      rewrite (has_col_project _ cs), (bool_decide_eq_true_2 (_ ∈ cs)).
      * rewrite (bool_decide_eq_false_2 (_ ∈ ON)) by done. cbn [negb andb]. by rewrite orb_true_r.
      * apply has_col_safe_cols. split; [decide_in | done].
    + intros c Hc. destruct (Hhr_m c Hc) as (Hn1 & Hn2 & Hn3 & Hn4).
      rewrite (has_col_merge _ _ _ c Hm2). unfold has_col at 2. rewrite Hcols.
      rewrite (bool_decide_eq_true_2 (c ∈ HR_COLUMNS)), (bool_decide_eq_false_2 (c ∈ ON)) by done.
      cbn [negb andb]. by rewrite orb_true_r.
  - intros Hm2.
    pose proof (merge_inr _ _ _ Hm2) as (Hi0 & Hd0 & _).
    unfold left0 in Hi0, Hd0.
    rewrite has_col_project, bool_decide_eq_true in Hi0, Hd0.
    pose proof (Hrows0 _ _ (merge_joined _ _ _ Hhr Hm2)) as J2.
    split; [| split; [| split]].
    + eapply Forall2_impl; [exact J2 |].
      intros a o2 Hj2. cbv beta in Hj2. split; [| split].
      * intros c Hc Hh. destruct (Hact_hr c Hc) as (Hn1 & Hn2 & Hn3).
        rewrite (joined_other hr _ o2 c Hj2) by (left; by rewrite Hcols).
        apply lookup_project. by apply Hact.
      * intros s' [=].
      * intros c Hc. destruct (Hhr_m c Hc) as (Hn1 & Hn2 & Hn3 & Hn4).
        destruct Hj2 as (_ & Hr & _). rewrite Hr; [| by apply Hlnone | by rewrite Hcols | done].
        fold (lookup_key hr (key_of (filter (fun kv : string * cell => kv.1 ∈ cd) a)) c).
        by rewrite key_of_project.
    + intros c Hc Hh. rewrite (has_col_merge _ _ _ c Hm2).
      unfold left0. rewrite has_col_project, (bool_decide_eq_true_2 (c ∈ cd)); [done |].
      by apply Hact.
    + intros s' [=].
    + intros c Hc. destruct (Hhr_m c Hc) as (Hn1 & Hn2 & Hn3 & Hn4).
      rewrite (has_col_merge _ _ _ c Hm2). unfold has_col at 2. rewrite Hcols.
      rewrite (bool_decide_eq_true_2 (c ∈ HR_COLUMNS)), (bool_decide_eq_false_2 (c ∈ ON)) by done.
      cbn [negb andb]. by rewrite orb_true_r.
Qed.

Lemma main_stages (fs : FileSystem) (out out' : list string) (g : Globals) :
  main fs out = (inr g, out') ->
  exists (daily0 sleep0 : option DataFrame) (df0 : DataFrame),
    g_daily g = dedupe daily0 /\ g_sleep g = dedupe sleep0 /\
    hr_day (g_heart g) = inr (g_hr_day g) /\
    merge_chain (g_daily g) (g_sleep g) (g_hr_day g) = inr df0 /\
    g_df g = qc_flags (add_weekday (coerce_num_cols df0)) /\
    g_df_valid g = valid_rows (g_df g).
Proof.
  unfold main. unfold_monad. intros Hmain.
  repeat case_match; simplify_eq.
  by eexists (parse_daily _), (parse_sleep _), _.
Qed.

Lemma merge_chain_last (daily sleep : option DataFrame) (hr df0 : DataFrame) :
  merge_chain daily sleep hr = inr df0 -> exists df1, merge df1 hr = inr df0.
Proof.
  unfold merge_chain. unfold_monad. destruct sleep as [s |]; [| by eauto].
  destruct (merge _ _) as [e | df1]; [done | by eauto].
Qed.

Lemma has_col_post (df0 : DataFrame) (c : string) :
  has_col c df0 = true -> has_col c (qc_flags (add_weekday (coerce_num_cols df0))) = true.
Proof.
  intros Hc. unfold qc_flags. cbv zeta. rewrite !has_col_assign.
  assert (Hw : has_col c (add_weekday (coerce_num_cols df0)) = true).
  { unfold add_weekday. destruct (has_col "date" _).
    - rewrite has_col_assign. unfold has_col at 1.
      rewrite (proj1 (coerce_num_cols_rows df0)). fold (has_col c df0). by rewrite Hc.
    - unfold has_col. rewrite (proj1 (coerce_num_cols_rows df0)). exact Hc. }
  by rewrite Hw.
Qed.

(** X9. When the run reaches line 132, the joined table holds, row for
    row, the activity table's rows (after de-duplication): each activity
    measure is the numeric reading of the activity row's own cell;
    [TotalMinutesAsleep] is that of the sleep row with the same subject and
    day, missing when there is none; the four heart-rate measures are those
    of the heart-rate aggregate for that subject and day, missing when
    there is none.  The four heart-rate columns are always there, and hold
    only missing values when no heart-rate table was loaded. *)
Theorem main_joined_cells (fs : FileSystem) (out out' : list string) (g : Globals) :
  main fs out = (inr g, out') ->
  Forall2 (joined_row (g_daily g) (g_sleep g) (g_hr_day g))
          (from_option rows [] (g_daily g)) (rows (g_df g)) /\
  (forall c, c ∈ hr_measures -> has_col c (g_df g) = true) /\
  (g_heart g = None ->
   Forall (fun r => forall c, c ∈ hr_measures -> get c r = VNull) (rows (g_df g))).
Proof.
  intros Hmain.
  destruct (main_stages _ _ _ _ Hmain) as (daily0 & sleep0 & df0 & Hd & Hs & Hhr & Hm & Hdf & _).
  assert (Hsleep : forall s, g_sleep g = Some s -> has_col "Id" s = true ->
            has_col "date" s = true -> NoDup (key_of <$> rows s)).
  { intros s Hsome. rewrite Hs in Hsome. by apply (dedupe_NoDup sleep0). }
  destruct (hr_day_NoDup _ _ Hhr) as (_ & _ & Hnd).
  pose proof (hr_day_columns _ _ Hhr) as Hcols.
  assert (Hmeas : forall c, c ∈ activity_measures ++ "TotalMinutesAsleep" :: hr_measures ->
            (c ∉ ["weekday"; "zero_step_high_cal"; "valid_row"]) /\ c ∈ num_cols).
  { apply Forall_forall. unfold activity_measures, hr_measures. cbn [app].
    repeat (apply List.Forall_cons; [decide_in |]). apply List.Forall_nil. }
  assert (Hrows : Forall2 (joined_row (g_daily g) (g_sleep g) (g_hr_day g))
                    (from_option rows [] (g_daily g)) (rows (g_df g))).
  { rewrite Hdf. destruct (g_daily g) as [d |] eqn:Ed.
    - destruct (merge_chain_cells d _ _ _ Hsleep Hnd Hcols Hm) as (Hcells & Hha & Hhs & Hhh).
      eapply Forall2_trans; [| exact Hcells | apply post_rows].
      intros a o r (Ha & Hsl & Hh) Hpost. split; [| split].
      + intros c d' Hc [= <-] Hcol.
        destruct (Hmeas c) as [Hn1 Hn2]; [apply elem_of_app; by left |].
        rewrite (Hpost c Hn1), (bool_decide_eq_true_2 _ Hn2), (Hha c Hc Hcol). cbn [andb].
        unfold get. by rewrite (Ha c Hc Hcol).
      + intros s Hsome Hcol.
        destruct (Hmeas "TotalMinutesAsleep") as [Hn1 Hn2]; [apply elem_of_app; right; left |].
        rewrite (Hpost _ Hn1), (bool_decide_eq_true_2 _ Hn2), (Hhs s Hsome Hcol). cbn [andb].
        by rewrite (Hsl s Hsome Hcol).
      + intros c Hc.
        destruct (Hmeas c) as [Hn1 Hn2]; [apply elem_of_app; right; by right |].
        rewrite (Hpost c Hn1), (bool_decide_eq_true_2 _ Hn2), (Hhh c Hc). cbn [andb].
        by rewrite (Hh c Hc).
    - cbn [from_option].
      destruct (merge_chain_keys _ _ _ _ Hsleep Hnd Hm) as [Hk _]. cbn [from_option] in Hk.
      apply fmap_nil_inv in Hk.
      pose proof (post_rows df0) as Hpost. rewrite Hk in Hpost.
      apply Forall2_nil_inv_l in Hpost. rewrite Hpost. constructor. }
  split; [exact Hrows |]. split.
  - intros c Hc. rewrite Hdf. apply has_col_post.
    destruct (merge_chain_last _ _ _ _ Hm) as [df1 Hm1].
    rewrite (has_col_merge _ _ _ c Hm1). unfold has_col at 2. rewrite Hcols.
    assert (Hin : c ∈ HR_COLUMNS /\ (c ∉ ON)).
    { revert c Hc. apply Forall_forall. unfold hr_measures.
      repeat (apply List.Forall_cons; [decide_in |]). apply List.Forall_nil. }
    destruct Hin as [Hin Hon].
    rewrite (bool_decide_eq_true_2 _ Hin), (bool_decide_eq_false_2 _ Hon). cbn [negb andb].
    by rewrite orb_true_r.
  - intros Hnone. rewrite Hnone in Hhr. cbn in Hhr. injection Hhr as Hhr.
    apply Forall_forall. intros r Hr. apply list_elem_of_lookup in Hr as [i Hi].
    destruct (Forall2_lookup_r _ _ _ _ _ Hrows Hi) as (a & _ & _ & _ & Hh).
    intros c Hc. rewrite (Hh c Hc), <- Hhr. reflexivity.
Qed.

End Cells.

(** X9, at the example run. *)
Lemma main_joined_cells_witness :
  exists g out,
    @main parsers (files daily_csv sleep_csv weight_csv heart_csv) [] = (inr g, out) /\
    Forall2 (@joined_row parsers (g_daily g) (g_sleep g) (g_hr_day g))
            (from_option rows [] (g_daily g)) (rows (g_df g)).
Proof.
  assert (Hok : match (@main parsers (files daily_csv sleep_csv weight_csv heart_csv) []).1
                with inr _ => true | inl _ => false end = true) by (vm_compute; reflexivity).
  destruct (@main parsers (files daily_csv sleep_csv weight_csv heart_csv) [])
    as [[e | g] out] eqn:E.
  - discriminate Hok.
  - exists g, out. split; [reflexivity |].
    exact (proj1 (@main_joined_cells parsers _ _ _ _ E)).
Defined.

(** ** Grouping by one column *)

Lemma Sorted_weaken {A} (R S : A -> A -> Prop) (l : list A) :
  (forall a b, R a b -> S a b) -> Sorted R l -> Sorted S l.
Proof.
  intros HRS. induction 1 as [| x l Hs IH Hhd]; constructor; [done |].
  destruct Hhd; constructor. by apply HRS.
Qed.

Lemma group_add_by_keys (k : cell) (r : gmap string cell)
    (gs : list (cell * list (gmap string cell))) :
  (group_add_by k r gs).*1 = if decide (k ∈ gs.*1) then gs.*1 else gs.*1 ++ [k].
Proof.
  induction gs as [| [k' g] gs IH]; cbn [group_add_by].
  - by rewrite decide_False by apply not_elem_of_nil.
  - rewrite !fmap_cons. cbn [fst].
    destruct (bool_decide_reflect (k' = k)) as [-> | Hne].
    + rewrite fmap_cons. cbn [fst]. by rewrite decide_True by left.
    + rewrite fmap_cons, IH. cbn [fst].
      destruct (decide (k ∈ gs.*1)) as [Hin | Hnin].
      * by rewrite decide_True by (by right).
      * rewrite decide_False; [done |].
        intros [? | ?]%elem_of_cons; congruence.
Qed.

Lemma group_add_by_elem (k0 : cell) (r : gmap string cell)
    (gs : list (cell * list (gmap string cell))) (k : cell) (g : list (gmap string cell)) :
  NoDup gs.*1 -> (k, g) ∈ group_add_by k0 r gs ->
  (k ≠ k0 /\ (k, g) ∈ gs) \/
  (k = k0 /\ ((exists g0, (k, g0) ∈ gs /\ g = g0 ++ [r]) \/ ((k ∉ gs.*1) /\ g = [r]))).
Proof.
  induction gs as [| [k1 g1] gs IH]; cbn [group_add_by]; intros Hnd Hin.
  - apply list_elem_of_singleton in Hin as [= -> ->]. right. split; [done |].
    right. split; [apply not_elem_of_nil | done].
  - rewrite fmap_cons in Hnd. apply NoDup_cons in Hnd as [Hk1 Hnd]. cbn [fst] in Hk1.
    destruct (bool_decide_reflect (k1 = k0)) as [-> | Hne].
    + apply elem_of_cons in Hin as [[= -> ->] | Hin].
      * right. split; [done |]. left. exists g1. split; [left | done].
      * left. split; [| by right].
        intros ->. apply Hk1. apply list_elem_of_fmap. by exists (k0, g).
    + apply elem_of_cons in Hin as [[= -> ->] | Hin].
      * left. split; [done | left].
      * destruct (IH Hnd Hin) as [[? ?] | [-> [(g2 & ? & ->) | [? ->]]]].
        -- left. split; [done | by right].
        -- right. split; [done |]. left. exists g2. split; [by right | done].
        -- right. split; [done |]. right. split; [| done].
           rewrite fmap_cons. cbn [fst].
           intros [? | ?]%elem_of_cons; congruence.
Qed.

(** The groups hold, key by key and in order, the rows of the table
    whose key is not missing; no group is empty. *)
Lemma foldl_group_step_by (by_ : string) (l : list (gmap string cell)) :
  let gs := foldl (group_step_by by_) [] l in
  NoDup gs.*1 /\
  (forall k g, (k, g) ∈ gs ->
     k ≠ VNull /\ g = filter (fun r => get by_ r = k) l /\ g ≠ []) /\
  (forall r, r ∈ l -> get by_ r ≠ VNull -> get by_ r ∈ gs.*1).
Proof.
  induction l as [| r l IH] using rev_ind; cbn zeta.
  - split; [constructor |]. split; [by intros k g ?%elem_of_nil | by intros r ?%elem_of_nil].
  - rewrite foldl_app. cbn [foldl]. destruct IH as (Hnd & Hgs & Hall).
    set (gs := foldl (group_step_by by_) [] l) in *. unfold group_step_by at 1 2 3.
    destruct (bool_decide_reflect (get by_ r = VNull)) as [Hna | Hna].
    + split; [done |]. split.
      * intros k g Hin. destruct (Hgs k g Hin) as (Hk & -> & Hne). split; [done |].
        rewrite filter_app, filter_cons, filter_nil.
        rewrite decide_False; [by rewrite app_nil_r |]. congruence.
      * intros r' [Hin | ->%list_elem_of_singleton]%elem_of_app Hna'; [by apply Hall | done].
    + split; [| split].
      * rewrite group_add_by_keys. destruct (decide (get by_ r ∈ gs.*1)); [done |].
        apply NoDup_app. split; [done |]. split; [| apply NoDup_singleton].
        intros k Hk ->%list_elem_of_singleton. done.
      * intros k g Hin. rewrite filter_app, filter_cons, filter_nil.
        apply group_add_by_elem in Hin as [[Hne Hin] | [-> [(g0 & Hin & ->) | [Hnin ->]]]];
          [| | | done].
        -- destruct (Hgs k g Hin) as (? & -> & ?). split; [done |].
           rewrite decide_False by done. by rewrite app_nil_r.
        -- destruct (Hgs _ g0 Hin) as (? & -> & ?). split; [done |].
           rewrite decide_True by done. split; [done |]. by intros [? ?]%app_eq_nil.
        -- split; [done |]. rewrite decide_True by done.
           assert (Hnil : filter (fun r0 => get by_ r0 = get by_ r) l = []);
             [| by rewrite Hnil].
           destruct (filter _ l) as [| x ?] eqn:E; [done |].
           assert (Hx : x ∈ filter (fun r0 => get by_ r0 = get by_ r) l) by (rewrite E; left).
           apply list_elem_of_filter in Hx as [Hkx Hx].
           destruct Hnin. rewrite <- Hkx. apply Hall; [done |]. by rewrite Hkx.
      * intros r' [Hin | ->%list_elem_of_singleton]%elem_of_app Hna'.
        -- rewrite group_add_by_keys. specialize (Hall r' Hin Hna').
           destruct (decide (get by_ r ∈ gs.*1)); [done |].
           apply elem_of_app. by left.
        -- rewrite group_add_by_keys.
           destruct (decide (get by_ r ∈ gs.*1)); [done |].
           apply elem_of_app. right. left.
Qed.

Lemma groupby_col_groups (rank : cell -> cell) (by_ : string) (l : list (gmap string cell)) :
  let gs := groupby_col rank by_ l in
  NoDup gs.*1 /\
  (forall k g, (k, g) ∈ gs ->
     k ≠ VNull /\ g = filter (fun r => get by_ r = k) l /\ g ≠ []) /\
  (forall r, r ∈ l -> get by_ r ≠ VNull -> get by_ r ∈ gs.*1) /\
  Sorted (fun a b => cell_ltb (rank b.1) (rank a.1) = false) gs.
Proof.
  cbv zeta. unfold groupby_col.
  destruct (foldl_group_step_by by_ l) as (Hnd & Hgs & Hall).
  pose proof (sort_values_perm (fun kg : cell * list (gmap string cell) => (rank kg.1, VNull))
                (foldl (group_step_by by_) [] l)) as Hp.
  split; [by rewrite Hp |]. split; [| split].
  - intros k g Hin. rewrite Hp in Hin. by apply Hgs.
  - intros r Hr Hna. rewrite Hp. by apply Hall.
  - eapply Sorted_weaken; [| apply sort_values_Sorted].
    intros a b. unfold key_le, key_ltb. cbn [fst snd].
    by intros [? _]%orb_false_elim.
Qed.

(** ** The group means *)

Lemma lookup_means (f : string -> cell) (cols : list string) (c : string) :
  (list_to_map ((fun c => (c, f c)) <$> cols) : gmap string cell) !! c
  = if bool_decide (c ∈ cols) then Some (f c) else None.
Proof.
  induction cols as [| x cols IH].
  - rewrite bool_decide_eq_false_2 by apply not_elem_of_nil. apply lookup_empty.
  - rewrite fmap_cons, list_to_map_cons. cbn [fst snd]. destruct (decide (c = x)) as [-> | Hne].
    + rewrite lookup_insert_eq, bool_decide_eq_true_2 by left. done.
    + rewrite lookup_insert_ne by done. rewrite IH.
      apply (f_equal (fun b : bool => if b then Some (f c) else None)).
      apply bool_decide_ext. rewrite elem_of_cons. tauto.
Qed.

Lemma get_mean_row_key (by_ : string) (cols : list string)
    (kg : cell * list (gmap string cell)) :
  get by_ (mean_row by_ cols kg) = kg.1.
Proof. unfold mean_row. apply get_insert_eq. Qed.

Lemma get_mean_row (by_ : string) (cols : list string)
    (kg : cell * list (gmap string cell)) (c : string) :
  c ∈ cols -> c ≠ by_ -> get c (mean_row by_ cols kg) = mean_of c kg.2.
Proof.
  intros Hc Hne. unfold mean_row. rewrite get_insert_ne by done.
  unfold get. by rewrite (lookup_means (fun c => mean_of c kg.2)), bool_decide_eq_true_2.
Qed.

Lemma col_mean_rows (by_ : string) (cols : list string)
    (gs : list (cell * list (gmap string cell))) :
  get by_ <$> (mean_row by_ cols <$> gs) = gs.*1.
Proof.
  induction gs as [| kg gs IH]; [done |].
  by rewrite !fmap_cons, get_mean_row_key, IH.
Qed.

Lemma mean_of_is_mean (c : string) (g : list (gmap string cell)) :
  is_mean_cell (mean_of c g) (omap as_number (get c <$> g)).
Proof.
  unfold mean_of, is_mean_cell. destruct (omap as_number (get c <$> g)) as [| q vs] eqn:E; [done |].
  destruct (mean (q :: vs)) as [m |] eqn:Em; [| done].
  exists m. split; [done |]. by apply mean_is_mean.
Qed.

Lemma filter_absent_nil (cols have : list string) :
  filter (fun c => c ∉ have) cols = [] <-> Forall (fun c => c ∈ have) cols.
Proof.
  induction cols as [| c cols IH]; [by split; [constructor |] |].
  rewrite filter_cons, Forall_cons. destruct (decide (c ∉ have)) as [Hn | Hin].
  - split; [done | by intros [? _]].
  - apply dec_stable in Hin. rewrite IH. tauto.
Qed.

Lemma existsb_strings (cols : list string) (frame : DataFrame) :
  Forall (fun c => has_col c frame = true -> existsb is_str (col c frame) = false) cols ->
  Forall (fun c => has_col c frame = true) cols ->
  existsb (fun c => existsb is_str (col c frame)) cols = false.
Proof.
  induction 1 as [| c cols Hc _ IH]; [done |]. intros [Hh Hall]%Forall_cons.
  cbn [existsb]. by rewrite Hc, IH.
Qed.

Lemma agg_mean_inr (rank : cell -> cell) (by_ : string) (cols : list string)
    (frame out : DataFrame) :
  agg_mean rank by_ cols frame = inr out ->
  out = mkDF (by_ :: cols) (mean_row by_ cols <$> groupby_col rank by_ (rows frame)) /\
  has_col by_ frame = true /\ Forall (fun c => has_col c frame = true) cols.
Proof.
  unfold agg_mean. destruct (has_col by_ frame); [| done]. cbn [negb].
  destruct (filter _ cols) as [| c ?] eqn:E; [| done].
  destruct (existsb _ cols); [done |]. intros [= <-]. repeat split.
  apply filter_absent_nil in E. eapply Forall_impl; [exact E |].
  intros c Hc. by apply bool_decide_eq_true_2.
Qed.

Lemma agg_mean_inr_iff (rank : cell -> cell) (by_ : string) (cols : list string)
    (frame : DataFrame) :
  Forall (fun c => has_col c frame = true -> existsb is_str (col c frame) = false) cols ->
  (exists out, agg_mean rank by_ cols frame = inr out) <->
  has_col by_ frame = true /\ Forall (fun c => has_col c frame = true) cols.
Proof.
  intros Hstr. split.
  - intros [out Hout]. by destruct (agg_mean_inr _ _ _ _ _ Hout) as (_ & ? & ?).
  - intros [Hby Hcols]. unfold agg_mean. rewrite Hby. cbn [negb].
    rewrite (proj2 (filter_absent_nil cols (columns frame))).
    + rewrite existsb_strings by done. eauto.
    + eapply Forall_impl; [exact Hcols |]. intros c Hc. by apply bool_decide_eq_true in Hc.
Qed.

(** X10. [groupmean] on a frame that is empty returns the empty frame with
    the key and the columns asked for, whatever the frame's columns are.
    On any other frame whose aggregated columns, where it has them, hold
    no string, it returns
    exactly when the frame has the key column and every column asked for,
    and raises otherwise. *)
Theorem groupmean_returns (frame : DataFrame) (by_ : string) (cols : list string) :
  (is_empty frame = true ->
   groupmean frame by_ cols = inr (empty_frame (by_ :: cols))) /\
  (is_empty frame = false ->
   Forall (fun c => has_col c frame = true -> existsb is_str (col c frame) = false) cols ->
   ((exists out, groupmean frame by_ cols = inr out) <->
    has_col by_ frame = true /\ Forall (fun c => has_col c frame = true) cols) /\
   ((exists e, groupmean frame by_ cols = inl e) <->
    ~ (has_col by_ frame = true /\ Forall (fun c => has_col c frame = true) cols))).
Proof.
  unfold groupmean. split; [by intros -> |]. intros -> Hstr.
  pose proof (agg_mean_inr_iff id by_ cols frame Hstr) as Hiff. split; [exact Hiff |].
  rewrite <- Hiff. destruct (agg_mean id by_ cols frame) as [e | out].
  - split; [| by eauto]. intros _ [out [=]].
  - split; [by intros [e [=]] |]. intros Hn. destruct Hn. eauto.
Qed.

(** X11. The table [groupmean] returns on a frame that is not empty: its
    columns are the key and the columns asked for; it has one row for each
    value of the key column that is not missing, in ascending order of the
    key; and in that row every aggregated column holds the arithmetic mean
    of the numbers the column has in the rows of that key, missing values
    skipped, or a missing value when there is no number. *)
Theorem groupmean_groups (frame : DataFrame) (by_ : string) (cols : list string)
    (out : DataFrame) :
  is_empty frame = false ->
  groupmean frame by_ cols = inr out ->
  columns out = by_ :: cols /\
  NoDup (col by_ out) /\
  Sorted (fun a b => cell_ltb (get by_ b) (get by_ a) = false) (rows out) /\
  (forall k, k ∈ col by_ out <-> k ≠ VNull /\ k ∈ col by_ frame) /\
  Forall (fun r => forall c, c ∈ cols -> c ≠ by_ ->
            is_mean_cell (get c r)
              (omap as_number (get c <$> filter (fun x => get by_ x = get by_ r) (rows frame))))
         (rows out).
Proof.
  unfold groupmean. intros -> Hout.
  destruct (agg_mean_inr _ _ _ _ _ Hout) as (-> & Hby & Hcols).
  destruct (groupby_col_groups id by_ (rows frame)) as (Hnd & Hgs & Hall & Hsort).
  unfold col. cbn [columns rows].
  change (map (get by_)) with (fmap (M := list) (get by_)). rewrite col_mean_rows.
  split; [done |]. split; [done |]. split; [| split].
  - apply (Sorted_fmap (fun a b : cell * list (gmap string cell) =>
                          cell_ltb (id b.1) (id a.1) = false)); [| done].
    intros a b. by rewrite !get_mean_row_key.
  - intros k. split.
    + intros ([k' g] & -> & Hin)%list_elem_of_fmap. cbn [fst].
      destruct (Hgs _ _ Hin) as (Hk & Hg & Hne). split; [done |].
      destruct g as [| x g]; [done |].
      assert (Hx : x ∈ filter (fun r => get by_ r = k') (rows frame)) by (rewrite <- Hg; left).
      apply list_elem_of_filter in Hx as [<- Hx]. apply list_elem_of_In, in_map.
      by apply list_elem_of_In.
    + intros [Hk Hin]. apply list_elem_of_In, in_map_iff in Hin as (r & <- & Hr).
      apply Hall; [by apply list_elem_of_In | done].
  - apply Forall_forall. intros r ([k g] & -> & Hin)%list_elem_of_fmap c Hc Hne.
    destruct (Hgs _ _ Hin) as (_ & Hg & _).
    rewrite get_mean_row_key, get_mean_row by done. cbn [fst snd]. rewrite <- Hg.
    apply mean_of_is_mean.
Qed.

(** X11, at an example table grouped by day. *)
Lemma groupmean_groups_witness :
  is_empty joined_missing_steps = false /\
  exists out, groupmean joined_missing_steps "date" ["TotalSteps"; "Calories"] = inr out /\
    columns out = ["date"; "TotalSteps"; "Calories"] /\ NoDup (col "date" out).
Proof.
  split; [vm_compute; reflexivity |].
  destruct (groupmean joined_missing_steps "date" ["TotalSteps"; "Calories"]) as [e | out] eqn:E;
    [vm_compute in E; discriminate E |].
  exists out. split; [reflexivity |].
  destruct (groupmean_groups joined_missing_steps "date" ["TotalSteps"; "Calories"] out)
    as (Hc & Hnd & _); [vm_compute; reflexivity | exact E |].
  split; [exact Hc | exact Hnd].
Defined.

(** ** Step segments *)

Lemma Qlt_bool_false (p q : Q) : Qlt_bool p q = false <-> (q <= p)%Q.
Proof. unfold Qlt_bool. rewrite negb_false_iff. apply Qle_bool_iff. Qed.

(** X12. The step bucket of a day: no bucket for a missing step count or
    one below -1; ["<5k"] from -1 to 5000 inclusive; ["5k-10k"] above 5000
    up to 10000 inclusive; [">10k"] above 10000. *)
Theorem cut_buckets (c : cell) :
  match as_number c with
  | None => cut bins labels c = VNull
  | Some x =>
    ((x < -1)%Q -> cut bins labels c = VNull) /\
    ((-1 <= x)%Q -> (x <= 5000)%Q -> cut bins labels c = VStr "<5k") /\
    ((5000 < x)%Q -> (x <= 10000)%Q -> cut bins labels c = VStr "5k-10k") /\
    ((10000 < x)%Q -> cut bins labels c = VStr ">10k")
  end.
Proof.
  unfold cut. destruct (as_number c) as [x |]; [| done].
  unfold searchsorted, bins. cbn [head from_option edge_eqb length].
  rewrite !filter_cons, filter_nil. cbn [edge_ltb].
  destruct (Qeq_bool (-1) x) eqn:E0;
    [apply Qeq_bool_iff in E0 | apply Qeq_bool_neq in E0];
  (destruct (Qlt_bool (-1) x) eqn:E1;
    [apply Qlt_bool_iff in E1 | apply Qlt_bool_false in E1]);
  (destruct (Qlt_bool 5000 x) eqn:E2;
    [apply Qlt_bool_iff in E2 | apply Qlt_bool_false in E2]);
  (destruct (Qlt_bool 10000 x) eqn:E3;
    [apply Qlt_bool_iff in E3 | apply Qlt_bool_false in E3]);
  repeat split; intros; first [reflexivity | exfalso; lra].
Qed.

(** X12, at a day of 5000 steps and a day of 5001. *)
Lemma cut_buckets_witness :
  cut bins labels (int 5000) = VStr "<5k" /\ cut bins labels (int 5001) = VStr "5k-10k".
Proof.
  split.
  - apply (proj1 (proj2 (cut_buckets (int 5000)))); vm_compute; discriminate.
  - apply (proj1 (proj2 (proj2 (cut_buckets (int 5001))))); [reflexivity | vm_compute; discriminate].
Defined.



Lemma sublist_fmap' {A B} (f : A -> B) (l1 l2 : list A) :
  l1 `sublist_of` l2 -> f <$> l1 `sublist_of` f <$> l2.
Proof. induction 1; rewrite ?fmap_cons; by constructor. Qed.

Lemma strict_sorted_sublist_seq (n a : nat) (l : list nat) :
  StronglySorted lt l -> Forall (fun x => (a <= x < a + n)%nat) l ->
  l `sublist_of` seq a n.
Proof.
  revert a l. induction n as [| n IH]; intros a l Hs Hall.
  - destruct Hall as [| x l Hx _]; [constructor | lia].
  - cbn [seq]. destruct Hs as [| x l Hs Hlt]; [apply sublist_nil_l |].
    apply Forall_cons in Hall as [Hx Hall].
    destruct (decide (x = a)) as [-> | Hne].
    + apply sublist_skip. apply IH; [done |].
      apply Forall_forall. intros y Hy.
      rewrite Forall_forall in Hall, Hlt. specialize (Hall y Hy). specialize (Hlt y Hy). lia.
    + apply sublist_cons. apply IH; [by constructor |].
      constructor; [lia |].
      apply Forall_forall. intros y Hy.
      rewrite Forall_forall in Hall, Hlt. specialize (Hall y Hy). specialize (Hlt y Hy). lia.
Qed.

Lemma StronglySorted_le_lt (l : list nat) :
  StronglySorted le l -> NoDup l -> StronglySorted lt l.
Proof.
  induction 1 as [| x l Hs IH Hle]; [constructor |].
  intros [Hx Hnd]%NoDup_cons. constructor; [by apply IH |].
  apply Forall_forall. intros y Hy. rewrite Forall_forall in Hle. specialize (Hle y Hy).
  assert (x ≠ y) by (by intros ->). lia.
Qed.

Lemma Sorted_fmap_in {A B} (R : A -> A -> Prop) (S : B -> B -> Prop) (f : A -> B) (l : list A) :
  (forall a b, a ∈ l -> b ∈ l -> R a b -> S (f a) (f b)) -> Sorted R l -> Sorted S (f <$> l).
Proof.
  intros HRS Hs. induction Hs as [| x l Hs IH Hhd]; [constructor |].
  rewrite fmap_cons. constructor.
  - apply IH. intros a b Ha Hb. apply HRS; by right.
  - destruct Hhd as [| y l' Hxy]; [constructor |]. rewrite fmap_cons. constructor.
    apply HRS; [left | right; left | done].
Qed.

(** The labels, their codes, and back. *)
Lemma labels_codes (k : cell) :
  k ∈ VStr <$> labels ->
  category_code labels k = VNum (inject_Z (Z.of_nat (bucket_code k))) /\
  (bucket_code k < 3)%nat /\
  k = VStr (nth (bucket_code k) labels "") /\
  k ≠ VNull /\
  (fun c => match c with VNum q => VNum (round1 q) | _ => c end) k = k.
Proof.
  revert k. apply Forall_forall. unfold labels. rewrite !fmap_cons, fmap_nil.
  repeat (apply List.Forall_cons; [repeat split; try (cbn; lia); try done |]).
  apply List.Forall_nil.
Qed.

Lemma cut_range (c : cell) :
  cut bins labels c = VNull \/ cut bins labels c ∈ VStr <$> labels.
Proof.
  unfold cut. destruct (as_number c) as [x |]; [| by left]. cbv zeta.
  destruct (_ || _); [by left |].
  destruct (labels !! _) as [s |] eqn:E; [| by left]. right. cbn [from_option].
  apply list_elem_of_fmap. exists s. split; [done |]. by eapply list_elem_of_lookup_2.
Qed.

Lemma add_steps_bucket_inr (dv dv' : DataFrame) :
  add_steps_bucket dv = inr dv' ->
  rows dv' = map (fun r => <["steps_bucket" := cut bins labels (get "TotalSteps" r)]> r) (rows dv) /\
  (forall c, has_col c dv' = has_col c dv || bool_decide (c = "steps_bucket")) /\
  (has_col "TotalSteps" dv = false -> rows dv = []).
Proof.
  unfold add_steps_bucket. destruct (has_col "TotalSteps" dv) eqn:E.
  - intros [= <-]. split; [| split; [| done]].
    + unfold col. rewrite map_map.
      apply (rows_assign_map _ (fun r => cut bins labels (get "TotalSteps" r))).
    + intros c. apply has_col_assign.
  - destruct (rows dv) as [| r l] eqn:Er; [| done]. intros [= <-]. split; [| split; [| done]].
    + rewrite rows_assign, Er. done.
    + intros c. apply has_col_assign.
Qed.

Lemma get_round_1 (c : string) (r : gmap string cell) :
  get c ((fun c => match c with VNum q => VNum (round1 q) | _ => c end) <$> r)
  = (fun c => match c with VNum q => VNum (round1 q) | _ => c end) (get c r).
Proof. unfold get. rewrite lookup_fmap. by destruct (r !! c). Qed.

(** X13. The segment table, when it is computed: its columns are the
    bucket and the four measures; its rows are the buckets that occur
    among the valid days, each once, in the order ["<5k"], ["5k-10k"],
    [">10k"] of the categories (not the order of the strings); a day
    without a bucket is in no segment; and each measure of a segment is
    the mean of the numbers the measure has on the days of that bucket,
    rounded to one decimal, or missing when there is no number.  The
    bucket of a day is that of its step count. *)
Theorem seg_buckets (dv dv' s : DataFrame) :
  add_steps_bucket dv = inr dv' -> seg dv' = inr s ->
  col "steps_bucket" dv' = map (cut bins labels) (col "TotalSteps" dv) /\
  columns s = "steps_bucket" :: SEG_COLUMNS /\
  col "steps_bucket" s `sublist_of` (VStr <$> labels) /\
  (forall b, b ∈ col "steps_bucket" s <-> b ≠ VNull /\ b ∈ col "steps_bucket" dv') /\
  Forall (fun r => forall c, c ∈ SEG_COLUMNS ->
            is_round1_mean_cell (get c r)
              (omap as_number
                 (get c <$> filter (fun x => get "steps_bucket" x = get "steps_bucket" r)
                                   (rows dv'))))
         (rows s).
Proof.
  intros Hb Hs. destruct (add_steps_bucket_inr _ _ Hb) as (Hrows & Hcols & Hnone).
  assert (Hcol : col "steps_bucket" dv' = map (cut bins labels) (col "TotalSteps" dv)).
  { unfold col. rewrite Hrows, !map_map. apply map_ext. intros r. apply get_insert_eq. }
  split; [exact Hcol |].
  unfold seg in Hs. unfold_monad.
  destruct (agg_mean _ _ _ dv') as [e | out] eqn:Eout; [done |]. injection Hs as <-.
  destruct (agg_mean_inr _ _ _ _ _ Eout) as (-> & _ & _).
  destruct (groupby_col_groups (category_code labels) "steps_bucket" (rows dv'))
    as (Hnd & Hgs & Hall & Hsort).
  set (gs := groupby_col (category_code labels) "steps_bucket" (rows dv')) in *.
  assert (Hrange : forall k g, (k, g) ∈ gs -> k ∈ VStr <$> labels).
  { intros k g Hin. destruct (Hgs k g Hin) as (Hk & Hg & Hne).
    destruct g as [| x g]; [done |].
    assert (Hx : x ∈ filter (fun r => get "steps_bucket" r = k) (rows dv')) by (rewrite <- Hg; left).
    apply list_elem_of_filter in Hx as [Hkx Hx].
    rewrite Hrows in Hx. apply list_elem_of_In, in_map_iff in Hx as (r & <- & _).
    rewrite get_insert_eq in Hkx. destruct (cut_range (get "TotalSteps" r)); congruence. }
  assert (Hkeys : col "steps_bucket" (round_1 (mkDF ("steps_bucket" :: SEG_COLUMNS)
                    (mean_row "steps_bucket" SEG_COLUMNS <$> gs))) = gs.*1).
  { unfold col, round_1. cbn [rows].
    assert (Hr : forall gs', Forall (fun kg : cell * list (gmap string cell) =>
                                       kg.1 ∈ VStr <$> labels) gs' ->
              map (get "steps_bucket")
                ((fun r : gmap string cell =>
                    (fun c => match c with VNum q => VNum (round1 q) | _ => c end) <$> r)
                   <$> (mean_row "steps_bucket" SEG_COLUMNS <$> gs')) = gs'.*1).
    { induction 1 as [| kg gs' Hkg _ IH]; [done |].
      rewrite !fmap_cons. cbn [map]. rewrite get_round_1, get_mean_row_key.
      f_equal; [| exact IH]. by apply labels_codes. }
    apply Hr. apply Forall_forall. intros [k g] Hin. by apply (Hrange k g). }
  split; [done |]. rewrite Hkeys. split; [| split].
  - assert (Hcodes : StronglySorted lt (bucket_code <$> gs.*1)).
    { apply StronglySorted_le_lt.
      - apply Sorted_StronglySorted; [intros x y z; lia |].
        rewrite <- list_fmap_compose.
        apply (Sorted_fmap_in (fun a b : cell * list (gmap string cell) =>
                  cell_ltb (category_code labels b.1) (category_code labels a.1) = false));
          [| done].
        intros [ka ga] [kb gb] Ha Hb'. cbn [fst compose].
        destruct (labels_codes ka (Hrange _ _ Ha)) as (-> & _).
        destruct (labels_codes kb (Hrange _ _ Hb')) as (-> & _).
        cbn [cell_ltb]. rewrite Qlt_bool_false. unfold Qle. cbn. lia.
      - apply NoDup_fmap_2_strong; [| done].
        intros x y ([? gx] & -> & Hx)%list_elem_of_fmap ([? gy] & -> & Hy)%list_elem_of_fmap Heq.
        cbn [fst] in *.
        destruct (labels_codes _ (Hrange _ _ Hx)) as (_ & _ & Hex & _).
        destruct (labels_codes _ (Hrange _ _ Hy)) as (_ & _ & Hey & _).
        rewrite Hex, Hey. by rewrite Heq. }
    assert (Hback : gs.*1 = (fun i => VStr (nth i labels "")) <$> (bucket_code <$> gs.*1)).
    { rewrite <- list_fmap_compose. rewrite <- (list_fmap_id gs.*1) at 1.
      apply Forall_fmap_ext_1, Forall_forall.
      intros k ([? g] & -> & Hin)%list_elem_of_fmap. cbn [fst compose id].
      by destruct (labels_codes _ (Hrange _ _ Hin)) as (_ & _ & ? & _). }
    rewrite Hback.
    change (VStr <$> labels) with ((fun i => VStr (nth i labels "")) <$> seq 0 3).
    apply sublist_fmap', strict_sorted_sublist_seq; [done |].
    apply Forall_forall.
    intros i (k & -> & ([? g] & -> & Hin)%list_elem_of_fmap)%list_elem_of_fmap. cbn [fst].
    destruct (labels_codes _ (Hrange _ _ Hin)) as (_ & ? & _). lia.
  - intros b. split.
    + intros ([k g] & -> & Hin)%list_elem_of_fmap. cbn [fst].
      destruct (Hgs _ _ Hin) as (Hk & Hg & Hne). split; [done |].
      destruct g as [| x g]; [done |].
      assert (Hx : x ∈ filter (fun r => get "steps_bucket" r = k) (rows dv'))
        by (rewrite <- Hg; left).
      apply list_elem_of_filter in Hx as [<- Hx]. apply list_elem_of_In, in_map.
      by apply list_elem_of_In.
    + intros [Hk Hin]. apply list_elem_of_In, in_map_iff in Hin as (r & <- & Hr).
      apply Hall; [by apply list_elem_of_In | done].
  - unfold round_1. cbn [rows]. apply Forall_forall.
    intros r (r0 & -> & ([k g] & -> & Hin)%list_elem_of_fmap)%list_elem_of_fmap c Hc.
    destruct (Hgs _ _ Hin) as (_ & Hg & _).
    assert (Hne : c ≠ "steps_bucket").
    { revert c Hc. apply Forall_forall. unfold SEG_COLUMNS.
      repeat (apply List.Forall_cons; [done |]). apply List.Forall_nil. }
    rewrite !get_round_1, get_mean_row_key, get_mean_row by done. cbn [fst snd].
    destruct (labels_codes _ (Hrange _ _ Hin)) as (_ & _ & _ & _ & ->).
    rewrite <- Hg. unfold mean_of, is_round1_mean_cell.
    destruct (omap as_number (get c <$> g)) as [| q vs] eqn:E; [done |].
    destruct (mean (q :: vs)) as [m |] eqn:Em; [| done].
    exists m, (round1 m). split; [by apply mean_is_mean |]. split; [apply round1_is_round1 | done].
Qed.



(** The segments of the example days, in category order. *)
Example seg_example :
  (fun s => (fun r => (get "steps_bucket" r, get "Calories" r, get "TotalMinutesAsleep" r,
                       get "AvgHR" r)) <$> rows s)
    <$> (add_steps_bucket valid_days ≫= seg)
  = inr [(VStr "<5k", VNum (3801 # 2), int 400, int 80);
         (VStr "5k-10k", int 2200, int 420, int 75);
         (VStr ">10k", int 1985, int 327, VNum (701 # 10))].
Proof. vm_compute. reflexivity. Qed.

(** X13, at the example days. *)
Lemma seg_buckets_witness :
  exists dv' s, add_steps_bucket valid_days = inr dv' /\ seg dv' = inr s /\
    col "steps_bucket" s `sublist_of` (VStr <$> labels).
Proof.
  destruct (add_steps_bucket valid_days) as [e | dv'] eqn:E1; [vm_compute in E1; discriminate E1 |].
  assert (Hok : match seg dv' with inr _ => true | inl _ => false end = true).
  { vm_compute in E1. injection E1 as <-. vm_compute. reflexivity. }
  destruct (seg dv') as [e | s] eqn:E2; [discriminate Hok |].
  exists dv', s. split; [reflexivity |]. split; [exact E2 |].
  exact (proj1 (proj2 (proj2 (seg_buckets valid_days dv' s E1 E2)))).
Defined.

(** ** The aggregation stage as a whole *)

Lemma is_empty_rows (dv : DataFrame) (c : string) :
  has_col c dv = true -> is_empty dv = true <-> rows dv = [].
Proof.
  unfold has_col, is_empty. intros Hc%bool_decide_eq_true.
  destruct (rows dv), (columns dv); try done. by apply elem_of_nil in Hc.
Qed.

Lemma groupmean_inr_iff (frame : DataFrame) (by_ : string) (cols : list string) :
  has_col by_ frame = true ->
  Forall (fun c => has_col c frame = true -> existsb is_str (col c frame) = false) cols ->
  (exists out, groupmean frame by_ cols = inr out) <->
  rows frame = [] \/ Forall (fun c => has_col c frame = true) cols.
Proof.
  intros Hby Hstr. unfold groupmean. destruct (is_empty frame) eqn:Eem.
  - apply (is_empty_rows frame by_ Hby) in Eem. split; [by left | by eauto].
  - rewrite (agg_mean_inr_iff id by_ cols frame Hstr). split; [intros [_ ?]; by right |].
    intros [Hnil | Hall]; [| done].
    apply (is_empty_rows frame by_ Hby) in Hnil. congruence.
Qed.

Lemma aggregations_inr_iff (dv : DataFrame) :
  has_col "date" dv = true -> has_col "weekday" dv = true ->
  Forall (fun c => has_col c dv = true -> existsb is_str (col c dv) = false) mean_columns ->
  (exists a, aggregations dv = inr a) <-> aggregable dv.
Proof.
  intros Hdate Hweek Hstr.
  assert (Hsub1 : forall c, c ∈ ["TotalSteps"; "Calories"; "TotalMinutesAsleep"; "AvgHR"] ->
                            c ∈ mean_columns).
  { apply Forall_forall. repeat (apply List.Forall_cons; [decide_in |]). apply List.Forall_nil. }
  assert (Hsub2 : forall c, c ∈ SEG_COLUMNS -> c ∈ mean_columns /\ c ≠ "steps_bucket").
  { apply Forall_forall. unfold SEG_COLUMNS.
    repeat (apply List.Forall_cons; [split; [decide_in | done] |]). apply List.Forall_nil. }
  assert (Hsteps : "TotalSteps" ∈ mean_columns) by decide_in.
  pose proof (groupmean_inr_iff dv "date" mean_columns Hdate Hstr) as Hg1.
  assert (Hstr2 : Forall (fun c => has_col c dv = true -> existsb is_str (col c dv) = false)
                    ["TotalSteps"; "Calories"; "TotalMinutesAsleep"; "AvgHR"]).
  { rewrite Forall_forall in Hstr. apply Forall_forall. intros c Hc. by apply Hstr, Hsub1. }
  pose proof (groupmean_inr_iff dv "weekday" _ Hweek Hstr2) as Hg2.
  rewrite Forall_forall in Hstr.
  unfold aggregations, agg_by_date, agg_by_weekday. unfold_monad.
  change ["TotalSteps"; "Calories"; "SedentaryMinutes"; "VeryActiveMinutes";
          "LightlyActiveMinutes"; "TotalMinutesAsleep"; "AvgHR"] with mean_columns.
  split.
  - intros [a Ha].
    destruct (groupmean dv "date" mean_columns) as [e | o1] eqn:E1; [done |].
    destruct (groupmean dv "weekday" _) as [e | o2] eqn:E2; [done |].
    destruct (add_steps_bucket dv) as [e | dv'] eqn:E3; [done |].
    destruct (seg dv') as [e | s] eqn:E4; [done |].
    destruct (add_steps_bucket_inr _ _ E3) as (_ & Hcols & _).
    unfold seg in E4. unfold_monad.
    destruct (agg_mean _ _ _ dv') as [e | o] eqn:E5; [done |].
    destruct (agg_mean_inr _ _ _ _ _ E5) as (_ & _ & Hall).
    split; [| apply Hg1; by eauto].
    apply Forall_forall. intros c Hc. rewrite Forall_forall in Hall.
    specialize (Hall c Hc). rewrite Hcols in Hall.
    destruct (Hsub2 c Hc) as [_ Hne].
    by rewrite (bool_decide_eq_false_2 _ Hne), orb_false_r in Hall.
  - intros [Hseg Hmean]. rewrite Forall_forall in Hseg.
    destruct (proj2 Hg1 Hmean) as [o1 ->].
    assert (Hmean2 : rows dv = [] \/
              Forall (fun c => has_col c dv = true)
                     ["TotalSteps"; "Calories"; "TotalMinutesAsleep"; "AvgHR"]).
    { destruct Hmean as [Hnil | Hall]; [by left | right].
      rewrite Forall_forall in Hall. apply Forall_forall. intros c Hc. by apply Hall, Hsub1. }
    destruct (proj2 Hg2 Hmean2) as [o2 ->].
    assert (H3 : exists dv', add_steps_bucket dv = inr dv').
    { unfold add_steps_bucket. destruct (has_col "TotalSteps" dv) eqn:Ets; [by eauto |].
      destruct Hmean as [-> | Hall]; [by eauto |].
      rewrite Forall_forall in Hall. rewrite (Hall _ Hsteps) in Ets. done. }
    destruct H3 as [dv' E3]. rewrite E3.
    destruct (add_steps_bucket_inr _ _ E3) as (Hrows & Hcols & _).
    assert (H4 : exists o, agg_mean (category_code labels) "steps_bucket" SEG_COLUMNS dv' = inr o).
    { apply agg_mean_inr_iff.
      - apply Forall_forall. intros c Hc _. destruct (Hsub2 c Hc) as [Hm Hne].
        replace (col c dv') with (col c dv); [by apply Hstr; [| apply Hseg] |].
        unfold col. rewrite Hrows, map_map. apply map_ext. intros r.
        by rewrite get_insert_ne.
      - split.
        + rewrite Hcols, (bool_decide_eq_true_2 ("steps_bucket" = "steps_bucket")) by done.
          apply orb_true_r.
        + apply Forall_forall. intros c Hc. by rewrite Hcols, (Hseg c Hc). }
    destruct H4 as [o Ho]. unfold seg. unfold_monad. rewrite Ho. eauto.
Qed.

Lemma has_col_post_other (df0 : DataFrame) (c : string) `{Pandas} :
  c ∉ ["weekday"; "zero_step_high_cal"; "valid_row"] ->
  has_col c (qc_flags (add_weekday (coerce_num_cols df0))) = has_col c df0.
Proof.
  intros Hc. unfold qc_flags. cbv zeta. rewrite !has_col_assign.
  rewrite (bool_decide_eq_false_2 (c = "valid_row")),
    (bool_decide_eq_false_2 (c = "zero_step_high_cal")), !orb_false_r.
  - unfold add_weekday. destruct (has_col "date" _).
    + rewrite has_col_assign, (bool_decide_eq_false_2 (c = "weekday")), orb_false_r.
      * unfold has_col. by rewrite (proj1 (coerce_num_cols_rows df0)).
      * intros ->. apply Hc. left.
    + unfold has_col. by rewrite (proj1 (coerce_num_cols_rows df0)).
  - intros ->. apply Hc. right; left.
  - intros ->. apply Hc. right; right; left.
Qed.

Section Stage.
Context `{Pandas}.

Lemma main_valid_frame (fs : FileSystem) (out out' : list string) (g : Globals) :
  main fs out = (inr g, out') ->
  has_col "date" (g_df_valid g) = true /\ has_col "weekday" (g_df_valid g) = true /\
  Forall (fun c => has_col c (g_df_valid g) = true ->
                   existsb is_str (col c (g_df_valid g)) = false) mean_columns /\
  columns (g_df_valid g) = columns (g_df g).
Proof.
  intros Hmain.
  destruct (main_stages _ _ _ _ Hmain) as (daily0 & sleep0 & df0 & _ & _ & _ & Hm & Hdf & Hdv).
  destruct (merge_chain_last _ _ _ _ Hm) as [df1 Hm1].
  destruct (merge_inr _ _ _ Hm1) as (_ & Hd1 & _).
  assert (Hd0 : has_col "date" df0 = true).
  { by rewrite (has_col_merge _ _ _ _ Hm1), Hd1. }
  assert (Hcols : columns (g_df_valid g) = columns (g_df g)) by (by rewrite Hdv).
  assert (Hhas : forall c, has_col c (g_df_valid g) = has_col c (g_df g)).
  { intros c. unfold has_col. by rewrite Hcols. }
  split; [| split; [| split; [| done]]].
  - rewrite Hhas, Hdf. by apply has_col_post.
  - rewrite Hhas, Hdf. unfold qc_flags. cbv zeta. rewrite !has_col_assign.
    unfold add_weekday.
    assert (Hdc : has_col "date" (coerce_num_cols df0) = true).
    { unfold has_col. by rewrite (proj1 (coerce_num_cols_rows df0)). }
    rewrite Hdc, has_col_assign.
    rewrite (bool_decide_eq_true_2 ("weekday" = "weekday")) by done.
    by rewrite orb_true_r.
  - assert (Hmc : forall c, c ∈ mean_columns ->
              (c ∉ ["weekday"; "zero_step_high_cal"; "valid_row"]) /\ c ∈ num_cols).
    { apply Forall_forall. unfold mean_columns.
      repeat (apply List.Forall_cons; [decide_in |]). apply List.Forall_nil. }
    apply Forall_forall. intros c Hc Hh. destruct (Hmc c Hc) as [Hn1 Hn2].
    rewrite Hhas, Hdf, has_col_post_other in Hh by done.
    rewrite Hdv. unfold valid_rows, col. cbn [rows]. rewrite Hdf.
    pose proof (post_rows df0) as Hpost.
    assert (Hall : Forall (fun r => is_str (get c r) = false)
                     (rows (qc_flags (add_weekday (coerce_num_cols df0))))).
    { apply Forall_forall. intros r Hr. apply list_elem_of_lookup in Hr as [i Hi].
      destruct (Forall2_lookup_r _ _ _ _ _ Hpost Hi) as (o & _ & Ho).
      rewrite (Ho c Hn1), (bool_decide_eq_true_2 _ Hn2), Hh. cbn [andb].
      unfold coerce_cell. by destruct (numeric_of_cell (get c o)) as [[z | q] |]. }
    clear Hpost. induction Hall as [| r l Hr _ IH]; [done |].
    rewrite filter_cons. destruct (decide _); [| exact IH].
    cbn [map existsb]. by rewrite Hr, IH.
Qed.

Lemma script_stage (fs : FileSystem) (out out' : list string) (g : Globals) :
  main fs out = (inr g, out') ->
  script fs out = match aggregations (g_df_valid g) with
                  | inr a => (inr (g, a), out')
                  | inl e => (inl e, out')
                  end.
Proof.
  intros Hmain. unfold script. unfold_monad. rewrite Hmain.
  by destruct (aggregations (g_df_valid g)).
Qed.

Lemma script_inr (fs : FileSystem) (out out' : list string) (g : Globals) (a : Aggregates) :
  script fs out = (inr (g, a), out') -> main fs out = (inr g, out').
Proof.
  unfold script. unfold_monad. destruct (main fs out) as [[e | g'] o]; [done |].
  destruct (aggregations (g_df_valid g')); [done |]. by intros [= -> _ ->].
Qed.

(** X14. Once the joined table is built, lines 134-164 run through
    exactly when the valid table has the four measures of the segments
    and, unless it has no row, every column a mean is taken of; otherwise
    the script stops on an exception there, with nothing more printed. *)
Theorem script_returns_iff (fs : FileSystem) (out out' : list string) (g : Globals) :
  main fs out = (inr g, out') ->
  ((exists a, script fs out = (inr (g, a), out')) <-> aggregable (g_df_valid g)) /\
  ((exists e, script fs out = (inl e, out')) <-> ~ aggregable (g_df_valid g)).
Proof.
  intros Hmain. destruct (main_valid_frame _ _ _ _ Hmain) as (Hd & Hw & Hstr & _).
  pose proof (aggregations_inr_iff _ Hd Hw Hstr) as Hiff.
  rewrite (script_stage _ _ _ _ Hmain). rewrite <- Hiff.
  destruct (aggregations (g_df_valid g)) as [e | a].
  - split; split.
    + by intros [a [=]].
    + by intros [a [=]].
    + intros _ [a [=]].
    + eauto.
  - split; split.
    + eauto.
    + intros _. eauto.
    + by intros [e [=]].
    + intros Hn. destruct Hn. eauto.
Qed.

(** X15. Without the minutes asleep the script cannot finish: when no
    sleep table is loaded, or the one loaded has no [TotalMinutesAsleep]
    column, a run that builds the joined table always stops on an
    exception in the aggregations. *)
Theorem script_needs_sleep_minutes (fs : FileSystem) (out out' : list string) (g : Globals) :
  main fs out = (inr g, out') ->
  (forall s, g_sleep g = Some s -> has_col "TotalMinutesAsleep" s = false) ->
  exists e, script fs out = (inl e, out').
Proof.
  intros Hmain Hsleep.
  destruct (main_valid_frame _ _ _ _ Hmain) as (Hd & Hw & Hstr & Hcols).
  destruct (main_stages _ _ _ _ Hmain) as (daily0 & sleep0 & df0 & _ & _ & Hhr & Hm & Hdf & _).
  pose proof (hr_day_columns _ _ Hhr) as Hhrc.
  assert (Htma : has_col "TotalMinutesAsleep" (g_df_valid g) = false).
  { unfold has_col. rewrite Hcols. fold (has_col "TotalMinutesAsleep" (g_df g)).
    rewrite Hdf, has_col_post_other by decide_in.
    revert Hm. unfold merge_chain. unfold_monad.
    set (left0 := match g_daily g with
                  | Some d => project (safe_cols (g_daily g) keep) d
                  | None => empty_frame keep
                  end).
    assert (Hl : has_col "TotalMinutesAsleep" left0 = false).
    { unfold left0. destruct (g_daily g) as [d |]; [| done].
      rewrite has_col_project. apply bool_decide_eq_false_2.
      intros [Hin _]%has_col_safe_cols. revert Hin. decide_in. }
    assert (Hh : has_col "TotalMinutesAsleep" (g_hr_day g) = false).
    { unfold has_col. by rewrite Hhrc. }
    destruct (g_sleep g) as [s |] eqn:Es.
    - destruct (merge left0 _) as [e | df1] eqn:Hm1; [done |]. intros Hm2.
      rewrite (has_col_merge _ _ _ _ Hm2), (has_col_merge _ _ _ _ Hm1), Hl, Hh.
      rewrite has_col_project, bool_decide_eq_false_2; [done |].
      intros [_ Hc]%has_col_safe_cols. by rewrite (Hsleep s) in Hc.
    - intros Hm2. by rewrite (has_col_merge _ _ _ _ Hm2), Hl, Hh. }
  rewrite (script_stage _ _ _ _ Hmain).
  destruct (aggregations (g_df_valid g)) as [e | a] eqn:Ea; [by eauto |].
  assert (Hagg : aggregable (g_df_valid g)).
  { apply (aggregations_inr_iff _ Hd Hw Hstr). eauto. }
  destruct Hagg as [Hseg _]. rewrite Forall_forall in Hseg.
  rewrite (Hseg "TotalMinutesAsleep") in Htma; [done | decide_in].
Qed.

End Stage.

(** ** The script and its output *)

Lemma appends_ret {A} (a : A) : appends (mret a).
Proof. intros out. unfold_monad. cbn. by rewrite app_nil_r. Qed.

Lemma appends_lift {A} (r : Res A) : appends (lift r).
Proof. intros out. unfold lift. cbn. by rewrite app_nil_r. Qed.

Lemma appends_log (msg : string) : appends (log msg).
Proof. intros out. unfold log. done. Qed.

Lemma appends_bind {A B} (m : M A) (f : A -> M B) :
  appends m -> (forall a, appends (f a)) -> appends (m ≫= f).
Proof.
  intros Hm Hf out. unfold_monad. rewrite (Hm out).
  destruct (m []) as [[e | a] o]; cbn [fst snd]; [done |].
  rewrite (Hf a (out ++ o)), (Hf a o). cbn [fst snd]. by rewrite app_assoc.
Qed.

Lemma appends_read_csv_safe (fs : FileSystem) (path : string) :
  appends (read_csv_safe fs path).
Proof.
  unfold read_csv_safe. destruct (negb _).
  - apply appends_bind; [apply appends_log | intros; apply appends_ret].
  - destruct (pd_read_csv fs path); [| apply appends_ret].
    apply appends_bind; [apply appends_log | intros; apply appends_ret].
Qed.

Lemma appends_warn_not_loaded (name : string) (df : option DataFrame) :
  appends (warn_not_loaded name df).
Proof. destruct df; [apply appends_ret | apply appends_log]. Qed.

Section Output.
Context `{Pandas}.

Lemma appends_parse_heart (heart : option DataFrame) : appends (parse_heart heart).
Proof.
  unfold parse_heart. destruct heart as [d |]; [| apply appends_ret].
  destruct (time_col d); [apply appends_ret |].
  apply appends_bind; [apply appends_log | intros; apply appends_ret].
Qed.

Lemma appends_main (fs : FileSystem) : appends (main fs).
Proof.
  unfold main.
  repeat first
    [ apply appends_ret | apply appends_lift | apply appends_log
    | apply appends_read_csv_safe | apply appends_warn_not_loaded | apply appends_parse_heart
    | (apply appends_bind; [| intros ?]) ].
Qed.

Lemma appends_script (fs : FileSystem) : appends (script fs).
Proof.
  unfold script. apply appends_bind; [apply appends_main | intros g].
  apply appends_bind; [apply appends_lift | intros a; apply appends_ret].
Qed.

Lemma read_csv_safe_missing (fs : FileSystem) (path : string) :
  path_exists fs path = false -> read_csv_safe fs path = read_csv_safe no_files path.
Proof. intros Hno. unfold read_csv_safe. by rewrite Hno. Qed.

Lemma main_missing (fs : FileSystem) :
  path_exists fs DAILY_CSV = false -> path_exists fs SLEEP_CSV = false ->
  path_exists fs WEIGHT_CSV = false -> path_exists fs HEART_CSV = false ->
  main fs = main no_files.
Proof.
  intros Hd Hs Hw Hh. unfold main.
  by rewrite (read_csv_safe_missing fs DAILY_CSV Hd), (read_csv_safe_missing fs SLEEP_CSV Hs),
    (read_csv_safe_missing fs WEIGHT_CSV Hw), (read_csv_safe_missing fs HEART_CSV Hh).
Qed.

End Output.

Section NoFiles.
Context `{Pandas}.

Lemma script_missing (fs : FileSystem) :
  path_exists fs DAILY_CSV = false -> path_exists fs SLEEP_CSV = false ->
  path_exists fs WEIGHT_CSV = false -> path_exists fs HEART_CSV = false ->
  script fs = script no_files.
Proof. intros Hd Hs Hw Hh. unfold script. by rewrite (main_missing fs Hd Hs Hw Hh). Qed.

(** X16. With none of the four export files at its path, whatever else
    the file system holds (the output directories of line 18, other
    files): the script prints the four missing-file lines, the four
    warnings and the two row counts after what was printed before, builds
    an empty joined table with the activity and heart-rate columns, the
    weekday and the two flags, but no [TotalMinutesAsleep], and then stops
    on an exception in the aggregations, before anything is saved. *)
Theorem script_without_files (fs : FileSystem) (out : list string) :
  path_exists fs DAILY_CSV = false -> path_exists fs SLEEP_CSV = false ->
  path_exists fs WEIGHT_CSV = false -> path_exists fs HEART_CSV = false ->
  (exists g, main fs out = (inr g, out ++ no_files_log) /\
     rows (g_df g) = [] /\ rows (g_hr_day g) = [] /\
     columns (g_df g) = keep ++ hr_measures ++ ["weekday"; "zero_step_high_cal"; "valid_row"]) /\
  (exists e, script fs out = (inl e, out ++ no_files_log)).
Proof.
  intros Hd Hs Hw Hh.
  rewrite (main_missing fs Hd Hs Hw Hh), (script_missing fs Hd Hs Hw Hh). clear Hd Hs Hw Hh.
  rewrite (appends_main no_files out), (appends_script no_files out).
  assert (Hm : (fun r : Res Globals * list string =>
                  match r.1 with
                  | inr g => (true, rows (g_df g), rows (g_hr_day g), columns (g_df g), r.2)
                  | inl _ => (false, [], [], [], [])
                  end) (main no_files [])
               = (true, [], [],
                  keep ++ hr_measures ++ ["weekday"; "zero_step_high_cal"; "valid_row"],
                  no_files_log)) by (vm_compute; reflexivity).
  assert (Hs : (fun r : Res (Globals * Aggregates) * list string =>
                  match r.1 with inr _ => (false, []) | inl _ => (true, r.2) end)
                 (script no_files [])
               = (true, no_files_log)) by (vm_compute; reflexivity).
  cbv beta in Hm, Hs. split.
  - destruct (main no_files []) as [[e | g] o]; cbn [fst snd] in *; [discriminate Hm |].
    injection Hm as Hr Hh Hc Ho. exists g. rewrite Ho.
    split; [reflexivity |]. split; [exact Hr |]. split; [exact Hh | exact Hc].
  - destruct (script no_files []) as [[e | ga] o]; cbn [fst snd] in *; [| discriminate Hs].
    injection Hs as Ho. exists e. rewrite Ho. reflexivity.
Qed.

End NoFiles.

(** X16, at a file system that holds the output directories and another
    file, but no export. *)
Lemma script_without_files_witness :
  path_exists no_exports "files/fitness_result/plots" = true /\
  exists e, @script parsers no_exports [] = (inl e, no_files_log).
Proof.
  split; [reflexivity |].
  destruct (@script_without_files parsers no_exports []) as [_ [e He]]; [reflexivity .. |].
  exists e. exact He.
Defined.

(** A whole run on the example exports: the zero-step day with the
    highest calories is dropped, and the two other days fall in two
    segments. *)
Example script_example :
  let run := @script parsers (files daily_full sleep_csv weight_csv heart_csv) [] in
  ((fun ga => col "steps_bucket" (a_df_valid ga.2)) <$> run.1) = inr [VStr ">10k"; VStr "<5k"] /\
  ((fun ga => (fun r => (get "steps_bucket" r, get "Calories" r, get "TotalMinutesAsleep" r))
                <$> rows (a_seg ga.2)) <$> run.1)
    = inr [(VStr "<5k", int 1800, VNull); (VStr ">10k", int 1985, int 327)] /\
  ((fun ga => (fun r => (get "weekday" r, get "TotalSteps" r, get "AvgHR" r))
                <$> rows (a_agg_by_weekday ga.2)) <$> run.1)
    = inr [(VStr "Tuesday", int 13162, int 70); (VStr "Wednesday", int 3000, VNull)] /\
  run.2 = ["[Fitbit-EDA] hr_day rows: 2"; "[Fitbit-EDA] df_valid rows: 2"].
Proof. vm_compute. repeat split. Qed.

(** X14, at the example exports. *)
Lemma script_returns_iff_witness :
  exists g a out,
    @script parsers (files daily_full sleep_csv weight_csv heart_csv) [] = (inr (g, a), out) /\
    aggregable (g_df_valid g).
Proof.
  assert (Hok : match (@script parsers (files daily_full sleep_csv weight_csv heart_csv) []).1
                with inr _ => true | inl _ => false end = true) by (vm_compute; reflexivity).
  destruct (@script parsers (files daily_full sleep_csv weight_csv heart_csv) [])
    as [[e | [g a]] out] eqn:E; [discriminate Hok |].
  exists g, a, out. split; [reflexivity |].
  pose proof (@script_inr parsers _ _ _ _ _ E) as Hmain.
  apply (proj1 (proj1 (@script_returns_iff parsers _ _ _ _ Hmain))). by exists a.
Defined.

(** X15, at a sleep export without the minutes asleep. *)
Lemma script_needs_sleep_minutes_witness :
  exists g out e,
    @main parsers (files daily_full sleep_csv_no_minutes weight_csv heart_csv) [] = (inr g, out) /\
    @script parsers (files daily_full sleep_csv_no_minutes weight_csv heart_csv) [] = (inl e, out).
Proof.
  assert (Hok : match (@main parsers (files daily_full sleep_csv_no_minutes weight_csv heart_csv)
                         []).1
                with
                | inr g => match g_sleep g with
                           | Some s => negb (has_col "TotalMinutesAsleep" s)
                           | None => true
                           end
                | inl _ => false
                end = true) by (vm_compute; reflexivity).
  destruct (@main parsers (files daily_full sleep_csv_no_minutes weight_csv heart_csv) [])
    as [[e | g] out] eqn:E; cbn [fst] in Hok; [discriminate Hok |].
  destruct (@script_needs_sleep_minutes parsers _ _ _ _ E) as [e He].
  - intros s Hs. rewrite Hs in Hok. by apply negb_true_iff.
  - exists g, out, e. split; [reflexivity | exact He].
Defined.

(** ** What a run depends on *)

Lemma read_csv_safe_loaded (fs : FileSystem) (path : string) (out : list string) :
  exists out', read_csv_safe fs path out = (inr (loaded fs path), out').
Proof.
  unfold read_csv_safe, loaded. unfold_monad. destruct (path_exists fs path); cbn [negb].
  - destruct (pd_read_csv fs path); cbn; eauto.
  - cbn. eauto.
Qed.

Lemma warn_not_loaded_inr (name : string) (df : option DataFrame) (out : list string) :
  exists out', warn_not_loaded name df out = (inr tt, out').
Proof. unfold warn_not_loaded, log. unfold_monad. destruct df; eauto. Qed.

Section Depends.
Context `{Pandas}.

Lemma parse_heart_dated (heart : option DataFrame) (out : list string) :
  exists out', parse_heart heart out = (inr (heart_dated heart), out').
Proof.
  unfold parse_heart, heart_dated, log. unfold_monad. destruct heart as [d |]; [| by eauto].
  destruct (time_col d); eauto.
Qed.

(** The result of a run is a function of the four tables read; what is
    printed plays no part in it. *)
Lemma main_analysis (fs : FileSystem) (out : list string) :
  (main fs out).1 = analysis (loaded fs DAILY_CSV) (loaded fs SLEEP_CSV)
                             (loaded fs WEIGHT_CSV) (loaded fs HEART_CSV).
Proof.
  unfold main, analysis. unfold_monad.
  destruct (read_csv_safe_loaded fs DAILY_CSV out) as [o1 ->].
  destruct (read_csv_safe_loaded fs SLEEP_CSV o1) as [o2 ->].
  destruct (read_csv_safe_loaded fs WEIGHT_CSV o2) as [o3 ->].
  destruct (read_csv_safe_loaded fs HEART_CSV o3) as [o4 ->].
  destruct (warn_not_loaded_inr "daily" (loaded fs DAILY_CSV) o4) as [o5 ->].
  destruct (warn_not_loaded_inr "sleep" (loaded fs SLEEP_CSV) o5) as [o6 ->].
  destruct (warn_not_loaded_inr "weight" (loaded fs WEIGHT_CSV) o6) as [o7 ->].
  destruct (warn_not_loaded_inr "heart" (loaded fs HEART_CSV) o7) as [o8 ->].
  destruct (norm_id (loaded fs DAILY_CSV)) as [e | d]; [done |].
  destruct (norm_id (loaded fs SLEEP_CSV)) as [e | s]; [done |].
  destruct (norm_id (loaded fs WEIGHT_CSV)) as [e | w]; [done |].
  destruct (norm_id (loaded fs HEART_CSV)) as [e | h]; [done |].
  destruct (parse_heart_dated h o8) as [o9 ->].
  destruct (hr_day (heart_dated h)) as [e | hr]; [done |].
  destruct (merge_chain _ _ hr) as [e | df]; done.
Qed.

Lemma dedupe_Some_cols (x : option DataFrame) (x0 : DataFrame) :
  x = Some x0 -> exists x', dedupe x = Some x' /\ forall c, has_col c x' = has_col c x0.
Proof. intros ->. unfold dedupe. destruct (_ && _); eauto. Qed.

Lemma merge_chain_inr_cols (daily sleep : option DataFrame) (hr df : DataFrame) :
  merge_chain daily sleep hr = inr df ->
  (forall d, daily = Some d -> has_col "Id" d = true /\ has_col "date" d = true) /\
  (forall s, sleep = Some s -> has_col "Id" s = true /\ has_col "date" s = true).
Proof.
  unfold merge_chain. unfold_monad. intros Hm.
  assert (Hleft : forall left1 : DataFrame,
            left1 = match daily with
                    | Some d => project (safe_cols daily keep) d
                    | None => empty_frame keep
                    end ->
            has_col "Id" left1 = true -> has_col "date" left1 = true ->
            forall d, daily = Some d -> has_col "Id" d = true /\ has_col "date" d = true).
  { intros left1 -> Hi Hd d ->. rewrite has_col_project, bool_decide_eq_true in Hi, Hd.
    apply has_col_safe_cols in Hi, Hd. tauto. }
  destruct sleep as [s |].
  - destruct (merge _ _) as [e | df1] eqn:Hm1; [done |].
    destruct (merge_inr _ _ _ Hm1) as (Hi0 & Hd0 & Hi1 & Hd1 & _).
    split; [by eapply Hleft |]. intros ? [= <-].
    rewrite has_col_project, bool_decide_eq_true in Hi1, Hd1.
    apply has_col_safe_cols in Hi1, Hd1. tauto.
  - destruct (merge_inr _ _ _ Hm) as (Hi0 & Hd0 & _).
    split; [by eapply Hleft | done].
Qed.

Lemma analysis_inr_iff (daily sleep weight heart : option DataFrame) :
  (exists g, analysis daily sleep weight heart = inr g) <->
  exists d s w h hr,
    norm_id daily = inr d /\ norm_id sleep = inr s /\
    norm_id weight = inr w /\ norm_id heart = inr h /\
    hr_day (heart_dated h) = inr hr /\
    (forall d', parse_daily d = Some d' -> has_col "Id" d' = true /\ has_col "date" d' = true) /\
    (forall s', parse_sleep s = Some s' -> has_col "Id" s' = true /\ has_col "date" s' = true).
Proof.
  unfold analysis. unfold_monad. split.
  - intros [g Hg].
    destruct (norm_id daily) as [e | d]; [done |].
    destruct (norm_id sleep) as [e | s]; [done |].
    destruct (norm_id weight) as [e | w]; [done |].
    destruct (norm_id heart) as [e | h]; [done |].
    destruct (hr_day (heart_dated h)) as [e | hr] eqn:Ehr; [done |].
    destruct (merge_chain _ _ hr) as [e | df] eqn:Hm; [done |].
    destruct (merge_chain_inr_cols _ _ _ _ Hm) as [Hd Hs].
    exists d, s, w, h, hr. do 5 (split; [done |]). split.
    + intros d' Hd'. destruct (dedupe_Some_cols _ _ Hd') as (x' & Ex & Hc).
      rewrite <- !Hc. by apply Hd.
    + intros s' Hs'. destruct (dedupe_Some_cols _ _ Hs') as (x' & Ex & Hc).
      rewrite <- !Hc. by apply Hs.
  - intros (d & s & w & h & hr & -> & -> & -> & -> & Hhr & Hd & Hs). rewrite Hhr.
    destruct (hr_day_NoDup _ _ Hhr) as (Hi & Hdt & _).
    destruct (merge_chain_total (dedupe (parse_daily d)) (dedupe (parse_sleep s)) hr)
      as [df ->]; [| | done | done | by eauto].
    + intros x' Ex. destruct (parse_daily d) as [x0 |] eqn:E0; [| done].
      destruct (dedupe_Some_cols _ _ (eq_refl (Some x0))) as (x1 & Ex1 & Hc).
      rewrite Ex in Ex1. injection Ex1 as <-. rewrite !Hc. by apply Hd.
    + intros x' Ex. destruct (parse_sleep s) as [x0 |] eqn:E0; [| done].
      destruct (dedupe_Some_cols _ _ (eq_refl (Some x0))) as (x1 & Ex1 & Hc).
      rewrite Ex in Ex1. injection Ex1 as <-. rewrite !Hc. by apply Hs.
Qed.

Lemma main_inr_analysis (fs : FileSystem) (out : list string) (g : Globals) :
  (exists out', main fs out = (inr g, out')) <->
  analysis (loaded fs DAILY_CSV) (loaded fs SLEEP_CSV) (loaded fs WEIGHT_CSV)
           (loaded fs HEART_CSV) = inr g.
Proof.
  rewrite <- (main_analysis fs out). destruct (main fs out) as [r o]. cbn [fst]. split.
  - by intros [out' [= -> _]].
  - intros ->. by eauto.
Qed.

Lemma main_inr_joinable (fs : FileSystem) (out : list string) :
  (exists g out', main fs out = (inr g, out')) -> joinable fs.
Proof.
  intros (g & out' & Hg). apply analysis_inr_iff. exists g.
  apply (main_inr_analysis fs out g). by exists out'.
Qed.

(** X17. What a run needs to reach line 132: identifier normalisation
    returns on each of the four tables read (the weight table included),
    the heart-rate aggregate can be computed, and the activity and the
    sleep table, when loaded, have an [Id] column and, after date parsing,
    a [date] column.  When one of these fails the run stops on an
    exception, whatever was printed before.  The conditions are necessary;
    that they are enough is not stated. *)
Theorem main_returns_only_if (fs : FileSystem) (out : list string) :
  ((exists g out', main fs out = (inr g, out')) -> joinable fs) /\
  (~ joinable fs -> exists e out', main fs out = (inl e, out')).
Proof.
  split; [apply main_inr_joinable |].
  intros Hno. destruct (main fs out) as [[e | g] out'] eqn:E; [by exists e, out' |].
  destruct Hno. apply (main_inr_joinable fs out). by exists g, out'.
Qed.

(** X18. The weight table is read, normalised and parsed, but used for
    nothing: two runs that reach line 132 and read the same activity,
    sleep and heart-rate tables end with the same activity, sleep,
    heart-rate, aggregate, joined and valid tables, whatever their weight
    tables and whatever was printed. *)
Theorem weight_not_used (fs1 fs2 : FileSystem) (out1 out2 o1 o2 : list string)
    (g1 g2 : Globals) :
  loaded fs1 DAILY_CSV = loaded fs2 DAILY_CSV ->
  loaded fs1 SLEEP_CSV = loaded fs2 SLEEP_CSV ->
  loaded fs1 HEART_CSV = loaded fs2 HEART_CSV ->
  main fs1 out1 = (inr g1, o1) -> main fs2 out2 = (inr g2, o2) ->
  g_daily g1 = g_daily g2 /\ g_sleep g1 = g_sleep g2 /\ g_heart g1 = g_heart g2 /\
  g_hr_day g1 = g_hr_day g2 /\ g_df g1 = g_df g2 /\ g_df_valid g1 = g_df_valid g2.
Proof.
  intros Hd Hs Hh H1 H2.
  assert (A1 := proj1 (main_inr_analysis fs1 out1 g1) (ex_intro _ o1 H1)).
  assert (A2 := proj1 (main_inr_analysis fs2 out2 g2) (ex_intro _ o2 H2)).
  rewrite Hd, Hs, Hh in A1. revert A1 A2. unfold analysis. unfold_monad.
  destruct (norm_id (loaded fs2 DAILY_CSV)) as [e | d]; [done |].
  destruct (norm_id (loaded fs2 SLEEP_CSV)) as [e | s]; [done |].
  destruct (norm_id (loaded fs1 WEIGHT_CSV)) as [e | w1]; [done |].
  destruct (norm_id (loaded fs2 WEIGHT_CSV)) as [e | w2]; [by destruct (norm_id _) |].
  destruct (norm_id (loaded fs2 HEART_CSV)) as [e | h]; [done |].
  destruct (hr_day (heart_dated h)) as [e | hr]; [done |].
  destruct (merge_chain _ _ hr) as [e | df]; [done |].
  by intros [= <-] [= <-].
Qed.

End Depends.

(** X17, at the example exports, and at an activity export without its
    identifier column. *)
Lemma main_returns_only_if_witness :
  @joinable parsers (files daily_csv sleep_csv weight_csv heart_csv) /\
  exists e out',
    @main parsers (files daily_csv_no_id sleep_csv weight_csv heart_csv) [] = (inl e, out').
Proof.
  assert (Hok : match (@main parsers (files daily_csv sleep_csv weight_csv heart_csv) []).1
                with inr _ => true | inl _ => false end = true) by (vm_compute; reflexivity).
  split.
  - destruct (@main parsers (files daily_csv sleep_csv weight_csv heart_csv) [])
      as [[e | g] out] eqn:E; [discriminate Hok |].
    apply (proj1 (@main_returns_only_if parsers (files daily_csv sleep_csv weight_csv heart_csv) [])).
    exists g, out. exact E.
  - apply (proj2 (@main_returns_only_if parsers
                    (files daily_csv_no_id sleep_csv weight_csv heart_csv) [])).
    intros Hj. apply (@analysis_inr_iff parsers) in Hj as [g Hg].
    apply (@main_inr_analysis parsers _ [] g) in Hg as [out' Hg].
    assert (Hbad : match (@main parsers (files daily_csv_no_id sleep_csv weight_csv heart_csv)
                            []).1
                   with inr _ => false | inl _ => true end = true) by (vm_compute; reflexivity).
    rewrite Hg in Hbad. discriminate Hbad.
Defined.

(** X18, at the example exports, with another table in place of the
    weight export. *)
Lemma weight_not_used_witness :
  exists g1 g2 o1 o2,
    @main parsers (files daily_csv sleep_csv weight_csv heart_csv) [] = (inr g1, o1) /\
    @main parsers (files daily_csv sleep_csv raw_ids heart_csv) [] = (inr g2, o2) /\
    g_df g1 = g_df g2.
Proof.
  assert (Hok1 : match (@main parsers (files daily_csv sleep_csv weight_csv heart_csv) []).1
                 with inr _ => true | inl _ => false end = true) by (vm_compute; reflexivity).
  assert (Hok2 : match (@main parsers (files daily_csv sleep_csv raw_ids heart_csv) []).1
                 with inr _ => true | inl _ => false end = true) by (vm_compute; reflexivity).
  destruct (@main parsers (files daily_csv sleep_csv weight_csv heart_csv) [])
    as [[e | g1] o1] eqn:E1; [discriminate Hok1 |].
  destruct (@main parsers (files daily_csv sleep_csv raw_ids heart_csv) [])
    as [[e | g2] o2] eqn:E2; [discriminate Hok2 |].
  exists g1, g2, o1, o2. split; [reflexivity |]. split; [reflexivity |].
  refine (proj1 (proj2 (proj2 (proj2 (proj2
    (@weight_not_used parsers _ _ _ _ _ _ _ _ _ _ _ E1 E2)))))); reflexivity.
Defined.

(** ** Weekdays *)

Ltac solve_civil :=
  cbn [year month day];
  repeat (match goal with
          | |- context [if ?a <? ?b then _ else _] => destruct (Z.ltb_spec a b)
          end; cbn [year month day]);
  unfold days_from_civil; cbv zeta;
  repeat match goal with
         | |- context [if ?a <=? ?b then _ else _] => destruct (Z.leb_spec a b)
         end;
  Z.div_mod_to_equations; lia.

Lemma days_from_civil_next (t : Timestamp) :
  valid_date t ->
  days_from_civil (year (next_day t)) (month (next_day t)) (day (next_day t))
  = days_from_civil (year t) (month t) (day t) + 1.
Proof.
  destruct t as [y m d hh mi ss]. unfold valid_date, next_day. cbn [year month day].
  intros [Hm Hd]. unfold days_in_month, is_leap in *.
  assert (Hcases : m = 1 \/ m = 2 \/ m = 3 \/ m = 4 \/ m = 5 \/ m = 6 \/ m = 7 \/ m = 8 \/
                   m = 9 \/ m = 10 \/ m = 11 \/ m = 12) by lia.
  destruct Hcases as [-> | [-> | [-> | [-> | [-> | [-> | [-> | [-> | [-> | [-> | [-> | ->]]]]]]]]]]];
    cbn [Z.eqb Pos.eqb orb] in *.
  all: try (destruct (d <? 31) eqn:E; [apply Z.ltb_lt in E | apply Z.ltb_ge in E];
            solve_civil).
  all: try (destruct (d <? 30) eqn:E; [apply Z.ltb_lt in E | apply Z.ltb_ge in E];
            solve_civil).
  destruct (y mod 4 =? 0) eqn:E4; destruct (y mod 100 =? 0) eqn:E100;
    destruct (y mod 400 =? 0) eqn:E400;
    rewrite ?E4, ?E100, ?E400 in Hd; cbn [negb andb orb] in *;
  first [apply Z.eqb_eq in E4 | apply Z.eqb_neq in E4];
  first [apply Z.eqb_eq in E100 | apply Z.eqb_neq in E100];
  first [apply Z.eqb_eq in E400 | apply Z.eqb_neq in E400];
  (match goal with
   | |- context [d <? ?n] =>
     destruct (d <? n) eqn:E; [apply Z.ltb_lt in E | apply Z.ltb_ge in E]
   end);
  solve_civil.
Qed.

Lemma days_in_month_bounds (y m : Z) : 28 <= days_in_month y m <= 31.
Proof.
  unfold days_in_month. destruct (m =? 2); [destruct (is_leap y); lia |].
  destruct (_ || _); lia.
Qed.

Lemma next_day_valid (t : Timestamp) : valid_date t -> valid_date (next_day t).
Proof.
  destruct t as [y m d hh mi ss]. unfold valid_date, next_day. cbn [year month day].
  intros [Hm Hd].
  destruct (Z.ltb_spec d (days_in_month y m)); cbn [year month day]; [lia |].
  destruct (Z.ltb_spec m 12); cbn [year month day].
  - pose proof (days_in_month_bounds y (m + 1)). lia.
  - pose proof (days_in_month_bounds (y + 1) 1). lia.
Qed.

Lemma day_name_next (t : Timestamp) :
  valid_date t ->
  exists i, (i < 7)%nat /\ WEEKDAYS !! i = Some (day_name t) /\
            WEEKDAYS !! ((i + 1) mod 7)%nat = Some (day_name (next_day t)).
Proof.
  intros Hv. unfold day_name. rewrite (days_from_civil_next t Hv).
  set (n := days_from_civil (year t) (month t) (day t)).
  replace ((n + 1 + 3) mod 7) with (((n + 3) mod 7 + 1) mod 7)
    by (rewrite Z.add_mod_idemp_l by lia; f_equal; lia).
  pose proof (Z.mod_pos_bound (n + 3) 7 ltac:(lia)) as Hk.
  set (k := (n + 3) mod 7) in *.
  assert (Hcases : k = 0 \/ k = 1 \/ k = 2 \/ k = 3 \/ k = 4 \/ k = 5 \/ k = 6) by lia.
  destruct Hcases as [-> | [-> | [-> | [-> | [-> | [-> | ->]]]]]].
  - exists 0%nat. repeat split; [lia ..].
  - exists 1%nat. repeat split; [lia ..].
  - exists 2%nat. repeat split; [lia ..].
  - exists 3%nat. repeat split; [lia ..].
  - exists 4%nat. repeat split; [lia ..].
  - exists 5%nat. repeat split; [lia ..].
  - exists 6%nat. repeat split; [lia ..].
Qed.

(** X19. The weekday column, on a joined table whose dates are
    timestamps or missing, as date parsing leaves them: a row gets the
    name of the weekday of its date, whatever the time of day, and a
    missing value when it has no date; no other cell changes.  The names
    follow the calendar: the first of January 1970 is a Thursday, and the
    day after any date of the calendar, leap years included, has the next
    name of the week. *)
Theorem weekday_calendar :
  day_name (mkTS 1970 1 1 0 0 0) = "Thursday" /\
  (forall t, valid_date t ->
     valid_date (next_day t) /\
     exists i, (i < 7)%nat /\ WEEKDAYS !! i = Some (day_name t) /\
               WEEKDAYS !! ((i + 1) mod 7)%nat = Some (day_name (next_day t))) /\
  (forall df, has_col "date" df = true ->
     Forall (fun c => c = VNull \/ exists t, c = VDate t) (col "date" df) ->
     Forall2 (fun r r' : gmap string cell =>
                (forall c, c ≠ "weekday" -> r' !! c = r !! c) /\
                ((get "date" r = VNull /\ get "weekday" r' = VNull) \/
                 (exists t, get "date" r = VDate t /\
                            get "weekday" r' = VStr (day_name (normalize t)))))
             (rows df) (rows (add_weekday df))).
Proof.
  split; [reflexivity |]. split.
  - intros t Hv. split; [by apply next_day_valid | by apply day_name_next].
  - intros df Hd Hdates. unfold add_weekday. rewrite Hd.
    unfold col in *. rewrite map_map.
    rewrite (rows_assign_map "weekday"
               (fun r => match get "date" r with
                         | VDate t => VStr (day_name t)
                         | _ => VNull
                         end)).
    apply List.Forall_map in Hdates. rewrite Forall_forall in Hdates.
    apply Forall2_map_r, Forall_Forall2_diag, Forall_forall. intros r Hr. split.
    + intros c Hc. by rewrite lookup_insert_ne.
    + rewrite get_insert_eq. destruct (Hdates r Hr) as [E | [t E]]; rewrite E.
      * by left.
      * right. by exists t.
Qed.

(** ** De-duplicating twice *)

Lemma string_ltb_trans (s t u : string) :
  String.ltb s t = true -> String.ltb t u = true -> String.ltb s u = true.
Proof.
  unfold String.ltb. intros Hst Htu.
  assert (H1 : String_as_OT.lt s t).
  { apply String_as_OT.cmp_lt. unfold String_as_OT.cmp. by destruct (String.compare s t). }
  assert (H2 : String_as_OT.lt t u).
  { apply String_as_OT.cmp_lt. unfold String_as_OT.cmp. by destruct (String.compare t u). }
  pose proof (String_as_OT.lt_trans _ _ _ H1 H2) as H3.
  apply String_as_OT.cmp_lt in H3. unfold String_as_OT.cmp in H3. by rewrite H3.
Qed.

Lemma string_ltb_total (s t : string) :
  String.ltb s t = false -> String.ltb t s = false -> s = t.
Proof.
  unfold String.ltb. rewrite (String.compare_antisym t s).
  destruct (String.compare s t) eqn:E; cbn; try done.
  intros _ _. by apply String.compare_eq_iff.
Qed.

Lemma lexc_Lt (c1 c2 : comparison) :
  lexc c1 c2 = Lt <-> c1 = Lt \/ (c1 = Eq /\ c2 = Lt).
Proof. destruct c1, c2; cbn; intuition congruence. Qed.

Lemma lexc_Eq (c1 c2 : comparison) : lexc c1 c2 = Eq <-> c1 = Eq /\ c2 = Eq.
Proof. destruct c1, c2; cbn; intuition congruence. Qed.

Lemma ts_compare_trans (a b c : Timestamp) :
  ts_compare a b = Lt -> ts_compare b c = Lt -> ts_compare a c = Lt.
Proof.
  destruct a as [y1 m1 d1 h1 i1 s1], b as [y2 m2 d2 h2 i2 s2], c as [y3 m3 d3 h3 i3 s3].
  cbv [ts_compare year month day hour minute second].
  rewrite !lexc_Lt, !Z.compare_lt_iff, !Z.compare_eq_iff. lia.
Qed.

Lemma ts_compare_eq (a b : Timestamp) : ts_compare a b = Eq -> a = b.
Proof.
  destruct a as [y1 m1 d1 h1 i1 s1], b as [y2 m2 d2 h2 i2 s2].
  cbv [ts_compare year month day hour minute second].
  rewrite !lexc_Eq, !Z.compare_eq_iff. intros (-> & -> & -> & -> & -> & ->). done.
Qed.

(** On keys as the script makes them, the order of the sort is a total
    preorder. *)
Lemma key_le_trans (k1 k2 k3 : cell * cell) :
  typed_key k1 -> typed_key k2 -> typed_key k3 ->
  key_ltb k2 k1 = false -> key_ltb k3 k2 = false -> key_ltb k3 k1 = false.
Proof.
  destruct k1 as [i1 d1], k2 as [i2 d2], k3 as [i3 d3]. unfold typed_key, key_ltb.
  cbn [fst snd].
  intros [[s1 ->] Hd1] [[s2 ->] Hd2] [[s3 ->] Hd3]. cbn [cell_ltb].
  intros [H21 H21']%orb_false_elim [H32 H32']%orb_false_elim.
  apply orb_false_intro.
  - destruct (String.ltb s3 s1) eqn:E31; [| done].
    destruct (String.ltb s1 s2) eqn:E12.
    + by rewrite (string_ltb_trans _ _ _ E31 E12) in H32.
    + pose proof (string_ltb_total _ _ E12 H21) as ->. congruence.
  - destruct (bool_decide_reflect (VStr s3 = VStr s1)) as [[= ->] | Hne]; [| done].
    cbn [andb].
    pose proof (string_ltb_total _ _ H21 H32) as ->.
    rewrite bool_decide_eq_true_2 in H21', H32' by done. cbn [andb] in H21', H32'.
    destruct Hd1 as [-> | [t1 ->]], Hd2 as [-> | [t2 ->]], Hd3 as [-> | [t3 ->]];
      cbn [cell_ltb cell_rank] in *; try done.
    destruct (ts_compare t3 t1) eqn:E31; try done.
    destruct (ts_compare t1 t2) eqn:E12.
    + apply ts_compare_eq in E12 as ->. by rewrite E31 in H32'.
    + by rewrite (ts_compare_trans _ _ _ E31 E12) in H32'.
    + rewrite (ts_compare_antisym t1 t2), E12 in H21'. done.
Qed.

Lemma HdRel_Forall_typed (x : gmap string cell) (l : list (gmap string cell)) :
  typed_key (key_of x) -> Forall (fun r => typed_key (key_of r)) l ->
  Sorted (key_le key_of) l -> HdRel (key_le key_of) x l -> Forall (key_le key_of x) l.
Proof.
  intros Hx Hty Hs. revert Hty. induction Hs as [| y l Hs IH Hhd]; intros Hty Hxl; [constructor |].
  apply Forall_cons in Hty as [Hy Hty]. apply HdRel_inv in Hxl.
  constructor; [done |]. apply IH; [done |].
  destruct Hhd as [| z l Hyz]; constructor.
  apply Forall_cons in Hty as [Hz _]. unfold key_le in *.
  by apply (key_le_trans _ (key_of y)).
Qed.

Lemma Sorted_sublist_typed (l1 l2 : list (gmap string cell)) :
  Forall (fun r => typed_key (key_of r)) l2 ->
  l1 `sublist_of` l2 -> Sorted (key_le key_of) l2 -> Sorted (key_le key_of) l1.
Proof.
  intros Hty Hsub Hs.
  assert (Hss : StronglySorted (key_le key_of) l2).
  { clear Hsub. induction Hs as [| x l Hs IH Hhd]; [constructor |].
    apply Forall_cons in Hty as [Hx Hty]. constructor; [by apply IH |].
    by apply HdRel_Forall_typed. }
  clear Hs Hty. apply StronglySorted_Sorted.
  induction Hsub as [| x l1 l2 Hsub IH | x l1 l2 Hsub IH]; [constructor | |].
  - apply StronglySorted_inv in Hss as [Hss Hall]. constructor; [by apply IH |].
    apply Forall_forall. intros y Hy. rewrite Forall_forall in Hall. apply Hall.
    by apply (elem_of_sublist l1 l2).
  - apply StronglySorted_inv in Hss as [Hss _]. by apply IH.
Qed.

Lemma drop_duplicates_from_sublist (seen : list (cell * cell)) (l : list (gmap string cell)) :
  drop_duplicates_from seen l `sublist_of` l.
Proof.
  revert seen. induction l as [| r l IH]; intros seen; cbn [drop_duplicates_from]; [constructor |].
  case_bool_decide; [by apply sublist_cons | by apply sublist_skip].
Qed.

(** X20. De-duplication is idempotent on the tables the script gives it:
    when every identifier is a string and every date a timestamp or
    missing, de-duplicating the de-duplicated table returns it
    unchanged. *)
Theorem dedupe_idempotent (d d' : DataFrame) :
  Forall (fun r => typed_key (key_of r)) (rows d) ->
  dedupe (Some d) = Some d' -> dedupe (Some d') = Some d'.
Proof.
  intros Hty. unfold dedupe at 1. destruct (has_col "Id" d && has_col "date" d) eqn:Ec.
  - intros [= <-]. unfold dedupe, has_col. cbn [columns rows]. fold (has_col "Id" d).
    fold (has_col "date" d). rewrite Ec. f_equal. f_equal.
    set (l := drop_duplicates (sort_values key_of (rows d))).
    assert (Hs : Sorted (key_le key_of) l).
    { apply (Sorted_sublist_typed _ (sort_values key_of (rows d))).
      - by rewrite (sort_values_perm key_of (rows d)).
      - apply drop_duplicates_from_sublist.
      - apply sort_values_Sorted. }
    rewrite (sort_values_sorted _ _ Hs). unfold drop_duplicates.
    apply drop_duplicates_from_unique; [apply drop_duplicates_from_NoDup |].
    apply Forall_forall. intros x _. apply not_elem_of_nil.
  - intros [= <-]. unfold dedupe. by rewrite Ec.
Qed.

(** X20, at a sleep table with a day logged twice. *)
Lemma dedupe_idempotent_witness :
  exists d', dedupe (Some sleep_twice) = Some d' /\ dedupe (Some d') = Some d'.
Proof.
  destruct (dedupe (Some sleep_twice)) as [d' |] eqn:E; [| vm_compute in E; discriminate E].
  exists d'. split; [reflexivity |].
  apply (dedupe_idempotent sleep_twice d'); [| exact E].
  unfold sleep_twice, frame. cbn [rows fmap list_fmap].
  repeat (apply List.Forall_cons;
          [split; [by eexists | right; by eexists] |]).
  apply List.Forall_nil.
Defined.

(** ** The keys of the joined table *)

Section Keys.
Context `{Pandas}.

Lemma norm_id_Some (x : option DataFrame) (d : DataFrame) :
  norm_id x = inr (Some d) ->
  exists x0, x = Some x0 /\ columns d = columns x0 /\
    (has_col "Id" x0 = true -> Forall canonical (col "Id" d)).
Proof.
  destruct x as [x0 |]; [| done]. unfold norm_id. destruct (has_col "Id" x0) eqn:Ei.
  - unfold astype_Int64. unfold_monad.
    destruct (traverse _ _) as [e | ids] eqn:E; [done |]. intros [= <-].
    exists x0. split; [done |]. split; [by apply columns_assign_has |]. intros _.
    pose proof (traverse_length _ _ _ E) as Hlen. rewrite length_fmap in Hlen.
    rewrite col_assign_eq by (rewrite length_fmap, Hlen; unfold col; by rewrite length_map).
    apply traverse_inr in E. clear Hlen.
    generalize dependent (is_float64 (numeric_of_cell <$> col "Id" x0)). intros fl E.
    generalize dependent (numeric_of_cell <$> col "Id" x0). intros ns E.
    induction E as [| n oz ns ids Hn _ IH]; [constructor |].
    rewrite fmap_cons.
    apply List.Forall_cons; [exact (astype_str_canonical _ _ _ Hn) | exact IH].
  - intros [= <-]. exists x0. split; [done |]. split; [done |]. intros Hi. congruence.
Qed.

Lemma parse_daily_keys (d pd : DataFrame) :
  parse_daily (Some d) = Some pd ->
  col "Id" pd = col "Id" d /\
  (has_col "ActivityDate" d = true -> Forall midnight (col "date" pd)) /\
  (forall c, has_col c d = true -> has_col c pd = true).
Proof.
  unfold parse_daily. destruct (has_col "ActivityDate" d) eqn:Ea; intros [= <-].
  - assert (Hl1 : length (to_datetime_coerce FMT_DATE (col "ActivityDate" d))
                  = length (rows d)).
    { rewrite length_to_datetime_coerce. unfold col. by rewrite length_map. }
    assert (Hl2 : forall d1 : DataFrame,
              length (dt_normalize (col "ActivityDate" d1)) = length (rows d1)).
    { intros d1. rewrite length_dt_normalize. unfold col. by rewrite length_map. }
    split; [| split].
    + rewrite col_assign_ne by done. by rewrite col_assign_ne.
    + intros _. rewrite col_assign_eq by done. apply dt_normalize_midnight.
    + intros c Hc. rewrite !has_col_assign, Hc. done.
  - done.
Qed.

(** X21. The keys of the joined table are normalised: in every run that
    reaches line 132, every [Id] of the joined table is the decimal string
    of an integer or ["<NA>"], and, when the activity export has an
    [ActivityDate] column, every [date] is missing or a timestamp at
    midnight. *)
Theorem main_keys_normalised (fs : FileSystem) (out out' : list string) (g : Globals) :
  main fs out = (inr g, out') ->
  Forall (fun r => canonical (get "Id" r)) (rows (g_df g)) /\
  ((forall d0, loaded fs DAILY_CSV = Some d0 -> has_col "ActivityDate" d0 = true) ->
   Forall (fun r => midnight (get "date" r)) (rows (g_df g))).
Proof.
  intros Hmain.
  assert (Ha := proj1 (main_inr_analysis fs out g) (ex_intro _ out' Hmain)).
  revert Ha. unfold analysis. unfold_monad.
  destruct (norm_id (loaded fs DAILY_CSV)) as [e | d] eqn:En; [done |].
  destruct (norm_id (loaded fs SLEEP_CSV)) as [e | s]; [done |].
  destruct (norm_id (loaded fs WEIGHT_CSV)) as [e | w]; [done |].
  destruct (norm_id (loaded fs HEART_CSV)) as [e | h]; [done |].
  destruct (hr_day (heart_dated h)) as [e | hr] eqn:Ehr; [done |].
  destruct (merge_chain _ _ hr) as [e | df0] eqn:Hm; [done |]. intros [= <-]. cbn [g_df].
  destruct (join_keys _ _ _ _ _ Ehr Hm) as [Hkeys _].
  destruct (merge_chain_inr_cols _ _ _ _ Hm) as [Hdcols _].
  assert (Hk : key_of <$> rows (qc_flags (add_weekday (coerce_num_cols df0)))
               = key_of <$> from_option rows [] (dedupe (parse_daily d))).
  { by rewrite keys_qc_flags, keys_add_weekday, keys_coerce_num_cols. }
  assert (Hall : forall (P : cell * cell -> Prop),
            Forall (fun r => P (key_of r)) (from_option rows [] (dedupe (parse_daily d))) ->
            Forall (fun r => P (key_of r)) (rows (qc_flags (add_weekday (coerce_num_cols df0))))).
  { intros P HP. apply Forall_forall. intros r Hr.
    assert (Hin : key_of r ∈ key_of <$> from_option rows [] (dedupe (parse_daily d))).
    { rewrite <- Hk. apply list_elem_of_fmap. eauto. }
    apply list_elem_of_fmap in Hin as (r' & -> & Hr'). rewrite Forall_forall in HP.
    by apply HP. }
  destruct (parse_daily d) as [pd |] eqn:Ep.
  2: { cbn [dedupe from_option] in *. apply fmap_nil_inv in Hk. rewrite Hk.
       split; [constructor | intros _; constructor]. }
  destruct d as [d1 |]; [| done].
  destruct (norm_id_Some _ _ En) as (d0 & Eload & Hc0 & Hcan).
  destruct (parse_daily_keys _ _ Ep) as (Hid & Hmid & Hhas).
  destruct (dedupe_Some_cols (Some pd) pd eq_refl) as (dd & Edd & Hddc).
  destruct (Hdcols dd Edd) as [Hi _]. rewrite Hddc in Hi.
  assert (Hsub : rows dd ⊆+ rows pd).
  { revert Edd. unfold dedupe. destruct (_ && _); intros [= <-]; [| done]. cbn [rows].
    etrans; [apply drop_duplicates_from_submseteq |].
    apply Permutation_submseteq, sort_values_perm. }
  rewrite Edd in Hall. cbn [from_option] in Hall.
  assert (Hrows : forall (Q : cell -> Prop) (c : string),
            Forall Q (col c pd) -> Forall (fun r => Q (get c r)) (rows dd)).
  { intros Q c HQ. apply Forall_forall. intros r Hr.
    apply (elem_of_submseteq _ _ _ Hr) in Hsub.
    unfold col in HQ. rewrite Forall_forall in HQ. apply HQ.
    apply list_elem_of_In, in_map. by apply list_elem_of_In. }
  split.
  - apply (Hall (fun k => canonical k.1)). apply (Hrows canonical "Id").
    rewrite Hid. apply Hcan.
    assert (Hi1 : has_col "Id" d1 = true).
    { unfold parse_daily in Ep. destruct (has_col "ActivityDate" d1); injection Ep as <-;
        [| done].
      rewrite !has_col_assign in Hi. cbn in Hi. by rewrite !orb_false_r in Hi. }
    unfold has_col in *. by rewrite <- Hc0.
  - intros Hact. apply (Hall (fun k => midnight k.2)). apply (Hrows midnight "date").
    apply Hmid. specialize (Hact d0 Eload). unfold has_col in *. by rewrite Hc0.
Qed.

End Keys.

(** X21, at the example exports. *)
Lemma main_keys_normalised_witness :
  exists g out,
    @main parsers (files daily_csv sleep_csv weight_csv heart_csv) [] = (inr g, out) /\
    Forall (fun r => canonical (get "Id" r)) (rows (g_df g)).
Proof.
  assert (Hok : match (@main parsers (files daily_csv sleep_csv weight_csv heart_csv) []).1
                with inr _ => true | inl _ => false end = true) by (vm_compute; reflexivity).
  destruct (@main parsers (files daily_csv sleep_csv weight_csv heart_csv) [])
    as [[e | g] out] eqn:E; [discriminate Hok |].
  exists g, out. split; [reflexivity |].
  exact (proj1 (@main_keys_normalised parsers _ _ _ _ E)).
Defined.
